(** * HackRx submission scheduler: task store, time parser, result classifier,
      monitoring loop and dispatcher

    A shallow embedding of [mann.py] (TaskManager, HackRxBot) and of
    [HackRxSeleniumScraper.extract_submission_details] from [test.py].

    Conventions of the model.
    - Python [str] values are Rocq [string]s, one character per code point;
      case folding ([str.lower], [re.IGNORECASE]) is the ASCII one, so the
      model speaks about ASCII page text, notes and time strings.  The emoji
      alternatives of the status patterns are kept as their UTF-8 bytes.
    - Python [dict]s keyed by task id are [gmap string _]; JSON documents and
      result dictionaries are trees of type [json].
    - A [datetime] is the record of its calendar fields together with the UTC
      offset of its tzinfo in minutes; instants are compared through
      [instant], the number of microseconds on the UTC time line.
    - Exceptions are values of type [exn]; fallible functions return
      [result].  *)

From Stdlib Require Import ZArith Lia List Bool Ascii String.
From stdpp Require Import base option list gmap strings pretty.

Local Open Scope string_scope.
Local Open Scope Z_scope.

(** ** Python string primitives *)

Definition code (c : ascii) : N := N_of_ascii c.

(** [str.isspace] on one ASCII character: TAB..CR, FS..US and SPACE. *)
Definition is_space (c : ascii) : bool :=
  let n := code c in
  ((9 <=? n) && (n <=? 13) || (28 <=? n) && (n <=? 32))%N.

Definition is_digit (c : ascii) : bool :=
  let n := code c in ((48 <=? n) && (n <=? 57))%N.

Definition lower_char (c : ascii) : ascii :=
  let n := code c in
  if ((65 <=? n) && (n <=? 90))%N then ascii_of_N (n + 32) else c.

(** [s.lower()] *)
Fixpoint py_lower (s : string) : string :=
  match s with
  | EmptyString => EmptyString
  | String c s' => String (lower_char c) (py_lower s')
  end.

Fixpoint py_lstrip (s : string) : string :=
  match s with
  | EmptyString => EmptyString
  | String c s' => if is_space c then py_lstrip s' else s
  end.

Fixpoint py_rstrip (s : string) : string :=
  match s with
  | EmptyString => EmptyString
  | String c s' =>
      match py_rstrip s' with
      | EmptyString => if is_space c then EmptyString else String c EmptyString
      | t => String c t
      end
  end.

(** [s.strip()] *)
Definition py_strip (s : string) : string := py_rstrip (py_lstrip s).

(** [s.startswith(p)] *)
Fixpoint py_startswith (p s : string) : bool :=
  match p, s with
  | EmptyString, _ => true
  | String a p', String b s' => if Ascii.eqb a b then py_startswith p' s' else false
  | String _ _, EmptyString => false
  end.

(** [s.endswith(p)] *)
Definition py_endswith (p s : string) : bool :=
  let lp := String.length p in
  let ls := String.length s in
  (lp <=? ls)%nat && String.eqb (substring (ls - lp) lp s) p.

(** [s.find(sub)]: lowest index of an occurrence, [-1] when there is none. *)
Fixpoint py_find_from (sub s : string) (i : Z) : Z :=
  if py_startswith sub s then i
  else match s with
       | EmptyString => -1
       | String _ s' => py_find_from sub s' (i + 1)
       end.

Definition py_find (sub s : string) : Z := py_find_from sub s 0.

(** [sub in s] *)
Definition py_in (sub s : string) : bool := negb (py_find sub s =? -1).

(** [s[a:b]] for non-negative [a], [b]. *)
Definition py_slice (s : string) (a b : Z) : string :=
  substring (Z.to_nat a) (Z.to_nat (b - a)) s.

Fixpoint drop_chars (n : nat) (s : string) : string :=
  match n, s with
  | O, _ => s
  | S n', String _ s' => drop_chars n' s'
  | S _, EmptyString => EmptyString
  end.

(** [s.replace(old, new)] for a non-empty [old]: every non-overlapping
    occurrence, scanning from the left.  The fuel bounds the number of
    scanning steps by the length of [s]. *)
Fixpoint py_replace_fuel (fuel : nat) (old new s : string) : string :=
  match fuel with
  | O => s
  | S f =>
      match s with
      | EmptyString => EmptyString
      | String c s' =>
          if py_startswith old s
          then new +:+ py_replace_fuel f old new (drop_chars (String.length old) s)
          else String c (py_replace_fuel f old new s')
      end
  end.

Definition py_replace (old new s : string) : string :=
  py_replace_fuel (S (String.length s)) old new s.

(** ** Regular expressions ([re.match], [re.search])

    The fragment of Python's [re] syntax that the program uses, with the
    backtracking semantics of the library: alternatives are tried left to
    right, quantifiers are greedy, and a search returns the match at the
    leftmost start position. *)

Inductive cclass : Type :=
| CLit (c : ascii)            (* a literal character *)
| CDigit                      (* \d *)
| CSpace                      (* \s *)
| CAny                        (* .  : anything but a newline *)
| COr (a b : cclass).         (* [ab] *)

Inductive regex : Type :=
| REps
| RChr (c : cclass)
| RCat (r1 r2 : regex)
| RAlt (r1 r2 : regex)
| RStar (r : regex)
| RGroup (n : nat) (r : regex).

Definition RPlus (r : regex) : regex := RCat r (RStar r).
Definition ROpt (r : regex) : regex := RAlt r REps.

Fixpoint RStr (s : string) : regex :=
  match s with
  | EmptyString => REps
  | String c EmptyString => RChr (CLit c)
  | String c s' => RCat (RChr (CLit c)) (RStr s')
  end.

Fixpoint RSeq (rs : list regex) : regex :=
  match rs with
  | [] => REps
  | [r] => r
  | r :: rs' => RCat r (RSeq rs')
  end.

(** [ic] is the [re.IGNORECASE] flag. *)
Fixpoint cmatch (ic : bool) (c : cclass) (a : ascii) : bool :=
  match c with
  | CLit b => if ic then Ascii.eqb (lower_char a) (lower_char b) else Ascii.eqb a b
  | CDigit => is_digit a
  | CSpace => is_space a
  | CAny => negb (Ascii.eqb a "010"%char)
  | COr x y => cmatch ic x a || cmatch ic y a
  end.

(** Captured groups, most recent binding first. *)
Definition caps : Type := list (nat * string).

Fixpoint group (n : nat) (cs : caps) : option string :=
  match cs with
  | [] => None
  | (m, s) :: cs' => if Nat.eqb n m then Some s else group n cs'
  end.

(** The matcher in continuation-passing style.  [fuel] bounds the number of
    iterations of a starred expression; every iteration must consume input,
    so the length of the subject is always enough. *)
Fixpoint rx (ic : bool) (fuel : nat) {struct fuel}
  : regex -> string -> caps -> (string -> caps -> option caps) -> option caps :=
  fix go (r : regex) (s : string) (cs : caps)
         (k : string -> caps -> option caps) {struct r} : option caps :=
    match r with
    | REps => k s cs
    | RChr c =>
        match s with
        | String a s' => if cmatch ic c a then k s' cs else None
        | EmptyString => None
        end
    | RCat r1 r2 => go r1 s cs (fun s' cs' => go r2 s' cs' k)
    | RAlt r1 r2 =>
        match go r1 s cs k with
        | Some x => Some x
        | None => go r2 s cs k
        end
    | RStar r1 =>
        match fuel with
        | O => k s cs
        | S f =>
            match go r1 s cs
                    (fun s' cs' =>
                       if (String.length s' <? String.length s)%nat
                       then rx ic f (RStar r1) s' cs' k
                       else None) with
            | Some x => Some x
            | None => k s cs
            end
        end
    | RGroup n r1 =>
        go r1 s cs
           (fun s' cs' =>
              k s' ((n, substring 0 (String.length s - String.length s') s) :: cs'))
    end.

(** [re.match(r, s)] (anchored at the start of [s]). *)
Definition re_match (ic : bool) (r : regex) (s : string) : option caps :=
  rx ic (S (String.length s)) r s [] (fun _ cs => Some cs).

(** [re.search(r, s)]. *)
Fixpoint re_search (ic : bool) (r : regex) (s : string) : option caps :=
  match re_match ic r s with
  | Some cs => Some cs
  | None =>
      match s with
      | EmptyString => None
      | String _ s' => re_search ic r s'
      end
  end.

Definition dig : regex := RChr CDigit.
Definition sp : regex := RChr CSpace.
Definition lit (c : ascii) : regex := RChr (CLit c).

(** What it means for an expression to match a string: [matches ic r cs p cs']
    says that [r] matches exactly [p] and turns the captures [cs] into
    [cs'].  The matcher [rx] only ever returns such matches of a prefix of
    its subject. *)
Inductive matches (ic : bool) : regex -> caps -> string -> caps -> Prop :=
| M_eps cs : matches ic REps cs "" cs
| M_chr c a cs : cmatch ic c a = true -> matches ic (RChr c) cs (String a "") cs
| M_cat r1 r2 cs p1 cs1 p2 cs2 :
    matches ic r1 cs p1 cs1 -> matches ic r2 cs1 p2 cs2 ->
    matches ic (RCat r1 r2) cs (p1 +:+ p2) cs2
| M_alt_l r1 r2 cs p cs' : matches ic r1 cs p cs' -> matches ic (RAlt r1 r2) cs p cs'
| M_alt_r r1 r2 cs p cs' : matches ic r2 cs p cs' -> matches ic (RAlt r1 r2) cs p cs'
| M_star_0 r cs : matches ic (RStar r) cs "" cs
| M_star_S r cs p1 cs1 p2 cs2 :
    matches ic r cs p1 cs1 -> matches ic (RStar r) cs1 p2 cs2 ->
    matches ic (RStar r) cs (p1 +:+ p2) cs2
| M_group n r cs p cs' :
    matches ic r cs p cs' -> matches ic (RGroup n r) cs p ((n, p) :: cs').

(** ** Exceptions *)

Inductive exn : Type :=
| ValueError (msg : string)
| OverflowError (msg : string)
| KeyError (key : string)
| TypeError (msg : string)
| AttributeError (msg : string).

Inductive result (A : Type) : Type :=
| Ok (a : A)
| Raise (e : exn).
Arguments Ok {A} a.
Arguments Raise {A} e.

#[global] Instance result_bind : MBind result :=
  fun A B (f : A -> result B) (x : result A) =>
    match x with
    | Ok a => f a
    | Raise e => Raise e
    end.

#[global] Instance result_ret : MRet result := fun A (a : A) => Ok a.

Definition raises {A : Type} (x : result A) : bool :=
  match x with
  | Raise _ => true
  | Ok _ => false
  end.

(** ** Calendar dates, times of day and datetimes *)

Record date : Type := mkdate { d_year : Z; d_month : Z; d_day : Z }.
Record time : Type := mktime { t_hour : Z; t_minute : Z; t_second : Z; t_micro : Z }.

(** [dt_tz] is the UTC offset of the tzinfo in minutes; [None] is a naive
    datetime. *)
Record datetime : Type := mkdt { dt_date : date; dt_time : time; dt_tz : option Z }.

Definition MINYEAR : Z := 1.
Definition MAXYEAR : Z := 9999.

Definition is_leap (y : Z) : bool :=
  (y mod 4 =? 0) && (negb (y mod 100 =? 0) || (y mod 400 =? 0)).

Definition days_in_month (y m : Z) : Z :=
  if m =? 2 then (if is_leap y then 29 else 28)
  else if (m =? 4) || (m =? 6) || (m =? 9) || (m =? 11) then 30
  else 31.

Definition valid_date (d : date) : bool :=
  (MINYEAR <=? d_year d) && (d_year d <=? MAXYEAR) &&
  (1 <=? d_month d) && (d_month d <=? 12) &&
  (1 <=? d_day d) && (d_day d <=? days_in_month (d_year d) (d_month d)).

Definition valid_time (t : time) : bool :=
  (0 <=? t_hour t) && (t_hour t <? 24) &&
  (0 <=? t_minute t) && (t_minute t <? 60) &&
  (0 <=? t_second t) && (t_second t <? 60) &&
  (0 <=? t_micro t) && (t_micro t <? 1000000).

Definition valid_tz (tz : option Z) : bool :=
  match tz with
  | None => true
  | Some off => (-1440 <? off) && (off <? 1440)
  end.

Definition valid_datetime (dt : datetime) : bool :=
  valid_date (dt_date dt) && valid_time (dt_time dt) && valid_tz (dt_tz dt).

(** Days before January 1st of year [y] (proleptic Gregorian calendar). *)
Definition days_before_year (y : Z) : Z :=
  let p := y - 1 in p * 365 + p / 4 - p / 100 + p / 400.

(** Days of year [y] before the first day of month [m]. *)
Definition days_before_month (y m : Z) : Z :=
  match m with
  | 1 => 0 | 2 => 31 | 3 => 59 | 4 => 90 | 5 => 120 | 6 => 151
  | 7 => 181 | 8 => 212 | 9 => 243 | 10 => 273 | 11 => 304 | _ => 334
  end + (if (2 <? m) && is_leap y then 1 else 0).

(** [date.toordinal()]: 0001-01-01 is day 1. *)
Definition toordinal (d : date) : Z :=
  days_before_year (d_year d) + days_before_month (d_year d) (d_month d) + d_day d.

(** The position of an aware datetime on the UTC time line, in
    microseconds; this is what [<=] between two aware datetimes compares
    (for a naive datetime it is the position of its fields, which is what
    [<=] between two naive datetimes compares). *)
Definition instant (dt : datetime) : Z :=
  let t := dt_time dt in
  let off := match dt_tz dt with Some o => o | None => 0 end in
  ((toordinal (dt_date dt) * 86400
    + t_hour t * 3600 + t_minute t * 60 + t_second t - off * 60) * 1000000)
  + t_micro t.

Definition dt_le (a b : datetime) : bool := instant a <=? instant b.
Definition dt_lt (a b : datetime) : bool := instant a <? instant b.

Definition aware (dt : datetime) : bool :=
  match dt_tz dt with Some _ => true | None => false end.

(** [a <= b] between any two datetimes: two aware ones are compared as
    instants, two naive ones by their fields, and a naive one cannot be
    compared with an aware one. *)
Definition dt_le_py (a b : datetime) : result bool :=
  if Bool.eqb (aware a) (aware b) then Ok (dt_le a b)
  else Raise (TypeError "can't compare offset-naive and offset-aware datetimes").

(** [d + timedelta(days=1)]; the library raises [OverflowError] past
    9999-12-31. *)
Definition next_day (d : date) : result date :=
  if d_day d <? days_in_month (d_year d) (d_month d)
  then Ok (mkdate (d_year d) (d_month d) (d_day d + 1))
  else if d_month d <? 12
  then Ok (mkdate (d_year d) (d_month d + 1) 1)
  else if d_year d <? MAXYEAR
  then Ok (mkdate (d_year d + 1) 1 1)
  else Raise (OverflowError "date value out of range").

(** [dt + timedelta(days=1)]: wall-clock arithmetic, the tzinfo is kept. *)
Definition add_one_day (dt : datetime) : result datetime :=
  d ← next_day (dt_date dt);
  Ok (mkdt d (dt_time dt) (dt_tz dt)).

(** The offset of Asia/Kolkata: UTC+05:30, without daylight saving, for
    every date since 1945-10-15. *)
Definition IST_offset : Z := 330.

(** [datetime.combine(d, t)] *)
Definition combine (d : date) (t : time) : datetime := mkdt d t None.

(** The value that [IST.localize] returns when it returns. *)

Definition IST_localize (dt : datetime) : datetime :=
  mkdt (dt_date dt) (dt_time dt) (Some IST_offset).

(** [IST.localize(dt)] of pytz, for the zone Asia/Kolkata.  The argument
    must be naive.  To find the offset in force around [dt] the library
    first computes [dt - timedelta(days=1)] and [dt + timedelta(days=1)], so
    on the first and on the last day of the calendar it raises
    [OverflowError]; otherwise it returns [dt] with the offset attached,
    which is [IST_localize dt] (the zone is taken at its present offset
    throughout). *)
Definition localize (dt : datetime) : result datetime :=
  match dt_tz dt with
  | Some _ => Raise (ValueError "Not naive datetime (tzinfo is already set)")
  | None =>
      if toordinal (dt_date dt) <=? 1
      then Raise (OverflowError "date value out of range")
      else
        _ ← next_day (dt_date dt);
        Ok (IST_localize dt)
  end.

(** The first and the last day of the calendar, 0001-01-01 and 9999-12-31. *)
Definition date_eqb (a b : date) : bool :=
  (d_year a =? d_year b) && (d_month a =? d_month b) && (d_day a =? d_day b).

Definition end_of_calendar (d : date) : bool :=
  date_eqb d (mkdate MINYEAR 1 1) || date_eqb d (mkdate MAXYEAR 12 31).

(** [datetime.min.time().replace(hour=h, minute=m)] *)
Definition time_replace (h m : Z) : result time :=
  if negb ((0 <=? h) && (h <? 24)) then Raise (ValueError "hour must be in 0..23")
  else if negb ((0 <=? m) && (m <? 60)) then Raise (ValueError "minute must be in 0..59")
  else Ok (mktime h m 0 0).

(** *** Decimal digits *)

Definition digit_val (c : ascii) : Z := Z.of_N (code c) - 48.
Definition digit_char (d : Z) : ascii := ascii_of_N (Z.to_N (d + 48)).

(** [int(s)] for a string of decimal digits, as captured by [\d] groups. *)
Fixpoint int_digits_acc (s : string) (acc : Z) : result Z :=
  match s with
  | EmptyString => Ok acc
  | String c s' =>
      if is_digit c then int_digits_acc s' (10 * acc + digit_val c)
      else Raise (ValueError "invalid literal for int() with base 10")
  end.

Definition py_int (s : string) : result Z :=
  match s with
  | EmptyString => Raise (ValueError "invalid literal for int() with base 10")
  | _ => int_digits_acc s 0
  end.

Definition pad2 (n : Z) (rest : string) : string :=
  String (digit_char (n / 10 mod 10)) (String (digit_char (n mod 10)) rest).
Definition pad4 (n : Z) (rest : string) : string :=
  pad2 (n / 100) (pad2 (n mod 100) rest).
Definition pad6 (n : Z) (rest : string) : string :=
  pad2 (n / 10000) (pad4 (n mod 10000) rest).

Definition take_digit (s : string) : option (Z * string) :=
  match s with
  | String c s' => if is_digit c then Some (digit_val c, s') else None
  | EmptyString => None
  end.

Definition take2 (s : string) : option (Z * string) :=
  '(a, s1) ← take_digit s; '(b, s2) ← take_digit s1; Some (10 * a + b, s2).
Definition take4 (s : string) : option (Z * string) :=
  '(a, s1) ← take2 s; '(b, s2) ← take2 s1; Some (100 * a + b, s2).
Definition take6 (s : string) : option (Z * string) :=
  '(a, s1) ← take2 s; '(b, s2) ← take4 s1; Some (10000 * a + b, s2).

Definition expect (c : ascii) (s : string) : option string :=
  match s with
  | String a s' => if Ascii.eqb a c then Some s' else None
  | EmptyString => None
  end.

(** *** ISO 8601 text *)

Definition iso_tz (tz : option Z) : string :=
  match tz with
  | None => ""
  | Some off =>
      let sign := if off <? 0 then "-"%char else "+"%char in
      let a := Z.abs off in
      String sign (pad2 (a / 60) (String ":" (pad2 (a mod 60) "")))
  end.

Definition iso_fraction (us : Z) (rest : string) : string :=
  if us =? 0 then rest else String "." (pad6 us rest).

(** [dt.isoformat()] *)
Definition isoformat (dt : datetime) : string :=
  let d := dt_date dt in
  let t := dt_time dt in
  pad4 (d_year d) (String "-" (pad2 (d_month d) (String "-" (pad2 (d_day d)
  (String "T" (pad2 (t_hour t) (String ":" (pad2 (t_minute t) (String ":"
  (pad2 (t_second t) (iso_fraction (t_micro t) (iso_tz (dt_tz dt))))))))))))).

Definition parse_fraction (s : string) : option (Z * string) :=
  match s with
  | String "." s' => take6 s'
  | _ => Some (0, s)
  end.

Definition parse_tz (s : string) : option (option Z) :=
  match s with
  | EmptyString => Some None
  | String c s' =>
      if Ascii.eqb c "+" || Ascii.eqb c "-" then
        '(h, s1) ← take2 s';
        s2 ← expect ":" s1;
        '(m, s3) ← take2 s2;
        match s3 with
        | EmptyString =>
            if (h <? 24) && (m <? 60)
            then Some (Some ((if Ascii.eqb c "-" then -1 else 1) * (h * 60 + m)))
            else None
        | _ => None
        end
      else None
  end.

Definition parse_iso (s : string) : option datetime :=
  '(y, s) ← take4 s;
  s ← expect "-" s;
  '(mo, s) ← take2 s;
  s ← expect "-" s;
  '(d, s) ← take2 s;
  match s with
  | EmptyString => None
  | String _ s =>
      '(h, s) ← take2 s;
      s ← expect ":" s;
      '(mi, s) ← take2 s;
      s ← expect ":" s;
      '(se, s) ← take2 s;
      '(us, s) ← parse_fraction s;
      tz ← parse_tz s;
      Some (mkdt (mkdate y mo d) (mktime h mi se us) tz)
  end.

(** [datetime.fromisoformat(s)] on the full-precision forms
    [YYYY-MM-DD?HH:MM:SS[.ffffff][+HH:MM]] that [isoformat] writes; the
    abbreviated forms the library also reads are not part of the model. *)
Definition fromisoformat (s : string) : result datetime :=
  match parse_iso s with
  | Some dt =>
      if valid_date (dt_date dt) && valid_time (dt_time dt)
      then Ok dt
      else Raise (ValueError "Invalid isoformat string")
  | None => Raise (ValueError "Invalid isoformat string")
  end.

(** ** JSON values

    The value trees that [json.dump] writes and [json.load] reads back; a
    Python [None] is [JNull] and a [dict] with string keys is a [JObj] in
    insertion order.  The contents of the tasks file are modelled by the
    tree that [json.load] would return for it. *)

#[local] Unset Elimination Schemes.
Inductive json : Type :=
| JNull
| JBool (b : bool)
| JInt (n : Z)
| JStr (s : string)
| JArr (l : list json)
| JObj (l : list (string * json)).
#[local] Set Elimination Schemes.

(** Truth value of a Python object, as tested by [if results:]. *)
Definition py_truthy (j : json) : bool :=
  match j with
  | JNull => false
  | JBool b => b
  | JInt n => negb (n =? 0)
  | JStr s => negb (String.eqb s "")
  | JArr l => match l with [] => false | _ => true end
  | JObj l => match l with [] => false | _ => true end
  end.

Fixpoint jget (k : string) (l : list (string * json)) : option json :=
  match l with
  | [] => None
  | (k', v) :: l' => if String.eqb k k' then Some v else jget k l'
  end.

(** ** Task records and the task store ([TaskManager]) *)

Record ScheduledTask : Type := mkTask {
  user_id : Z;
  task_id : string;
  webhook_url : string;
  notes : string;
  scheduled_time : datetime;
  status : string;   (* 'pending', 'running', 'completed', 'failed', 'cancelled' *)
  created_at : datetime;
  results : json     (* Optional[Dict]: [JNull] is None *)
}.

Definition set_status (t : ScheduledTask) (s : string) : ScheduledTask :=
  mkTask (user_id t) (task_id t) (webhook_url t) (notes t) (scheduled_time t)
         s (created_at t) (results t).

Definition set_results (t : ScheduledTask) (r : json) : ScheduledTask :=
  mkTask (user_id t) (task_id t) (webhook_url t) (notes t) (scheduled_time t)
         (status t) (created_at t) r.

(** Both datetimes of the task are values the library can represent. *)
Definition valid_task (t : ScheduledTask) : bool :=
  valid_datetime (scheduled_time t) && valid_datetime (created_at t).

(** The manager's state: the in-memory dictionary [self.tasks] and the
    contents of [scheduled_tasks.json] ([None]: the file does not exist). *)
Record TaskManager : Type := mkTM {
  tasks : gmap string ScheduledTask;
  TASKS_FILE : option json
}.

(** [asdict(task)] with both datetimes replaced by their ISO strings. *)
Definition task_dict (t : ScheduledTask) : json :=
  JObj [ ("user_id", JInt (user_id t));
         ("task_id", JStr (task_id t));
         ("webhook_url", JStr (webhook_url t));
         ("notes", JStr (notes t));
         ("scheduled_time", JStr (isoformat (scheduled_time t)));
         ("status", JStr (status t));
         ("created_at", JStr (isoformat (created_at t)));
         ("results", results t) ].

Definition tasks_data (m : gmap string ScheduledTask) : json :=
  JObj ((fun kt : string * ScheduledTask => (kt.1, task_dict kt.2)) <$> map_to_list m).

(** [save_tasks]: the whole store is written on every call. *)
Definition save_tasks (tm : TaskManager) : TaskManager :=
  mkTM (tasks tm) (Some (tasks_data (tasks tm))).

Definition field_names : list string :=
  ["user_id"; "task_id"; "webhook_url"; "notes"; "scheduled_time"; "status";
   "created_at"; "results"].

Definition get_field (k : string) (l : list (string * json)) : result json :=
  match jget k l with
  | Some v => Ok v
  | None => Raise (TypeError "__init__() missing required argument")
  end.

Definition as_str (j : json) : result string :=
  match j with
  | JStr s => Ok s
  | _ => Raise (TypeError "expected str")
  end.

Definition as_int (j : json) : result Z :=
  match j with
  | JInt n => Ok n
  | _ => Raise (TypeError "expected int")
  end.

Definition iso_field (k : string) (l : list (string * json)) : result datetime :=
  match jget k l with
  | None => Raise (KeyError k)
  | Some (JStr s) => fromisoformat s
  | Some _ => Raise (TypeError "fromisoformat: argument must be str")
  end.

(** One iteration of the loop of [load_tasks]: both ISO strings are turned
    back into datetimes and the record is rebuilt by
    the dataclass constructor from the dictionary's entries taken as keyword
    arguments; [results] may be absent (it has a
    default), any other absent or unexpected key is a [TypeError].

    The record of the model has typed fields.  The constructor itself checks
    no type: an entry whose [user_id] is not an integer, or whose [task_id],
    [webhook_url], [notes] or [status] is not a string, is loaded by the
    program as it is, and so is an entry with an ISO string in one of the
    abbreviated forms.  Such entries are not values of the model, which
    answers with an error for them; the properties below speak of the
    entries that [save_tasks] writes and, for failures, of the entries
    that are [malformed_entry]. *)
Definition task_of_dict (j : json) : result ScheduledTask :=
  match j with
  | JObj l =>
      st ← iso_field "scheduled_time" l;
      ca ← iso_field "created_at" l;
      if negb (forallb (fun k => bool_decide (k ∈ field_names)) (l.*1))
      then Raise (TypeError "__init__() got an unexpected keyword argument")
      else
        uid ← get_field "user_id" l ≫= as_int;
        tid ← get_field "task_id" l ≫= as_str;
        url ← get_field "webhook_url" l ≫= as_str;
        nts ← get_field "notes" l ≫= as_str;
        sts ← get_field "status" l ≫= as_str;
        Ok (mkTask uid tid url nts st sts ca
                   (match jget "results" l with Some r => r | None => JNull end))
  | _ => Raise (TypeError "task entry is not a dict")
  end.

(** The fields without a default. *)
Definition required_fields : list string :=
  ["user_id"; "task_id"; "webhook_url"; "notes"; "scheduled_time"; "status";
   "created_at"].

Definition str_field (k : string) (l : list (string * json)) : bool :=
  match jget k l with
  | Some (JStr _) => true
  | _ => false
  end.

(** An entry on which the loop body raises whatever the types of the other
    fields: it is not an object ([task_dict['scheduled_time']] is a
    [TypeError]); or one of the two times is absent ([KeyError]) or is not a
    string ([fromisoformat] raises [TypeError]); or a field without default
    is absent, or there is a key that is not a field (the constructor raises
    [TypeError]).  The keys of an object are distinct, as in a [dict]. *)
Definition malformed_entry (j : json) : bool :=
  match j with
  | JObj l =>
      bool_decide (NoDup (l.*1))
      && (negb (str_field "scheduled_time" l)
          || negb (str_field "created_at" l)
          || existsb (fun k => match jget k l with None => true | Some _ => false end)
                     required_fields
          || negb (forallb (fun k => bool_decide (k ∈ field_names)) (l.*1)))
  | _ => true
  end.

(** The loop of [load_tasks]; the first exception ends it (it is caught and
    logged by the caller), keeping the entries read so far. *)
Fixpoint load_items (items : list (string * json)) (m : gmap string ScheduledTask)
  : gmap string ScheduledTask :=
  match items with
  | [] => m
  | (k, j) :: rest =>
      match task_of_dict j with
      | Ok t => load_items rest (<[k := t]> m)
      | Raise _ => m
      end
  end.

Definition load_tasks (tm : TaskManager) : TaskManager :=
  match TASKS_FILE tm with
  | Some (JObj items) => mkTM (load_items items (tasks tm)) (TASKS_FILE tm)
  | _ => tm
  end.

(** [TaskManager.__init__] over a given file system state. *)
Definition TaskManager_init (file : option json) : TaskManager :=
  load_tasks (mkTM ∅ file).

Definition add_task (tm : TaskManager) (task : ScheduledTask) : TaskManager * string :=
  (save_tasks (mkTM (<[task_id task := task]> (tasks tm)) (TASKS_FILE tm)), task_id task).

Definition task_values (tm : TaskManager) : list ScheduledTask :=
  (map_to_list (tasks tm)).*2.

Definition get_user_tasks (tm : TaskManager) (uid : Z) : list ScheduledTask :=
  List.filter (fun t => user_id t =? uid) (task_values tm).

Definition get_pending_tasks (tm : TaskManager) : list ScheduledTask :=
  List.filter (fun t => String.eqb (status t) "pending") (task_values tm).

Definition update_task_status (tm : TaskManager) (tid : string) (new_status : string)
    (res : json) : TaskManager :=
  match tasks tm !! tid with
  | Some t =>
      let t1 := set_status t new_status in
      let t2 := if py_truthy res then set_results t1 res else t1 in
      save_tasks (mkTM (<[tid := t2]> (tasks tm)) (TASKS_FILE tm))
  | None => tm
  end.

Definition cancel_task (tm : TaskManager) (tid : string) : TaskManager * bool :=
  match tasks tm !! tid with
  | Some t =>
      if String.eqb (status t) "pending"
      then (save_tasks (mkTM (<[tid := set_status t "cancelled"]> (tasks tm))
                             (TASKS_FILE tm)), true)
      else (tm, false)
  | None => (tm, false)
  end.

(** ** The time parser ([HackRxBot.parse_time_input]) *)

(** [\d{1,2}] *)
Definition dig12 : regex := RCat dig (ROpt dig).

(** [(\d{4}-\d{1,2}-\d{1,2})\s+(.+)] *)
Definition date_re : regex :=
  RSeq [ RGroup 1 (RSeq [dig; dig; dig; dig; lit "-"; dig12; lit "-"; dig12]);
         RPlus sp;
         RGroup 2 (RPlus (RChr CAny)) ].

(** [(\d{1,2}):(\d{2})\s*(am|pm)] *)
Definition time12_re : regex :=
  RSeq [ RGroup 1 dig12; lit ":"; RGroup 2 (RCat dig dig); RStar sp;
         RGroup 3 (RAlt (RStr "am") (RStr "pm")) ].

(** [(\d{1,2}):(\d{2})] *)
Definition time24_re : regex :=
  RSeq [ RGroup 1 dig12; lit ":"; RGroup 2 (RCat dig dig) ].

(** [match.group(n)] of a group that took part in the match. *)
Definition grp (n : nat) (cs : caps) : string :=
  match group n cs with Some s => s | None => "" end.

(** [(\d{4})-(\d{1,2})-(\d{1,2})], the shape of the date strings that reach
    [strptime]. *)
Definition ymd_re : regex :=
  RSeq [ RGroup 1 (RSeq [dig; dig; dig; dig]); lit "-"; RGroup 2 dig12; lit "-";
         RGroup 3 dig12 ].

(** [datetime.strptime(s, '%Y-%m-%d').date()]: the whole string must have
    the shape of [ymd_re], and the three numbers must form a date of the
    calendar, years 1 to 9999. *)
Definition ymd_fields (s : string) : option caps :=
  rx false (S (String.length s)) ymd_re s []
     (fun rest cs => match rest with EmptyString => Some cs | _ => None end).

Definition strptime_ymd (s : string) : result date :=
  match ymd_fields s with
  | None => Raise (ValueError "time data does not match format '%Y-%m-%d'")
  | Some cs =>
      y ← py_int (grp 1 cs);
      m ← py_int (grp 2 cs);
      d ← py_int (grp 3 cs);
      if valid_date (mkdate y m d) then Ok (mkdate y m d)
      else Raise (ValueError "time data does not match format '%Y-%m-%d'")
  end.

Definition _parse_12hour (cs : caps) : result time :=
  let ampm := grp 3 cs in
  hour ← py_int (grp 1 cs);
  minute ← py_int (grp 2 cs);
  let hour :=
    if String.eqb ampm "pm" && negb (hour =? 12) then hour + 12
    else if String.eqb ampm "am" && (hour =? 12) then 0
    else hour in
  time_replace hour minute.

Definition _parse_24hour (cs : caps) : result time :=
  hour ← py_int (grp 1 cs);
  minute ← py_int (grp 2 cs);
  time_replace hour minute.

(** The first part of [parse_time_input], up to the time token: the target
    date, the text left for the time patterns, and the result of the date
    pattern ([date_match]). *)
Definition split_date (text : string) (now : datetime)
  : result (date * string * option caps) :=
  let text := py_lower (py_strip text) in
  let target_date := dt_date now in
  '(target_date, text) ←
     (if py_startswith "tomorrow" text
      then tomorrow ← add_one_day now;
           Ok (dt_date tomorrow, py_strip (py_replace "tomorrow" "" text))
      else Ok (target_date, text));
  let date_match := re_match false date_re text in
  match date_match with
  | Some cs =>
      target_date ← strptime_ymd (grp 1 cs);
      Ok (target_date, grp 2 cs, date_match)
  | None => Ok (target_date, text, date_match)
  end.

(** The loop over [time_patterns]: [None] when no pattern matches. *)
Definition parse_time_token (text : string) : result (option time) :=
  match re_match false time12_re text with
  | Some cs => t ← _parse_12hour cs; Ok (Some t)
  | None =>
      match re_match false time24_re text with
      | Some cs => t ← _parse_24hour cs; Ok (Some t)
      | None => Ok None
      end
  end.

(** Combination of date and time, with the roll to the next day.  Both
    operands of [<=] are aware datetimes here. *)
Definition combine_and_adjust (target_date : date) (target_time : time)
    (date_match : option caps) (text : string) (now : datetime) : result datetime :=
  scheduled_dt ← localize (combine target_date target_time);
  if dt_le scheduled_dt now
     && (match date_match with None => true | Some _ => false end)
     && negb (py_startswith "tomorrow" text)
  then add_one_day scheduled_dt
  else Ok scheduled_dt.

(** [now] is the reading of [datetime.now(IST)] taken by the parser. *)
Definition parse_time_input (text : string) (now : datetime) : result datetime :=
  '(target_date, text, date_match) ← split_date text now;
  target_time ← parse_time_token text;
  match target_time with
  | None =>
      (* [if not target_time]: a [datetime.time] is always true, so this is
         the case where no pattern matched *)
      Raise (ValueError "Could not parse time format")
  | Some target_time =>
      scheduled_dt ← combine_and_adjust target_date target_time date_match text now;
      if dt_le scheduled_dt now
      then Raise (ValueError "Scheduled time must be in the future")
      else Ok scheduled_dt
  end.

(** A reading of the IST clock: a valid aware datetime at UTC+05:30, after
    the first day and before the last year that the library can
    represent. *)
Definition clock_reading (now : datetime) : bool :=
  valid_datetime now
  && bool_decide (dt_tz now = Some IST_offset)
  && (d_year (dt_date now) <? MAXYEAR)
  && (1 <? toordinal (dt_date now)).

(** A time of day made by one of the two time parsers: hour and minute of a
    clock, no seconds. *)
Definition clock_time (t : time) : Prop :=
  0 <= t_hour t < 24 /\ 0 <= t_minute t < 60 /\ t_second t = 0 /\ t_micro t = 0.

(** Whatever the computation raises is a [ValueError]. *)
Definition only_ValueError {A : Type} (x : result A) : Prop :=
  forall e, x = Raise e -> exists msg, e = ValueError msg.

(** The two causes of failure that the specification names, in terms of
    the stages of the parser. *)

(** The time token matches neither the 12-hour nor the 24-hour pattern. *)
Definition no_time_pattern (tok : string) : Prop :=
  re_match false time12_re tok = None /\ re_match false time24_re tok = None.

(** The combined, possibly day-adjusted instant is not strictly after
    [now]. *)
Definition not_in_future (d : date) (tok : string) (dm : option caps) (now : datetime)
  : Prop :=
  exists tt dt,
    parse_time_token tok = Ok (Some tt)
    /\ combine_and_adjust d tt dm tok now = Ok dt
    /\ dt_le dt now = true.

(** The two causes of failure that the specification names. *)
Definition stated_raise_condition (text : string) (now : datetime) : Prop :=
  exists d tok dm,
    split_date text now = Ok (d, tok, dm)
    /\ (no_time_pattern tok \/ not_in_future d tok dm now).

(** *** What the patterns read from a text

    The numbers on which the outcome of the parser depends, read off the
    text with the program's own patterns. *)

(** The text that the date pattern is tried on: the stripped, lower-case
    text, without its "tomorrow"s when it begins with one. *)
Definition dated_text (text : string) : string :=
  let text := py_lower (py_strip text) in
  if py_startswith "tomorrow" text
  then py_strip (py_replace "tomorrow" "" text)
  else text.

(** Year, month and day of a string of the shape of [ymd_re]. *)
Definition ymd_numbers (s : string) : option (Z * Z * Z) :=
  match ymd_fields s with
  | Some f =>
      match py_int (grp 1 f), py_int (grp 2 f), py_int (grp 3 f) with
      | Ok y, Ok m, Ok d => Some (y, m, d)
      | _, _, _ => None
      end
  | None => None
  end.

(** The explicit date of the text, if the date pattern matches. *)
Definition date_numbers (text : string) : option (Z * Z * Z) :=
  match re_match false date_re (dated_text text) with
  | Some cs => ymd_numbers (grp 1 cs)
  | None => None
  end.

(** The text that the time patterns are tried on. *)
Definition time_text (text : string) : string :=
  match re_match false date_re (dated_text text) with
  | Some cs => grp 2 cs
  | None => dated_text text
  end.

(** The hour of a 12-hour reading on the 24-hour clock. *)
Definition adjust12 (ampm : string) (hour : Z) : Z :=
  if String.eqb ampm "pm" && negb (hour =? 12) then hour + 12
  else if String.eqb ampm "am" && (hour =? 12) then 0
  else hour.

(** Hour (after the AM/PM adjustment) and minute of a time token, if one
    of the two patterns matches it. *)
Definition time_numbers (tok : string) : option (Z * Z) :=
  match re_match false time12_re tok with
  | Some cs =>
      match py_int (grp 1 cs), py_int (grp 2 cs) with
      | Ok h, Ok m => Some (adjust12 (grp 3 cs) h, m)
      | _, _ => None
      end
  | None =>
      match re_match false time24_re tok with
      | Some cs =>
          match py_int (grp 1 cs), py_int (grp 2 cs) with
          | Ok h, Ok m => Some (h, m)
          | _, _ => None
          end
      | None => None
      end
  end.

(** *** The causes of failure *)

(** The text carries an explicit date whose numbers are not a date of the
    calendar. *)
Definition invalid_explicit_date (text : string) : Prop :=
  exists y m d, date_numbers text = Some (y, m, d) /\ valid_date (mkdate y m d) = false.

(** A pattern matches the token, but the hour (after the AM/PM adjustment)
    is not in 0..23 or the minute is not in 0..59. *)
Definition hour_or_minute_out_of_range (tok : string) : Prop :=
  exists h m, time_numbers tok = Some (h, m) /\ ~ (0 <= h < 24 /\ 0 <= m < 60).

(** The text carries a valid explicit date, not the first or last day of
    the calendar, and a time of day, and that date at that time is not
    after [now]. *)
Definition explicit_date_not_ahead (text : string) (now : datetime) : Prop :=
  exists y m d h mi,
    date_numbers text = Some (y, m, d)
    /\ valid_date (mkdate y m d) = true
    /\ end_of_calendar (mkdate y m d) = false
    /\ time_numbers (time_text text) = Some (h, mi)
    /\ (0 <= h < 24 /\ 0 <= mi < 60)
    /\ dt_le (mkdt (mkdate y m d) (mktime h mi 0 0) (Some IST_offset)) now = true.

(** The four causes of a [ValueError]. *)
Definition value_error_condition (text : string) (now : datetime) : Prop :=
  invalid_explicit_date text
  \/ no_time_pattern (time_text text)
  \/ hour_or_minute_out_of_range (time_text text)
  \/ explicit_date_not_ahead text now.

(** The cause of an [OverflowError]: the explicit date is the first or the
    last day of the calendar, and the time of day is a valid one. *)
Definition calendar_overflow (text : string) : Prop :=
  exists y m d h mi,
    date_numbers text = Some (y, m, d)
    /\ valid_date (mkdate y m d) = true
    /\ end_of_calendar (mkdate y m d) = true
    /\ time_numbers (time_text text) = Some (h, mi)
    /\ (0 <= h < 24 /\ 0 <= mi < 60).

(** The clock reading of scenario D: 2024-01-15 14:00 IST. *)
Definition scenario_D_now : datetime :=
  mkdt (mkdate 2024 1 15) (mktime 14 0 0 0) (Some IST_offset).

(** ** The result classifier
       ([HackRxSeleniumScraper.extract_submission_details]) *)

(** [\d+(?:\.\d+)?] *)
Definition num : regex := RCat (RPlus dig) (ROpt (RCat (lit ".") (RPlus dig))).
(** [\d+(?:\.\d+)?%?] *)
Definition num_pct : regex := RCat num (ROpt (lit "%")).
(** [[:\s]*] *)
Definition colsp : regex := RStar (RChr (COr (CLit ":") CSpace)).
Definition sps : regex := RStar sp.

Definition utf8 (a b c : N) : string :=
  String (ascii_of_N a) (String (ascii_of_N b) (String (ascii_of_N c) "")).
Definition check_mark : string := utf8 226 156 133.     (* U+2705 *)
Definition hourglass : string := utf8 226 143 179.      (* U+23F3 *)
Definition cross_mark : string := utf8 226 157 140.     (* U+274C *)

Fixpoint RAlts (rs : list regex) : regex :=
  match rs with
  | [] => REps
  | [r] => r
  | r :: rs' => RAlt r (RAlts rs')
  end.

Definition status_patterns : list (string * regex) :=
  [ ("completed", RAlts [RStr "completed"; RStr "success"; RStr check_mark]);
    ("processing", RAlts [RStr "processing"; RStr "evaluating"; RStr "pending";
                          RStr hourglass]);
    ("failed", RAlts [RStr "failed"; RStr "error"; RStr "timeout"; RStr cross_mark]);
    ("submitted", RAlts [RStr "submitted"; RStr "received"]) ].

Definition score_patterns : list regex :=
  [ RSeq [RStr "Overall"; RPlus sp; RStr "Score"; colsp; RGroup 1 num];
    RSeq [RStr "Score"; colsp; RGroup 1 num];
    RSeq [RStr "overall"; colsp; RGroup 1 num];
    RSeq [RGroup 1 num; sps;
          RAlt (RCat (RStr "point") (ROpt (lit "s"))) (RCat (RStr "pt") (ROpt (lit "s")))] ].

Definition accuracy_patterns : list regex :=
  [ RSeq [RStr "Accuracy"; colsp; RGroup 1 num_pct];
    RSeq [RStr "accuracy"; colsp; RGroup 1 num_pct];
    RSeq [RGroup 1 num; lit "%"; sps; RAlt (RStr "accuracy") (RStr "acc")];
    RSeq [RStr "correct"; colsp; RGroup 1 num_pct] ].

Definition response_patterns : list regex :=
  [ RSeq [RStr "Avg"; RPlus sp; RStr "Response"; colsp; RGroup 1 num; sps; RStr "ms"];
    RSeq [RStr "Average"; RPlus sp; RStr "Response"; colsp; RGroup 1 num; sps; RStr "ms"];
    RSeq [RStr "Response"; RPlus sp; RStr "Time"; colsp; RGroup 1 num; sps; RStr "ms"];
    RSeq [RGroup 1 num; sps; RStr "ms"; sps; RAlt (RStr "response") (RStr "avg")];
    RSeq [RStr "latency"; colsp; RGroup 1 num; sps; RStr "ms"] ].

Definition position_patterns : list regex :=
  [ RSeq [RStr "Position"; colsp; ROpt (lit "#"); RGroup 1 (RPlus dig)];
    RSeq [RStr "Rank"; colsp; ROpt (lit "#"); RGroup 1 (RPlus dig)];
    RSeq [lit "#"; RGroup 1 (RPlus dig); sps; RAlt (RStr "position") (RStr "rank")];
    RSeq [RStr "place"; colsp; RGroup 1 (RPlus dig)] ].

Definition f1_patterns : list regex :=
  [ RSeq [RStr "F1"; colsp; RGroup 1 num];
    RSeq [RStr "F1-Score"; colsp; RGroup 1 num] ].
Definition precision_patterns : list regex :=
  [ RSeq [RStr "Precision"; colsp; RGroup 1 num_pct] ].
Definition recall_patterns : list regex :=
  [ RSeq [RStr "Recall"; colsp; RGroup 1 num_pct] ].
Definition throughput_patterns : list regex :=
  [ RSeq [RStr "Throughput"; colsp; RGroup 1 num];
    RSeq [RStr "RPS"; colsp; RGroup 1 num] ].

Definition additional_patterns : list (string * list regex) :=
  [ ("f1_score", f1_patterns);
    ("precision", precision_patterns);
    ("recall", recall_patterns);
    ("throughput", throughput_patterns) ].

(** A loop [for pattern in patterns: match = re.search(pattern, context,
    re.IGNORECASE); if match: ... break]: group 1 of the first pattern that
    matches. *)
Fixpoint first_match (patterns : list regex) (context : string) : option string :=
  match patterns with
  | [] => None
  | p :: ps =>
      match re_search true p context with
      | Some cs => Some (grp 1 cs)
      | None => first_match ps context
      end
  end.

Fixpoint detect_status (ps : list (string * regex)) (context : string) : string :=
  match ps with
  | [] => "unknown"
  | (name, p) :: ps' =>
      match re_search true p context with
      | Some _ => name
      | None => detect_status ps' context
      end
  end.

Definition set_metric (name : string) (v : option string) (metrics : gmap string string)
  : gmap string string :=
  match v with
  | Some x => <[name := x]> metrics
  | None => metrics
  end.

Fixpoint additional_metrics (ps : list (string * list regex)) (context : string)
    (metrics : gmap string string) : gmap string string :=
  match ps with
  | [] => metrics
  | (metric_name, patterns) :: ps' =>
      additional_metrics ps' context
        (set_metric metric_name (first_match patterns context) metrics)
  end.

(** The [metrics] dictionary built from the context window. *)
Definition extract_metrics (context : string) : gmap string string :=
  let metrics : gmap string string := ∅ in
  let metrics := set_metric "overall_score" (first_match score_patterns context) metrics in
  let metrics :=
    set_metric "accuracy"
      ((fun accuracy_val : string =>
          if negb (py_endswith "%" accuracy_val) then accuracy_val +:+ "%"
          else accuracy_val) <$> first_match accuracy_patterns context) metrics in
  let metrics :=
    set_metric "avg_response"
      ((fun v : string => v +:+ "ms") <$> first_match response_patterns context) metrics in
  let metrics :=
    set_metric "position"
      ((fun v : string => "#" +:+ v) <$> first_match position_patterns context) metrics in
  additional_metrics additional_patterns context metrics.

Definition error_keywords : list string :=
  ["error"; "failed"; "timeout"; "invalid"; "rejected"].

Definition primary_metrics : list string := ["overall_score"; "accuracy"; "avg_response"].

Definition has_key (k : string) (metrics : gmap string string) : bool :=
  bool_decide (is_Some (metrics !! k)).

(** [", ".join(parts)] *)
Fixpoint py_join (sep : string) (parts : list string) : string :=
  match parts with
  | [] => ""
  | [p] => p
  | p :: ps => p +:+ sep +:+ py_join sep ps
  end.

(** The dictionary returned by the classifier. *)
Record Classification : Type := mkClass {
  c_status : string;
  has_results : bool;
  is_processing : bool;
  has_error : bool;
  details : string;
  metrics : gmap string string
}.

Definition detail_part (label key : string) (metrics : gmap string string) : list string :=
  match metrics !! key with
  | Some v => [label +:+ v]
  | None => []
  end.

(** The window of 2000 characters on each side of the notes. *)
Definition context_window (page_text : string) (notes_pos : Z) : string :=
  let window_start := Z.max 0 (notes_pos - 2000) in
  let window_end := Z.min (Z.of_nat (String.length page_text)) (notes_pos + 2000) in
  py_slice page_text window_start window_end.

Definition extract_submission_details (page_text target_notes : string) : Classification :=
  let notes_pos := py_find (py_lower target_notes) (py_lower page_text) in
  if notes_pos =? -1 then
    mkClass "unknown" false false false "Submission not found on page" ∅
  else
    let context := context_window page_text notes_pos in
    let found_status := detect_status status_patterns context in
    let metrics := extract_metrics context in
    let has_results :=
      (0 <? Z.of_nat (size metrics))
      && existsb (fun key => has_key key metrics) primary_metrics in
    let has_error :=
      existsb (fun keyword => py_in keyword (py_lower context)) error_keywords
      || String.eqb found_status "failed" in
    let is_processing :=
      (String.eqb found_status "processing" || String.eqb found_status "submitted")
      && negb has_results && negb has_error in
    let details :=
      if has_results then
        "Status: " +:+ found_status +:+ ", " +:+
        py_join ", " (detail_part "Score: " "overall_score" metrics
                      ++ detail_part "Accuracy: " "accuracy" metrics
                      ++ detail_part "Response: " "avg_response" metrics
                      ++ detail_part "Position: " "position" metrics)%list
      else "Status: " +:+ found_status +:+ ", No metrics found" in
    mkClass found_status has_results is_processing has_error details metrics.

(** The notes occur in the page, whatever the case of the letters. *)
Definition marker_found (page_text target_notes : string) : bool :=
  py_in (py_lower target_notes) (py_lower page_text).

(** A results page in the shape of scenario A of the specification. *)
Definition scenario_A_page : string :=
  "Submissions | API endpoint test run #1 | completed | Overall Score: 87.5 Accuracy: 92% | 2 minutes ago".
Definition scenario_A_notes : string := "API endpoint test run #1".

(** A page that reports precision and recall without a percent sign. *)
Definition bare_precision_page : string :=
  "API endpoint test run #1 | processing | Precision: 90 Recall: 85".

(** ** The external collaborators

    One run of the browser automation, as seen by the bot: what
    [create_driver], [login] and [submit_webhook] answer, what every visit
    of the submissions page yields, and whether [driver.quit()] raises. *)

Inductive fetch : Type :=
| Page (page_text : string)
| FetchError.          (* an exception while loading or reading the page *)

Record Scraper : Type := mkScraper {
  create_driver : bool;
  login : bool;
  submit_webhook : bool * string;      (* "success" and the "data"/"error" text *)
  page_source : nat -> fetch;          (* the i-th visit of submissions_all_url *)
  quit_error : option string
}.

(** What the bot does to the outside world while a task runs.  A visit of
    the submissions page is [scraper.driver.get], [scraper.wait_for_page_load]
    and [scraper.driver.page_source]; [wait_for_page_load] waits up to 35
    seconds for the ready state, then sleeps 4 seconds and waits up to 5
    seconds for the loading indicators to go. *)
Inductive event : Type :=
| Sleep (seconds : Z)                 (* [time.sleep] of the bot itself *)
| Visit (visit : nat)                 (* the i-th visit of the submissions page *)
| Notification (user : Z) (title : string).

(** ** The monitoring loop
       ([HackRxBot.monitor_results_with_cooldown_detection]) *)

Definition max_initial_checks : nat := 2.
Definition max_result_checks : nat := Z.to_nat 6000.

Definition metrics_json (m : gmap string string) : json :=
  JObj ((fun kv : string * string => (kv.1, JStr kv.2)) <$> map_to_list m).

Definition details_json (c : Classification) : json :=
  JObj [ ("status", JStr (c_status c));
         ("has_results", JBool (has_results c));
         ("is_processing", JBool (is_processing c));
         ("has_error", JBool (has_error c));
         ("details", JStr (details c));
         ("metrics", metrics_json (metrics c)) ].

(** Phase 1, [for initial_check in range(max_initial_checks)]: is the
    submission on the page?  Returns [submission_found], the number of page
    visits made, and the events. *)
Fixpoint initial_checks (sc : Scraper) (target_notes : string)
    (initial_check remaining : nat) : bool * nat * list event :=
  match remaining with
  | O => (false, initial_check, [])
  | S rem =>
      match page_source sc initial_check with
      | Page page_text =>
          if py_in (py_lower target_notes) (py_lower page_text)
          then (true, S initial_check, [Visit initial_check])
          else
            let ev := if (initial_check <? max_initial_checks - 1)%nat
                      then [Sleep 10] else [] in
            let '(found, n, evs) := initial_checks sc target_notes (S initial_check) rem in
            (found, n, (Visit initial_check :: ev ++ evs)%list)
      | FetchError =>
          let '(found, n, evs) := initial_checks sc target_notes (S initial_check) rem in
          (found, n, Visit initial_check :: evs)
      end
  end.

(** Phase 2, [for result_check in range(max_result_checks)].  When the
    classifier reports results the loop body calls
    [self.format_detailed_success_message], which is a method of the scraper
    class and not of [HackRxBot]: the call raises [AttributeError], the
    handler of the loop logs it, and the loop goes on with the next check. *)
Fixpoint result_checks (sc : Scraper) (task : ScheduledTask) (first : nat)
    (result_check remaining : nat) : option json * list event :=
  match remaining with
  | O => (None, [])
  | S rem =>
      let visit := Visit (first + result_check) in
      match page_source sc (first + result_check) with
      | FetchError =>
          let '(r, evs) := result_checks sc task first (S result_check) rem in
          (r, visit :: evs)
      | Page page_text =>
          let details := extract_submission_details page_text (notes task) in
          if has_results details then
            let '(r, evs) := result_checks sc task first (S result_check) rem in
            (r, visit :: evs)
          else if has_error details then
            (Some (JObj [ ("found", JBool true);
                          ("has_results", JBool false);
                          ("has_error", JBool true);
                          ("details", details_json details) ]),
             [visit; Notification (user_id task) "Submission Error Detected"])
          else
            let ev1 :=
              if is_processing details && (0 <? result_check)%nat
                 && (result_check mod 10 =? 0)%nat
              then [Notification (user_id task) "Still Processing"] else [] in
            let ev2 := if (result_check <? max_result_checks - 1)%nat
                       then [Sleep 10] else [] in
            let '(r, evs) := result_checks sc task first (S result_check) rem in
            (r, (visit :: ev1 ++ ev2 ++ evs)%list)
      end
  end.

Definition cooldown_result : json :=
  JObj [ ("found", JBool false);
         ("cooldown", JBool true);
         ("message", JStr "Submission in cooldown mode") ].

Definition timeout_result : json :=
  JObj [ ("found", JBool true);
         ("has_results", JBool false);
         ("timeout", JBool true) ].

Definition monitor_results_with_cooldown_detection (sc : Scraper) (task : ScheduledTask)
  : json * list event :=
  let target_notes := notes task in
  let '(submission_found, visits, evs1) :=
    initial_checks sc target_notes 0 max_initial_checks in
  if negb submission_found then
    (cooldown_result,
     (evs1 ++ [Notification (user_id task) "Submission in Cooldown Mode"])%list)
  else
    let '(r, evs2) := result_checks sc task visits 0 max_result_checks in
    match r with
    | Some j => (j, (evs1 ++ evs2)%list)
    | None =>
        (timeout_result,
         (evs1 ++ evs2 ++ [Notification (user_id task) "Monitoring Timeout"])%list)
    end.

(** The keys "found", "cooldown" and "has_error" of a monitoring result. *)
Definition result_flag (key : string) (r : json) : option json :=
  match r with
  | JObj l => jget key l
  | _ => None
  end.

(** ** Task execution and the dispatcher *)

Definition failure (msg : string) : json :=
  JObj [ ("success", JBool false); ("error", JStr msg) ].

Definition execute_hackrx_submission (sc : Scraper) (task : ScheduledTask)
  : json * list event :=
  if negb (create_driver sc) then (failure "Failed to create WebDriver", [])
  else
    let '(r, evs) :=
      if negb (login sc) then (failure "Login failed", [])
      else
        let '(ok, msg) := submit_webhook sc in
        if negb ok then (failure ("Submission failed: " +:+ msg), [])
        else
          let '(results, evs) := monitor_results_with_cooldown_detection sc task in
          (JObj [ ("success", JBool true);
                  ("submission_result", JObj [("success", JBool true); ("data", JStr msg)]);
                  ("monitoring_results", results) ], evs) in
    (* finally: scraper.driver.quit() *)
    match quit_error sc with
    | Some e => (failure e, evs)
    | None => (r, evs)
    end.

Definition success_of (results : json) : bool :=
  match results with
  | JObj l => match jget "success" l with Some j => py_truthy j | None => false end
  | _ => false
  end.

(** [run_hackrx_task]: the final status written after execution.
    [execute_hackrx_submission] catches every exception itself, so the
    handler of [run_hackrx_task] (which writes 'failed' as well) is not
    reached from here. *)
Definition run_hackrx_task (tm : TaskManager) (sc : Scraper) (task : ScheduledTask)
  : TaskManager * list event :=
  let '(results, evs) := execute_hackrx_submission sc task in
  if success_of results
  then (update_task_status tm (task_id task) "completed" results, evs)
  else (update_task_status tm (task_id task) "failed" results, evs).

(** The conversation state of one user (a dict with the keys 'step',
    'scheduled_time' and 'webhook_url'). *)
Record UserState : Type := mkUserState {
  step : option string;
  st_scheduled_time : option datetime;
  st_webhook_url : option string
}.

(** The bot: conversation states, the task manager, and the worker threads
    started by the dispatcher that have not finished yet, each with the
    task it was given. *)
Record HackRxBot : Type := mkBot {
  user_states : gmap Z UserState;
  scheduler_running : bool;
  task_manager : TaskManager;
  workers : list ScheduledTask
}.

Definition HackRxBot_init (file : option json) : HackRxBot :=
  mkBot ∅ false (TaskManager_init file) [].

Definition with_task_manager (bot : HackRxBot) (tm : TaskManager) : HackRxBot :=
  mkBot (user_states bot) (scheduler_running bot) tm (workers bot).

Definition get_user_state (bot : HackRxBot) (uid : Z) : HackRxBot * UserState :=
  match user_states bot !! uid with
  | Some st => (bot, st)
  | None =>
      let st := mkUserState None None None in
      (mkBot (<[uid := st]> (user_states bot)) (scheduler_running bot)
             (task_manager bot) (workers bot), st)
  end.

Definition clear_user_state (bot : HackRxBot) (uid : Z) : HackRxBot :=
  mkBot (delete uid (user_states bot)) (scheduler_running bot)
        (task_manager bot) (workers bot).

(** A task as intake creates it. *)
Definition new_task (uid : Z) (tid url nts : string) (sched created : datetime)
  : ScheduledTask :=
  mkTask uid tid url nts sched "pending" created JNull.

(** [f"task_{user_id}_{int(time.time())}"]; [unix_time] is the reading of
    [time.time()] in microseconds, [int] truncates it to whole seconds. *)
Definition make_task_id (uid : Z) (unix_time : Z) : string :=
  "task_" +:+ pretty uid +:+ "_" +:+ pretty (Z.quot unix_time 1000000).

(** [handle_notes_input], up to the replies sent to the user. *)
Definition handle_notes_input (bot : HackRxBot) (uid : Z) (text : string)
    (unix_time : Z) (now : datetime) : result HackRxBot :=
  let '(bot, state) := get_user_state bot uid in
  let tid := make_task_id uid unix_time in
  match st_webhook_url state with
  | None => Raise (KeyError "webhook_url")
  | Some url =>
      match st_scheduled_time state with
      | None => Raise (KeyError "scheduled_time")
      | Some sched =>
          let task := new_task uid tid url text sched now in
          let tm := (add_task (task_manager bot) task).1 in
          let bot := clear_user_state (with_task_manager bot tm) uid in
          (* start_scheduler *)
          Ok (mkBot (user_states bot) true (task_manager bot) (workers bot))
      end
  end.

(** The test of the dispatcher, [task.scheduled_time <= now], when the two
    can be compared. *)
Definition due (now : datetime) (t : ScheduledTask) : bool :=
  dt_le (scheduled_time t) now.

(** The body of the loop of [check_and_run_tasks] for a task that is due:
    the status is written, the notification is scheduled and the worker
    thread is started. *)
Definition start_task (acc : HackRxBot * list event) (task : ScheduledTask)
  : HackRxBot * list event :=
  let '(bot, evs) := acc in
  let tm := update_task_status (task_manager bot) (task_id task) "running" JNull in
  (mkBot (user_states bot) (scheduler_running bot) tm (workers bot ++ [task])%list,
   (evs ++ [Notification (user_id task) "Task Started"])%list).

(** One iteration of the loop. *)
Definition dispatch (now : datetime) (acc : HackRxBot * list event) (task : ScheduledTask)
  : result (HackRxBot * list event) :=
  match dt_le_py (scheduled_time task) now with
  | Ok is_due => Ok (if is_due then start_task acc task else acc)
  | Raise e => Raise e
  end.

(** The loop over the snapshot: an exception ends it, and what was done
    before stays done. *)
Fixpoint dispatch_all (now : datetime) (pending_tasks : list ScheduledTask)
    (acc : HackRxBot * list event) : HackRxBot * list event * option exn :=
  match pending_tasks with
  | [] => (acc, None)
  | task :: rest =>
      match dispatch now acc task with
      | Ok acc' => dispatch_all now rest acc'
      | Raise e => (acc, Some e)
      end
  end.

(** [check_and_run_tasks]: what a call does to the bot and to the world,
    whether it returns or raises ... *)
Definition check_and_run_tasks (bot : HackRxBot) (now : datetime)
  : HackRxBot * list event :=
  let pending_tasks := get_pending_tasks (task_manager bot) in
  (dispatch_all now pending_tasks (bot, [])).1.


(** The part of a snapshot that the loop gets through: the tasks before
    the first one whose time cannot be compared with the clock. *)
Fixpoint comparable (now : datetime) (l : list ScheduledTask) : list ScheduledTask :=
  match l with
  | [] => []
  | t :: l' =>
      match dt_le_py (scheduled_time t) now with
      | Ok _ => t :: comparable now l'
      | Raise _ => []
      end
  end.

Definition claim_if_due (now : datetime) (acc : HackRxBot * list event)
    (t : ScheduledTask) : HackRxBot * list event :=
  if due now t then start_task acc t else acc.

(** Is [k] the id of a task of [l] that is due? *)
Definition claimed (now : datetime) (l : list ScheduledTask) (k : string) : bool :=
  existsb (fun t => String.eqb (task_id t) k && due now t) l.

(** ** The life of a task under the program's operations

    The handlers of the dialogue run on the event loop, the dispatcher in
    the scheduler thread, every execution in a worker thread of its own.
    Between the moment the dispatcher takes its snapshot of the pending
    tasks and the moment it claims a task of that snapshot, the other
    threads go on: a run is a sequence of the following operations. *)

Inductive op : Type :=
| OpCreate (task : ScheduledTask)     (* intake: [add_task] of a pending task *)
| OpScan (now : datetime)             (* a whole cycle of the dispatcher, uninterrupted *)
| OpSnapshot (now : datetime)         (* the dispatcher reads the clock and takes its
                                         snapshot of the pending tasks *)
| OpClaim                             (* the dispatcher handles the next task of its
                                         snapshot, or finds none left *)
| OpFinish (i : nat) (sc : Scraper)   (* worker [i] ends its run *)
| OpCancel (tid : string).            (* the cancel button *)

(** The bot together with the dispatcher's cycle in progress: the clock
    reading and the tasks of the snapshot that the loop has not reached
    yet. *)
Record Sched : Type := mkSched {
  the_bot : HackRxBot;
  cycle : option (datetime * list ScheduledTask)
}.

(** One operation; [None] when it cannot happen in this state (intake only
    creates pending tasks without results, only a started worker can
    finish, and the scheduler thread runs one cycle at a time). *)
Definition step_op (st : Sched) (o : op) : option Sched :=
  let bot := the_bot st in
  match o with
  | OpCreate task =>
      if String.eqb (status task) "pending" && negb (py_truthy (results task))
      then Some (mkSched (with_task_manager bot (add_task (task_manager bot) task).1)
                         (cycle st))
      else None
  | OpScan now =>
      match cycle st with
      | None => Some (mkSched (check_and_run_tasks bot now).1 None)
      | Some _ => None
      end
  | OpSnapshot now =>
      match cycle st with
      | None => Some (mkSched bot (Some (now, get_pending_tasks (task_manager bot))))
      | Some _ => None
      end
  | OpClaim =>
      match cycle st with
      | Some (now, task :: rest) =>
          match dispatch now (bot, []) task with
          | Ok acc => Some (mkSched acc.1 (Some (now, rest)))
          | Raise _ => Some (mkSched bot None)
          end
      | Some (_, []) => Some (mkSched bot None)
      | None => None
      end
  | OpFinish i sc =>
      match workers bot !! i with
      | Some task =>
          Some (mkSched (mkBot (user_states bot) (scheduler_running bot)
                               (run_hackrx_task (task_manager bot) sc task).1
                               (delete i (workers bot)))
                        (cycle st))
      | None => None
      end
  | OpCancel tid =>
      Some (mkSched (with_task_manager bot (cancel_task (task_manager bot) tid).1)
                    (cycle st))
  end.

Definition status_of (bot : HackRxBot) (tid : string) : option string :=
  status <$> tasks (task_manager bot) !! tid.

Definition creates (o : op) (tid : string) : bool :=
  match o with
  | OpCreate task => String.eqb (task_id task) tid
  | _ => false
  end.

(** The successive status values of the record stored under [tid], oldest
    first, along a run; a creation under [tid] starts a new record. *)
Fixpoint status_history_from (ops : list op) (st : Sched) (tid : string)
    (h : list string) : option (list string) :=
  match ops with
  | [] => Some h
  | o :: ops' =>
      match step_op st o with
      | None => None
      | Some st' =>
          let h' :=
            match status_of (the_bot st') tid with
            | None => h
            | Some s =>
                if creates o tid then [s]
                else if bool_decide (last h = Some s) then h else (h ++ [s])%list
            end in
          status_history_from ops' st' tid h'
      end
  end.

Definition status_history (ops : list op) (bot : HackRxBot) (tid : string)
    (h : list string) : option (list string) :=
  status_history_from ops (mkSched bot None) tid h.

(** The history of an id at the start of a run. *)
Definition initial_history (bot : HackRxBot) (tid : string) : list string :=
  match status_of bot tid with
  | Some s => [s]
  | None => []
  end.

(** Every creation uses an id that is not in the store. *)
Fixpoint fresh_ids_from (ops : list op) (st : Sched) : bool :=
  match ops with
  | [] => true
  | o :: ops' =>
      match step_op st o with
      | None => true
      | Some st' =>
          match o with
          | OpCreate task =>
              bool_decide (tasks (task_manager (the_bot st)) !! task_id task = None)
          | _ => true
          end && fresh_ids_from ops' st'
      end
  end.

Definition fresh_ids (ops : list op) (bot : HackRxBot) : bool :=
  fresh_ids_from ops (mkSched bot None).

(** No cancellation falls between a snapshot of the dispatcher and the end
    of its cycle. *)
Fixpoint calm_from (ops : list op) (st : Sched) : bool :=
  match ops with
  | [] => true
  | o :: ops' =>
      match step_op st o with
      | None => true
      | Some st' =>
          match o, cycle st with
          | OpCancel _, Some _ => false
          | _, _ => true
          end && calm_from ops' st'
      end
  end.

Definition calm (ops : list op) (bot : HackRxBot) : bool :=
  calm_from ops (mkSched bot None).

(** The lifecycles that the specification names. *)
Definition lifecycles : list (list string) :=
  [ ["pending"; "running"; "completed"];
    ["pending"; "running"; "failed"];
    ["pending"; "cancelled"] ].

(** The lifecycles of the program: a cancelled task that is still in the
    snapshot of a cycle in progress is claimed and executed. *)
Definition late_claim_lifecycles : list (list string) :=
  [ ["pending"; "cancelled"; "running"; "completed"];
    ["pending"; "cancelled"; "running"; "failed"] ].

Definition terminal (s : string) : bool :=
  String.eqb s "completed" || String.eqb s "failed" || String.eqb s "cancelled".

Definition is_prefix (h a : list string) : bool :=
  bool_decide (take (List.length h) a = h).

Definition allowed_history (h : list string) : bool :=
  existsb (is_prefix h) lifecycles.

Definition possible_history (h : list string) : bool :=
  existsb (is_prefix h) (lifecycles ++ late_claim_lifecycles).

(** A change of status that an operation can make; [late] admits the claim
    of a cancelled task. *)
Definition transition (late : bool) (a b : string) : bool :=
  String.eqb a "pending" && (String.eqb b "running" || String.eqb b "cancelled")
  || String.eqb a "running" && (String.eqb b "completed" || String.eqb b "failed")
  || late && String.eqb a "cancelled" && String.eqb b "running".

(** Every two successive values of the history are a transition. *)
Fixpoint path (late : bool) (h : list string) : bool :=
  match h with
  | [] => true
  | a :: t =>
      match t with
      | [] => true
      | b :: _ => transition late a b && path late t
      end
  end.

(** A run of operations from a given state. *)
Fixpoint run_from (ops : list op) (st : Sched) : option Sched :=
  match ops with
  | [] => Some st
  | o :: ops' =>
      match step_op st o with
      | Some st' => run_from ops' st'
      | None => None
      end
  end.

Definition run_ops (ops : list op) (bot : HackRxBot) : option HackRxBot :=
  the_bot <$> run_from ops (mkSched bot None).

(** What one operation may do to the status stored under an id ([None]:
    no task under that id). *)
Definition allowed_step (o : op) (s s' : option string) : Prop :=
  s' = s
  \/ match o with
     | OpCreate _ => s = None /\ s' = Some "pending"
     | OpScan _ => s = Some "pending" /\ s' = Some "running"
     | OpSnapshot _ => False
     | OpClaim =>
         (s = Some "pending" \/ s = Some "cancelled") /\ s' = Some "running"
     | OpFinish _ _ =>
         s = Some "running" /\ (s' = Some "completed" \/ s' = Some "failed")
     | OpCancel _ => s = Some "pending" /\ s' = Some "cancelled"
     end.

(** The change of status that an operation makes to a task. *)
Definition step_edge (late : bool) (o : op) (a b : string) : Prop :=
  match o with
  | OpScan _ => a = "pending" /\ b = "running"
  | OpClaim => (a = "pending" \/ (late = true /\ a = "cancelled")) /\ b = "running"
  | OpFinish _ _ => a = "running" /\ (b = "completed" \/ b = "failed")
  | OpCancel _ => a = "pending" /\ b = "cancelled"
  | OpCreate _ | OpSnapshot _ => False
  end.

(** The store is keyed by the tasks' own ids, every worker's task is
    running, and no two workers run the same task. *)
Definition consistent (bot : HackRxBot) : Prop :=
  (forall k t, tasks (task_manager bot) !! k = Some t -> task_id t = k)
  /\ (forall w, In w (workers bot) -> status_of bot (task_id w) = Some "running")
  /\ NoDup (task_id <$> workers bot).

(** The tasks that the cycle in progress has still to handle are stored,
    under distinct ids, and are pending or (when [late]) cancelled. *)
Definition cycle_ok (late : bool) (st : Sched) : Prop :=
  forall now l, cycle st = Some (now, l) ->
    NoDup (task_id <$> l)
    /\ forall t, In t l ->
         status_of (the_bot st) (task_id t) = Some "pending"
         \/ (late = true /\ status_of (the_bot st) (task_id t) = Some "cancelled").

(** The outcome of one operation on the status stored under an id: a
    creation under the id, or else no change or one edge. *)
Definition step_outcome (late : bool) (o : op) (tid : string) (s s' : option string)
  : Prop :=
  (creates o tid = true /\ s = None /\ s' = Some "pending")
  \/ (creates o tid = false
      /\ (s' = s \/ exists a b, s = Some a /\ s' = Some b /\ step_edge late o a b)).

(** What a history records: a path that ends at the present status and,
    for an id that was not in the store at the start, begins at pending. *)
Definition history_ok (late born : bool) (h : list string) (s : option string) : Prop :=
  path late h = true
  /\ match s with None => h = [] | Some x => last h = Some x end
  /\ (born = true -> match h with [] => True | a :: _ => a = "pending" end).

(** Two tasks of user 7 created within the same second; the first is
    already due when it is created. *)
Definition collision_time : datetime :=
  mkdt (mkdate 2024 1 15) (mktime 14 0 0 0) (Some IST_offset).
Definition collision_first : ScheduledTask :=
  new_task 7 (make_task_id 7 1705307400250000) "https://example.org/a" "first run"
           collision_time collision_time.
Definition collision_second : ScheduledTask :=
  new_task 7 (make_task_id 7 1705307400900000) "https://example.org/b" "second run"
           (mkdt (mkdate 2024 1 15) (mktime 18 0 0 0) (Some IST_offset)) collision_time.
Definition collision_scraper : Scraper :=
  mkScraper true true (true, "Submission completed (no clear indicators)")
            (fun _ => Page "No submissions yet") None.
Definition collision_run : list op :=
  [ OpCreate collision_first; OpScan collision_time; OpCreate collision_second;
    OpFinish 0 collision_scraper ].

(** A run without id collision: a task is created, claimed, executed, and a
    late cancellation is attempted. *)
Definition plain_run : list op :=
  [ OpCreate collision_first; OpScan collision_time; OpFinish 0 collision_scraper;
    OpCancel (task_id collision_first) ].

(** A cancellation between the snapshot of the dispatcher and its claim. *)
Definition stale_run : list op :=
  [ OpCreate collision_first; OpSnapshot collision_time;
    OpCancel (task_id collision_first); OpClaim ].

(** A store that holds one finished task. *)
Definition sample_store : TaskManager :=
  mkTM {[ task_id collision_first :=
            set_results (set_status collision_first "completed")
                        (JObj [("success", JBool true)]) ]} None.

(** ** The dialogue with the user

    The handlers of the scheduling and cancellation dialogues.  A reply is
    recorded by its kind; the wording of the messages is not modelled,
    except for the inline keyboard of the cancellation dialogue. *)

Definition DEFAULT_WEBHOOK_URL : string :=
  "https://api.codebrothers.tech/api/v1/hackrx/run".

Inductive reply : Type :=
| ReplyScheduleHelp
| ReplyTimeSet (scheduled_time : datetime)
| ReplyInvalidTime (error : string)
| ReplyInvalidUrl
| ReplyWebhookSet
| ReplyScheduled
| ReplyPleaseStart
| ReplyNoPending
| ReplyKeyboard (buttons : list (string * string))   (* caption, callback_data *)
| ReplyCancelled
| ReplyNotCancelled.

(** [state[...] = ...]: the state dictionary is the one stored for the
    user. *)
Definition set_user_state (bot : HackRxBot) (uid : Z) (st : UserState) : HackRxBot :=
  mkBot (<[uid := st]> (user_states bot)) (scheduler_running bot)
        (task_manager bot) (workers bot).

(** [not state]: the dictionary has no key. *)
Definition empty_state (st : UserState) : bool :=
  match step st, st_scheduled_time st, st_webhook_url st with
  | None, None, None => true
  | _, _, _ => false
  end.

Definition start_scheduling (bot : HackRxBot) (uid : Z) : HackRxBot * list reply :=
  let bot := clear_user_state bot uid in
  let '(bot, state) := get_user_state bot uid in
  (set_user_state bot uid
     (mkUserState (Some "waiting_time") (st_scheduled_time state) (st_webhook_url state)),
   [ReplyScheduleHelp]).

(** Only a [ValueError] of the parser is caught. *)
Definition handle_time_input (bot : HackRxBot) (uid : Z) (text : string)
    (now : datetime) : result (HackRxBot * list reply) :=
  let '(bot, state) := get_user_state bot uid in
  match parse_time_input text now with
  | Ok scheduled_time =>
      Ok (set_user_state bot uid
            (mkUserState (Some "waiting_webhook") (Some scheduled_time)
                         (st_webhook_url state)),
          [ReplyTimeSet scheduled_time])
  | Raise (ValueError e) => Ok (bot, [ReplyInvalidTime e])
  | Raise e => Raise e
  end.

(** The URL that [handle_webhook_input] accepts for a text, if any. *)
Definition accepted_url (text : string) : option string :=
  if String.eqb (py_lower text) "default" then Some DEFAULT_WEBHOOK_URL
  else if negb (py_startswith "http://" text || py_startswith "https://" text)
  then None
  else Some text.

Definition handle_webhook_input (bot : HackRxBot) (uid : Z) (text : string)
  : HackRxBot * list reply :=
  let '(bot, state) := get_user_state bot uid in
  match accepted_url text with
  | None => (bot, [ReplyInvalidUrl])
  | Some webhook_url =>
      (set_user_state bot uid
         (mkUserState (Some "waiting_notes") (st_scheduled_time state) (Some webhook_url)),
       [ReplyWebhookSet])
  end.

(** [handle_message]: the text is stripped and handed to the handler of the
    current step; [unix_time] and [now] are the clock readings a handler
    may take. *)
Definition handle_message (bot : HackRxBot) (uid : Z) (message_text : string)
    (unix_time : Z) (now : datetime) : result (HackRxBot * list reply) :=
  let text := py_strip message_text in
  let '(bot, state) := get_user_state bot uid in
  if empty_state state then Ok (bot, [ReplyPleaseStart])
  else
    match step state with
    | Some s =>
        if String.eqb s "waiting_time" then handle_time_input bot uid text now
        else if String.eqb s "waiting_webhook" then Ok (handle_webhook_input bot uid text)
        else if String.eqb s "waiting_notes" then
          bot' ← handle_notes_input bot uid text unix_time now;
          Ok (bot', [ReplyScheduled])
        else Ok (bot, [])
    | None => Ok (bot, [])
    end.

(** [dt.strftime("%Y-%m-%d %I:%M %p")], for years from 1000 on (for an
    earlier year the padding of [%Y] is left to the C library). *)
Definition strftime_button (dt : datetime) : string :=
  let d := dt_date dt in
  let t := dt_time dt in
  let h12 := if t_hour t mod 12 =? 0 then 12 else t_hour t mod 12 in
  pad4 (d_year d) (String "-" (pad2 (d_month d) (String "-" (pad2 (d_day d)
  (String " " (pad2 h12 (String ":" (pad2 (t_minute t)
  (String " " (if t_hour t <? 12 then "AM" else "PM")))))))))).

Definition clock_face : string :=
  String (ascii_of_N 240) (String (ascii_of_N 159) (String (ascii_of_N 149)
    (String (ascii_of_N 144) ""))).                     (* U+1F550 *)

Definition cancel_button (task : ScheduledTask) : string * string :=
  (clock_face +:+ " " +:+ strftime_button (scheduled_time task) +:+ " - "
     +:+ substring 0 20 (notes task) +:+ "...",
   "cancel_task_" +:+ task_id task).

Definition start_cancellation (bot : HackRxBot) (uid : Z) : list reply :=
  let user_tasks := get_user_tasks (task_manager bot) uid in
  let pending_tasks := List.filter (fun t => String.eqb (status t) "pending") user_tasks in
  match pending_tasks with
  | [] => [ReplyNoPending]
  | _ => [ReplyKeyboard (cancel_button <$> pending_tasks)]
  end.

(** [HackRxBot.cancel_task] *)
Definition HackRxBot_cancel_task (bot : HackRxBot) (tid : string)
  : HackRxBot * list reply :=
  let '(tm, ok) := cancel_task (task_manager bot) tid in
  (with_task_manager bot tm, [if ok then ReplyCancelled else ReplyNotCancelled]).

(** The branch of [button_callback] for the buttons of the cancellation
    keyboard: [None] when the callback data is not of that kind. *)
Definition cancel_callback (bot : HackRxBot) (data : string)
  : option (HackRxBot * list reply) :=
  if bool_decide (data ∈ ["schedule"; "mytasks"; "cancel"]) then None
  else if py_startswith "cancel_task_" data
  then Some (HackRxBot_cancel_task bot (py_replace "cancel_task_" "" data))
  else None.

(** What the dialogue keeps true of a conversation state and of a stored
    task. *)
Definition is_http (url : string) : bool :=
  py_startswith "http://" url || py_startswith "https://" url.

Definition good_state (st : UserState) : Prop :=
  (forall url, st_webhook_url st = Some url -> is_http url = true)
  /\ (forall dt, st_scheduled_time st = Some dt -> valid_datetime dt = true)
  /\ (step st = Some "waiting_webhook" -> is_Some (st_scheduled_time st))
  /\ (step st = Some "waiting_notes" ->
      is_Some (st_scheduled_time st) /\ is_Some (st_webhook_url st)).

Definition good_task (k : string) (t : ScheduledTask) : Prop :=
  task_id t = k /\ is_http (webhook_url t) = true /\ valid_task t = true.

Definition dialogue_inv (bot : HackRxBot) : Prop :=
  (forall uid st, user_states bot !! uid = Some st -> good_state st)
  /\ (forall k t, tasks (task_manager bot) !! k = Some t -> good_task k t).

(** No character of the string satisfies [p]. *)
Fixpoint no_char (p : ascii -> bool) (s : string) : bool :=
  match s with
  | EmptyString => true
  | String c s' => negb (p c) && no_char p s'
  end.

(** The browser run got as far as monitoring and closed cleanly. *)
Definition submission_accepted (sc : Scraper) : bool :=
  create_driver sc && login sc && (submit_webhook sc).1
  && match quit_error sc with None => true | Some _ => false end.

(** Seconds spent in the [time.sleep] calls of the bot itself. *)
Fixpoint total_sleep (evs : list event) : Z :=
  match evs with
  | [] => 0
  | Sleep n :: evs' => n + total_sleep evs'
  | _ :: evs' => total_sleep evs'
  end.

(** The number of visits of the submissions page. *)
Fixpoint visits (evs : list event) : Z :=
  match evs with
  | [] => 0
  | Visit _ :: evs' => 1 + visits evs'
  | _ :: evs' => visits evs'
  end.

(** [time.sleep(4)] in [wait_for_page_load]: what one visit sleeps at
    most, besides its waits for the browser. *)
Definition page_load_sleep : Z := 4.

(** The record returned when an error is detected on the page. *)
Definition error_result (details : json) : json :=
  JObj [ ("found", JBool true);
         ("has_results", JBool false);
         ("has_error", JBool true);
         ("details", details) ].

(** A bot whose store holds one pending task that is due. *)
Definition one_task_bot : HackRxBot :=
  with_task_manager (HackRxBot_init None)
    (add_task (TaskManager_init None) collision_first).1.

(** The names a metric can be stored under. *)
Definition metric_names : list string :=
  ["overall_score"; "accuracy"; "avg_response"; "position"; "f1_score"; "precision";
   "recall"; "throughput"].

Definition status_names : list string :=
  ["unknown"; "completed"; "processing"; "failed"; "submitted"].

(** The string is empty or begins with a character that is not white
    space. *)
Definition nonspace_head (s : string) : bool :=
  match s with
  | EmptyString => true
  | String c _ => negb (is_space c)
  end.

(** A task that was scheduled with empty notes. *)
Definition blank_notes_task : ScheduledTask :=
  new_task 7 (make_task_id 7 1705307400250000) "https://example.org/a" ""
           collision_time collision_time.

(** * Verified properties *)

(** ** Strings *)

Lemma length_append (a b : string) :
  String.length (a +:+ b) = (String.length a + String.length b)%nat.
Proof. induction a as [|c a IH]; simpl; [reflexivity | now rewrite IH]. Qed.

Lemma substring_all (p : string) : substring 0 (String.length p) p = p.
Proof. induction p as [|c p IH]; simpl; [reflexivity | now rewrite IH]. Qed.

Lemma substring_append_r (v p : string) :
  substring (String.length v) (String.length p) (v +:+ p) = p.
Proof. induction v as [|c v IH]; simpl; [apply substring_all | exact IH]. Qed.

Lemma py_endswith_append (v p : string) : py_endswith p (v +:+ p) = true.
Proof.
  unfold py_endswith. rewrite length_append.
  replace (String.length v + String.length p - String.length p)%nat
    with (String.length v) by lia.
  rewrite substring_append_r, String.eqb_refl.
  apply andb_true_iff; split; [apply Nat.leb_le; lia | reflexivity].
Qed.

Lemma marker_found_pos (page_text target_notes : string) :
  marker_found page_text target_notes = true ->
  (py_find (py_lower target_notes) (py_lower page_text) =? -1) = false.
Proof. unfold marker_found, py_in. now intros H%negb_true_iff. Qed.

(** ** The matcher *)

Lemma append_assoc (a b c : string) : (a +:+ b) +:+ c = a +:+ (b +:+ c).
Proof.
  induction a as [|x a IH]; [reflexivity|].
  change (String x ((a +:+ b) +:+ c) = String x (a +:+ (b +:+ c))). now f_equal.
Qed.

Lemma substring_prefix (p s : string) :
  substring 0 (String.length (p +:+ s) - String.length s) (p +:+ s) = p.
Proof.
  replace (String.length (p +:+ s) - String.length s)%nat with (String.length p)
    by (rewrite length_append; lia).
  induction p as [|c p IH]; simpl.
  - now destruct s.
  - now rewrite IH.
Qed.

Lemma rx_cat (ic : bool) (fuel : nat) (r1 r2 : regex) (s : string) (cs : caps)
    (k : string -> caps -> option caps) :
  rx ic fuel (RCat r1 r2) s cs k =
  rx ic fuel r1 s cs (fun s' cs' => rx ic fuel r2 s' cs' k).
Proof. destruct fuel; reflexivity. Qed.

Lemma rx_alt (ic : bool) (fuel : nat) (r1 r2 : regex) (s : string) (cs : caps)
    (k : string -> caps -> option caps) :
  rx ic fuel (RAlt r1 r2) s cs k =
  match rx ic fuel r1 s cs k with
  | Some x => Some x
  | None => rx ic fuel r2 s cs k
  end.
Proof. destruct fuel; reflexivity. Qed.

Lemma rx_group (ic : bool) (fuel : nat) (n : nat) (r : regex) (s : string) (cs : caps)
    (k : string -> caps -> option caps) :
  rx ic fuel (RGroup n r) s cs k =
  rx ic fuel r s cs
     (fun s' cs' =>
        k s' ((n, substring 0 (String.length s - String.length s') s) :: cs')).
Proof. destruct fuel; reflexivity. Qed.

Lemma rx_star (ic : bool) (f : nat) (r : regex) (s : string) (cs : caps)
    (k : string -> caps -> option caps) :
  rx ic (S f) (RStar r) s cs k =
  match rx ic (S f) r s cs
          (fun s' cs' =>
             if (String.length s' <? String.length s)%nat
             then rx ic f (RStar r) s' cs' k
             else None) with
  | Some x => Some x
  | None => k s cs
  end.
Proof. reflexivity. Qed.

(** Whatever the matcher returns comes from a match of the expression with
    a prefix of the subject, followed by the continuation on the rest. *)
Lemma rx_sound (ic : bool) (fuel : nat) :
  forall (r : regex) (s : string) (cs : caps) (k : string -> caps -> option caps)
         (x : caps),
    rx ic fuel r s cs k = Some x ->
    exists p s' cs', s = p +:+ s' /\ matches ic r cs p cs' /\ k s' cs' = Some x.
Proof.
  induction fuel as [|f IHf];
    (induction r as [|c|r1 IH1 r2 IH2|r1 IH1 r2 IH2|r1 IH1|n r1 IH1]; intros s cs k x H;
     [ exists "", s, cs; repeat split; [constructor|exact H]
     | destruct s as [|a s']; [discriminate|];
       assert (E : cmatch ic c a = true /\ k s' cs = Some x)
         by (simpl in H; destruct (cmatch ic c a); [now split|discriminate]);
       destruct E as [E H'];
       exists (String a ""), s', cs; repeat split; [now constructor|exact H']
     | rewrite rx_cat in H;
       apply IH1 in H as (p1 & s1 & cs1 & -> & M1 & H);
       apply IH2 in H as (p2 & s2 & cs2 & -> & M2 & H);
       exists (p1 +:+ p2), s2, cs2; rewrite append_assoc;
       repeat split; [econstructor; eassumption|exact H]
     | rewrite rx_alt in H;
       match type of H with
       | match ?e with _ => _ end = _ => destruct e eqn:E
       end;
       [ injection H as ->; apply IH1 in E as (p & s' & cs' & -> & M1 & E);
         exists p, s', cs'; repeat split; [now apply M_alt_l|exact E]
       | apply IH2 in H as (p & s' & cs' & -> & M1 & E');
         exists p, s', cs'; repeat split; [now apply M_alt_r|exact E'] ]
     | idtac
     | rewrite rx_group in H;
       apply IH1 in H as (p & s' & cs' & -> & M1 & H);
       rewrite substring_prefix in H;
       exists p, s', ((n, p) :: cs'); repeat split; [now constructor|exact H] ]).
  - exists "", s, cs. repeat split; [constructor|exact H].
  - rewrite rx_star in H.
    match type of H with
    | match ?e with _ => _ end = _ => destruct e eqn:E
    end.
    + injection H as ->. apply IH1 in E as (p1 & s1 & cs1 & -> & M1 & E).
      destruct (_ <? _)%nat; [|discriminate].
      apply IHf in E as (p2 & s2 & cs2 & -> & M2 & E).
      exists (p1 +:+ p2), s2, cs2. rewrite append_assoc.
      repeat split; [econstructor; eassumption|exact E].
    + exists "", s, cs. repeat split; [constructor|exact H].
Qed.

Lemma re_match_sound (ic : bool) (r : regex) (s : string) (cs : caps) :
  re_match ic r s = Some cs -> exists p s', s = p +:+ s' /\ matches ic r [] p cs.
Proof.
  unfold re_match. intros (p & s' & cs' & -> & M & [= <-])%rx_sound. eauto.
Qed.

(** A starred character class captures nothing. *)
Lemma star_chr_caps (ic : bool) (c : cclass) (cs cs' : caps) (p : string) :
  matches ic (RStar (RChr c)) cs p cs' -> cs' = cs.
Proof.
  remember (RStar (RChr c)) as r eqn:E. intros H. revert E.
  induction H as [| | | | | |r0 cs0 p1 cs1 p2 cs2 H1 _ H2 IH|]; intros E;
    try discriminate; [reflexivity|].
  injection E as ->. rewrite (IH eq_refl). now inversion H1.
Qed.

Ltac inv_matches :=
  repeat match goal with
  | H : matches _ REps _ _ _ |- _ => inversion H; clear H; subst
  | H : matches _ (RChr _) _ _ _ |- _ => inversion H; clear H; subst
  | H : matches _ (RCat _ _) _ _ _ |- _ => inversion H; clear H; subst
  | H : matches _ (RAlt _ _) _ _ _ |- _ => inversion H; clear H; subst
  | H : matches _ (RGroup _ _) _ _ _ |- _ => inversion H; clear H; subst
  | H : matches _ (RStar (RChr _)) _ _ _ |- _ => apply star_chr_caps in H; subst
  end.

#[local] Arguments is_digit : simpl never.

Lemma py_int_1 (a : ascii) : is_digit a = true -> py_int (String a "") = Ok (digit_val a).
Proof. intros H. unfold py_int, int_digits_acc. now rewrite H. Qed.

Lemma py_int_2 (a b : ascii) :
  is_digit a = true -> is_digit b = true ->
  py_int (String a (String b "")) = Ok (10 * digit_val a + digit_val b).
Proof. intros Ha Hb. unfold py_int, int_digits_acc. now rewrite Ha, Hb. Qed.

Lemma py_int_4 (a b c d : ascii) :
  is_digit a = true -> is_digit b = true -> is_digit c = true -> is_digit d = true ->
  py_int (String a (String b (String c (String d "")))) =
  Ok (10 * (10 * (10 * digit_val a + digit_val b) + digit_val c) + digit_val d).
Proof. intros Ha Hb Hc Hd. unfold py_int, int_digits_acc. now rewrite Ha, Hb, Hc, Hd. Qed.

(** The groups of the time patterns are numerals. *)
Lemma time12_groups (tok : string) (cs : caps) :
  re_match false time12_re tok = Some cs ->
  exists h m, py_int (grp 1 cs) = Ok h /\ py_int (grp 2 cs) = Ok m.
Proof.
  intros (p & s' & -> & M)%re_match_sound.
  unfold time12_re, dig12, dig, lit, sp, ROpt in M. cbn [RSeq RStr] in M.
  inv_matches.
  all: cbn [cmatch] in *.
  all: unfold grp; cbn [group Nat.eqb]; cbv [append].
  all: rewrite ?py_int_2, ?py_int_1 by assumption.
  all: eexists _, _; split; reflexivity.
Qed.

Lemma time24_groups (tok : string) (cs : caps) :
  re_match false time24_re tok = Some cs ->
  exists h m, py_int (grp 1 cs) = Ok h /\ py_int (grp 2 cs) = Ok m.
Proof.
  intros (p & s' & -> & M)%re_match_sound.
  unfold time24_re, dig12, dig, lit, ROpt in M. cbn [RSeq] in M.
  inv_matches.
  all: cbn [cmatch] in *.
  all: unfold grp; cbn [group Nat.eqb]; cbv [append].
  all: rewrite ?py_int_2, ?py_int_1 by assumption.
  all: eexists _, _; split; reflexivity.
Qed.

(** The first group of the date pattern has the shape that [strptime]
    expects, so [strptime] fails on it only for numbers that are not a date
    of the calendar. *)
Lemma date_group (tok : string) (cs : caps) :
  re_match false date_re tok = Some cs ->
  exists y m d,
    ymd_numbers (grp 1 cs) = Some (y, m, d)
    /\ strptime_ymd (grp 1 cs) =
       if valid_date (mkdate y m d) then Ok (mkdate y m d)
       else Raise (ValueError "time data does not match format '%Y-%m-%d'").
Proof.
  intros (p & s' & -> & M)%re_match_sound.
  unfold date_re, dig12, dig, lit, sp, ROpt, RPlus in M. cbn [RSeq RStr] in M.
  inv_matches.
  all: cbn [cmatch] in *.
  all: repeat match goal with
       | H : Ascii.eqb _ _ = true |- _ => apply Ascii.eqb_eq in H; subst
       end.
  all: unfold grp; cbn [group Nat.eqb]; cbv [append].
  all: unfold ymd_numbers, strptime_ymd, ymd_fields.
  all: cbn [String.length].
  all: unfold ymd_re, dig12, dig, lit, ROpt; cbn [RSeq].
  all: cbn [rx cmatch].
  all: repeat match goal with
       | H : is_digit ?a = true |- context [is_digit ?a] => rewrite H
       end.
  all: change (is_digit "-") with false.
  all: cbn [Ascii.eqb Bool.eqb String.length Nat.sub substring].
  all: unfold grp; cbn [group Nat.eqb].
  all: rewrite ?py_int_4, ?py_int_2, ?py_int_1 by assumption.
  all: eexists _, _, _; split; reflexivity.
Qed.

(** ** The classifier *)

Lemma lookup_set_metric_ne (k k' : string) (v : option string) (m : gmap string string) :
  k <> k' -> set_metric k v m !! k' = m !! k'.
Proof. intros Hne. destruct v; simpl; [now rewrite lookup_insert_ne | reflexivity]. Qed.

Lemma lookup_set_metric_eq (k : string) (v : option string) (m : gmap string string) :
  m !! k = None -> set_metric k v m !! k = v.
Proof. intros Hm. destruct v; simpl; [apply lookup_insert_eq | exact Hm]. Qed.

(** The found-branch of the classifier, with its context window named. *)
Lemma extract_found (page_text target_notes : string) :
  marker_found page_text target_notes = true ->
  let context :=
    context_window page_text (py_find (py_lower target_notes) (py_lower page_text)) in
  let r := extract_submission_details page_text target_notes in
  metrics r = extract_metrics context
  /\ has_results r =
     (0 <? Z.of_nat (size (extract_metrics context)))
     && existsb (fun key => has_key key (extract_metrics context)) primary_metrics.
Proof.
  intros H%marker_found_pos. unfold extract_submission_details.
  rewrite H. split; reflexivity.
Qed.

Lemma has_key_true (k : string) (m : gmap string string) :
  has_key k m = true <-> is_Some (m !! k).
Proof. unfold has_key. apply bool_decide_eq_true. Qed.

Lemma size_pos_of_lookup (k : string) (m : gmap string string) :
  is_Some (m !! k) -> (0 <? Z.of_nat (size m)) = true.
Proof.
  intros [v Hv]. apply Z.ltb_lt.
  destruct (decide (size m = 0%nat)) as [E|E]; [|lia].
  apply map_size_empty_iff in E. subst m. now rewrite lookup_empty in Hv.
Qed.

(** C1.  When the notes occur in the page, [has_results] is true exactly
    when one of the three primary metrics (overall_score, accuracy,
    avg_response) was extracted; with none of them, whatever secondary
    metrics were found, it is false.  On the page of scenario A the
    classifier extracts overall_score 87.5 and accuracy 92% and reports
    results. *)
Theorem has_results_iff_primary_metric (page_text target_notes : string) :
  marker_found page_text target_notes = true ->
  let r := extract_submission_details page_text target_notes in
  (has_results r = true <->
     is_Some (metrics r !! "overall_score")
     \/ is_Some (metrics r !! "accuracy")
     \/ is_Some (metrics r !! "avg_response"))
  /\ (metrics r !! "overall_score" = None ->
      metrics r !! "accuracy" = None ->
      metrics r !! "avg_response" = None ->
      has_results r = false)
  /\ (let a := extract_submission_details scenario_A_page scenario_A_notes in
      metrics a !! "overall_score" = Some "87.5"
      /\ metrics a !! "accuracy" = Some "92%"
      /\ has_results a = true).
Proof.
  intros Hfound r.
  destruct (extract_found page_text target_notes Hfound) as [Hm Hr].
  fold r in Hm, Hr. rewrite <- Hm in Hr.
  assert (Hiff : has_results r = true <->
     is_Some (metrics r !! "overall_score")
     \/ is_Some (metrics r !! "accuracy")
     \/ is_Some (metrics r !! "avg_response")).
  { rewrite Hr. unfold primary_metrics. simpl existsb.
    rewrite andb_true_iff, !orb_true_iff, !has_key_true. split.
    - intros [_ [H|[H|[H|H]]]]; auto. discriminate.
    - intros H. split.
      + destruct H as [H|[H|H]]; eapply size_pos_of_lookup; exact H.
      + tauto. }
  split; [exact Hiff|]. split.
  - intros H1 H2 H3. apply not_true_is_false. intros Ht.
    apply Hiff in Ht. rewrite H1, H2, H3 in Ht.
    destruct Ht as [[? ?]|[[? ?]|[? ?]]]; discriminate.
  - vm_compute. repeat split.
Qed.

Lemma has_results_iff_primary_metric_witness :
  marker_found scenario_A_page scenario_A_notes = true
  /\ (let r := extract_submission_details scenario_A_page scenario_A_notes in
      has_results r = true <->
        is_Some (metrics r !! "overall_score")
        \/ is_Some (metrics r !! "accuracy")
        \/ is_Some (metrics r !! "avg_response")).
Proof.
  split; [reflexivity|].
  apply (has_results_iff_primary_metric scenario_A_page scenario_A_notes).
  reflexivity.
Defined.

Lemma additional_metrics_cons (n : string) (p : list regex)
    (ps : list (string * list regex)) (context : string) (m : gmap string string) :
  additional_metrics ((n, p) :: ps) context m =
  additional_metrics ps context (set_metric n (first_match p context) m).
Proof. reflexivity. Qed.

Lemma additional_metrics_nil (context : string) (m : gmap string string) :
  additional_metrics [] context m = m.
Proof. reflexivity. Qed.

Lemma extract_metrics_accuracy (context v : string) :
  extract_metrics context !! "accuracy" = Some v -> py_endswith "%" v = true.
Proof.
  unfold extract_metrics, additional_patterns.
  rewrite !additional_metrics_cons, additional_metrics_nil.
  rewrite !lookup_set_metric_ne by discriminate.
  rewrite lookup_set_metric_eq
    by (rewrite lookup_set_metric_ne by discriminate; apply lookup_empty).
  destruct (first_match accuracy_patterns context) as [a|]; cbn; [|discriminate].
  intros [= <-]. destruct (py_endswith "%" a) eqn:E; simpl.
  - exact E.
  - apply py_endswith_append.
Qed.

Lemma extract_metrics_avg_response (context v : string) :
  extract_metrics context !! "avg_response" = Some v -> py_endswith "ms" v = true.
Proof.
  unfold extract_metrics, additional_patterns.
  rewrite !additional_metrics_cons, additional_metrics_nil.
  rewrite !lookup_set_metric_ne by discriminate.
  rewrite lookup_set_metric_eq
    by (rewrite !lookup_set_metric_ne by discriminate; apply lookup_empty).
  destruct (first_match response_patterns context) as [a|]; cbn; [|discriminate].
  intros [= <-]. apply py_endswith_append.
Qed.

Lemma extract_metrics_precision (context : string) :
  extract_metrics context !! "precision" = first_match precision_patterns context.
Proof.
  unfold extract_metrics, additional_patterns.
  rewrite !additional_metrics_cons, additional_metrics_nil.
  rewrite !lookup_set_metric_ne by discriminate.
  rewrite lookup_set_metric_eq; [reflexivity|].
  rewrite !lookup_set_metric_ne by discriminate. apply lookup_empty.
Qed.

Lemma extract_metrics_recall (context : string) :
  extract_metrics context !! "recall" = first_match recall_patterns context.
Proof.
  unfold extract_metrics, additional_patterns.
  rewrite !additional_metrics_cons, additional_metrics_nil.
  rewrite !lookup_set_metric_ne by discriminate.
  rewrite lookup_set_metric_eq; [reflexivity|].
  rewrite !lookup_set_metric_ne by discriminate. apply lookup_empty.
Qed.

(** C6, as the claim states it, fails: on a page that shows
    "Precision: 90 Recall: 85" the notes are found and the metrics map holds
    precision "90" and recall "85", neither of which ends with a percent
    sign. *)
Lemma precision_recall_without_percent :
  let r := extract_submission_details bare_precision_page scenario_A_notes in
  marker_found bare_precision_page scenario_A_notes = true
  /\ metrics r !! "precision" = Some "90"
  /\ py_endswith "%" "90" = false
  /\ metrics r !! "recall" = Some "85"
  /\ py_endswith "%" "85" = false.
Proof. vm_compute. repeat split. Qed.

(** C6, amended.  When the notes occur in the page, an extracted accuracy
    always ends with '%' and an extracted avg_response always ends with
    'ms', whether or not the page showed the unit; precision and recall are
    stored exactly as the first matching pattern captured them, so they end
    with '%' only when the page has one right after the number. *)
Theorem accuracy_and_response_carry_unit (page_text target_notes : string) :
  marker_found page_text target_notes = true ->
  let r := extract_submission_details page_text target_notes in
  let context :=
    context_window page_text (py_find (py_lower target_notes) (py_lower page_text)) in
  (forall v, metrics r !! "accuracy" = Some v -> py_endswith "%" v = true)
  /\ (forall v, metrics r !! "avg_response" = Some v -> py_endswith "ms" v = true)
  /\ metrics r !! "precision" = first_match precision_patterns context
  /\ metrics r !! "recall" = first_match recall_patterns context.
Proof.
  intros Hfound r context.
  destruct (extract_found page_text target_notes Hfound) as [Hm _].
  fold r context in Hm. rewrite Hm. repeat split.
  - apply extract_metrics_accuracy.
  - apply extract_metrics_avg_response.
  - apply extract_metrics_precision.
  - apply extract_metrics_recall.
Qed.

Lemma accuracy_and_response_carry_unit_witness :
  marker_found "run 7: accuracy 77, avg response: 12.5 ms" "RUN 7" = true
  /\ (let r := extract_submission_details "run 7: accuracy 77, avg response: 12.5 ms" "RUN 7" in
      metrics r !! "accuracy" = Some "77%"
      /\ metrics r !! "avg_response" = Some "12.5ms"
      /\ forall v, metrics r !! "accuracy" = Some v -> py_endswith "%" v = true).
Proof.
  split; [reflexivity|]. split; [reflexivity|]. split; [reflexivity|].
  apply (accuracy_and_response_carry_unit
           "run 7: accuracy 77, avg response: 12.5 ms" "RUN 7").
  reflexivity.
Defined.

(** ** The task store *)

Section store.
Context (tm : TaskManager).

Lemma cancel_task_pending (tid : string) (t : ScheduledTask) :
  tasks tm !! tid = Some t -> status t = "pending" ->
  cancel_task tm tid =
    (save_tasks (mkTM (<[tid := set_status t "cancelled"]> (tasks tm)) (TASKS_FILE tm)),
     true).
Proof. intros Ht Hs. unfold cancel_task. now rewrite Ht, Hs. Qed.

Lemma cancel_task_not_pending (tid : string) (t : ScheduledTask) :
  tasks tm !! tid = Some t -> status t <> "pending" -> cancel_task tm tid = (tm, false).
Proof.
  intros Ht Hs. unfold cancel_task. rewrite Ht.
  now apply String.eqb_neq in Hs as ->.
Qed.

Lemma cancel_task_unknown (tid : string) :
  tasks tm !! tid = None -> cancel_task tm tid = (tm, false).
Proof. intros Ht. unfold cancel_task. now rewrite Ht. Qed.

Lemma update_task_status_known (tid new_status : string) (res : json) (t : ScheduledTask) :
  tasks tm !! tid = Some t ->
  tasks (update_task_status tm tid new_status res) =
    <[tid := if py_truthy res
             then set_results (set_status t new_status) res
             else set_status t new_status]> (tasks tm).
Proof. intros Ht. unfold update_task_status. now rewrite Ht. Qed.

Lemma update_task_status_unknown (tid new_status : string) (res : json) :
  tasks tm !! tid = None -> update_task_status tm tid new_status res = tm.
Proof. intros Ht. unfold update_task_status. now rewrite Ht. Qed.
End store.

(** C4.  [cancel_task] answers true exactly when the id is in the store
    with status pending; then that task's status becomes cancelled (and no
    other task changes).  For a task that is running, completed, failed or
    already cancelled, and for an unknown id, it answers false and leaves
    the store as it was. *)
Theorem cancel_task_true_iff_pending (tm : TaskManager) (tid : string) :
  ((cancel_task tm tid).2 = true <->
     exists t, tasks tm !! tid = Some t /\ status t = "pending")
  /\ (forall t, tasks tm !! tid = Some t -> status t = "pending" ->
        tasks (cancel_task tm tid).1 !! tid = Some (set_status t "cancelled")
        /\ status (set_status t "cancelled") = "cancelled"
        /\ forall k, k <> tid -> tasks (cancel_task tm tid).1 !! k = tasks tm !! k)
  /\ (forall t, tasks tm !! tid = Some t ->
        status t = "running" \/ status t = "completed" \/ status t = "failed"
        \/ status t = "cancelled" ->
        cancel_task tm tid = (tm, false))
  /\ (tasks tm !! tid = None -> cancel_task tm tid = (tm, false)).
Proof.
  repeat split.
  - intros H. destruct (tasks tm !! tid) as [t|] eqn:Ht.
    + exists t. split; [reflexivity|].
      destruct (String.eqb_spec (status t) "pending") as [E|E]; [exact E|].
      rewrite (cancel_task_not_pending tm tid t Ht E) in H. discriminate.
    + rewrite (cancel_task_unknown tm tid Ht) in H. discriminate.
  - intros (t & Ht & Hs). now rewrite (cancel_task_pending tm tid t Ht Hs).
  - rewrite (cancel_task_pending tm tid t); auto. simpl. apply lookup_insert_eq.
  - intros k Hk. rewrite (cancel_task_pending tm tid t); auto. simpl.
    now rewrite lookup_insert_ne.
  - intros t Ht Hs. apply cancel_task_not_pending with t; [exact Ht|].
    intros E. rewrite E in Hs. destruct Hs as [?|[?|[?|?]]]; discriminate.
  - apply cancel_task_unknown.
Qed.

(** C5.  [update_task_status] leaves the manager as it is for an unknown
    id.  For a known id it sets the status; the stored result is replaced
    only by a non-empty result argument, and kept when the argument is
    absent or empty; the task's other fields and every other task are
    unchanged. *)
Theorem update_task_status_frame (tm : TaskManager) (tid new_status : string) (res : json) :
  (tasks tm !! tid = None -> update_task_status tm tid new_status res = tm)
  /\ (forall t, tasks tm !! tid = Some t ->
        exists t', tasks (update_task_status tm tid new_status res) !! tid = Some t'
          /\ status t' = new_status
          /\ results t' = (if py_truthy res then res else results t)
          /\ user_id t' = user_id t /\ task_id t' = task_id t
          /\ webhook_url t' = webhook_url t /\ notes t' = notes t
          /\ scheduled_time t' = scheduled_time t /\ created_at t' = created_at t)
  /\ (forall k, k <> tid ->
        tasks (update_task_status tm tid new_status res) !! k = tasks tm !! k).
Proof.
  repeat split.
  - apply update_task_status_unknown.
  - intros t Ht. rewrite (update_task_status_known tm tid new_status res t Ht).
    rewrite lookup_insert_eq. eexists; split; [reflexivity|].
    destruct (py_truthy res); simpl; repeat split.
  - intros k Hk. destruct (tasks tm !! tid) as [t|] eqn:Ht.
    + rewrite (update_task_status_known tm tid new_status res t Ht).
      now rewrite lookup_insert_ne.
    + now rewrite (update_task_status_unknown tm tid new_status res Ht).
Qed.

Lemma handle_notes_input_store (bot bot' : HackRxBot) (uid : Z) (text : string)
    (unix_time : Z) (now : datetime) :
  handle_notes_input bot uid text unix_time now = Ok bot' ->
  exists url sched,
    tasks (task_manager bot') =
      <[make_task_id uid unix_time :=
          new_task uid (make_task_id uid unix_time) url text sched now]>
        (tasks (task_manager bot)).
Proof.
  unfold handle_notes_input, get_user_state.
  destruct (user_states bot !! uid) as [st|]; simpl.
  - destruct (st_webhook_url st) as [url|]; [|discriminate].
    destruct (st_scheduled_time st) as [sched|]; [|discriminate].
    intros [= <-]. exists url, sched. reflexivity.
  - discriminate.
Qed.

(** C10.  [add_task] checks nothing: when the store already holds a task
    under the new task's id, the new record takes its place, the store has
    as many tasks as before and the others are untouched.  Ids made by
    intake for one user at two readings of the clock within the same whole
    second are equal, so the second of two tasks created then overwrites the
    first. *)
Theorem add_task_overwrites_same_id (tm : TaskManager) (task old : ScheduledTask) :
  tasks tm !! task_id task = Some old ->
  ((add_task tm task).2 = task_id task
   /\ tasks (add_task tm task).1 !! task_id task = Some task
   /\ size (tasks (add_task tm task).1) = size (tasks tm)
   /\ forall k, k <> task_id task -> tasks (add_task tm task).1 !! k = tasks tm !! k)
  /\ (forall uid t1 t2,
        Z.quot t1 1000000 = Z.quot t2 1000000 -> make_task_id uid t1 = make_task_id uid t2)
  /\ (forall bot bot1 bot1' bot2 uid text1 text2 t1 t2 now1 now2,
        Z.quot t1 1000000 = Z.quot t2 1000000 ->
        handle_notes_input bot uid text1 t1 now1 = Ok bot1 ->
        task_manager bot1' = task_manager bot1 ->
        handle_notes_input bot1' uid text2 t2 now2 = Ok bot2 ->
        exists tid first second,
          tasks (task_manager bot1) !! tid = Some first /\ notes first = text1
          /\ tasks (task_manager bot2) !! tid = Some second /\ notes second = text2
          /\ created_at second = now2
          /\ size (tasks (task_manager bot2)) = size (tasks (task_manager bot1))).
Proof.
  intros Hold. repeat split.
  - simpl. apply lookup_insert_eq.
  - simpl. rewrite <- (insert_delete_id (tasks tm) (task_id task) old Hold) at 2.
    rewrite <- (insert_delete_eq (tasks tm)).
    rewrite !map_size_insert_None by apply lookup_delete_eq. reflexivity.
  - intros k Hk. simpl. now rewrite lookup_insert_ne.
  - intros uid t1 t2 E. unfold make_task_id. now rewrite E.
  - intros bot bot1 bot1' bot2 uid text1 text2 t1 t2 now1 now2 E H1 Htm H2.
    apply handle_notes_input_store in H1 as (url1 & s1 & H1).
    apply handle_notes_input_store in H2 as (url2 & s2 & H2).
    rewrite Htm in H2. unfold make_task_id in H2. rewrite <- E in H2.
    fold (make_task_id uid t1) in H2.
    eexists (make_task_id uid t1), _, _.
    split; [rewrite H1; apply lookup_insert_eq|]. split; [reflexivity|].
    split; [rewrite H2; apply lookup_insert_eq|]. split; [reflexivity|].
    split; [reflexivity|].
    rewrite H2, H1, insert_insert_eq.
    rewrite <- !(insert_delete_eq (tasks (task_manager bot))).
    rewrite !map_size_insert_None by apply lookup_delete_eq. reflexivity.
Qed.

(** ** ISO text of datetimes: reading back what was written *)

#[local] Arguments take_digit : simpl never.
#[local] Arguments take2 : simpl never.
#[local] Arguments take4 : simpl never.
#[local] Arguments take6 : simpl never.
#[local] Arguments pad2 : simpl never.
#[local] Arguments parse_fraction : simpl never.
#[local] Arguments parse_tz : simpl never.

Lemma digit_roundtrip (d : Z) :
  0 <= d < 10 -> is_digit (digit_char d) = true /\ digit_val (digit_char d) = d.
Proof.
  intros H.
  assert (E : d = 0 \/ d = 1 \/ d = 2 \/ d = 3 \/ d = 4 \/ d = 5 \/ d = 6 \/ d = 7
              \/ d = 8 \/ d = 9) by lia.
  repeat (destruct E as [->|E]; [split; reflexivity|]). subst d. split; reflexivity.
Qed.

Lemma take_digit_char (d : Z) (rest : string) :
  0 <= d < 10 -> take_digit (String (digit_char d) rest) = Some (d, rest).
Proof.
  intros H. destruct (digit_roundtrip d H) as [H1 H2].
  unfold take_digit. now rewrite H1, H2.
Qed.

Lemma take2_pad2 (n : Z) (rest : string) :
  0 <= n < 100 -> take2 (pad2 n rest) = Some (n, rest).
Proof.
  intros H. unfold take2, pad2.
  rewrite take_digit_char by (apply Z.mod_pos_bound; lia). cbn.
  rewrite take_digit_char by (apply Z.mod_pos_bound; lia). cbn.
  do 2 f_equal.
  rewrite (Z.mod_small (n / 10) 10) by (split; [apply Z.div_pos|apply Z.div_lt_upper_bound]; lia).
  symmetry. apply Z.div_mod. lia.
Qed.

Lemma take4_pad4 (n : Z) (rest : string) :
  0 <= n < 10000 -> take4 (pad4 n rest) = Some (n, rest).
Proof.
  intros H. unfold take4, pad4.
  rewrite take2_pad2
    by (split; [apply Z.div_pos|apply Z.div_lt_upper_bound]; lia). cbn.
  rewrite take2_pad2 by (apply Z.mod_pos_bound; lia). cbn.
  do 2 f_equal. symmetry. apply Z.div_mod. lia.
Qed.

Lemma take6_pad6 (n : Z) (rest : string) :
  0 <= n < 1000000 -> take6 (pad6 n rest) = Some (n, rest).
Proof.
  intros H. unfold take6, pad6.
  rewrite take2_pad2
    by (split; [apply Z.div_pos|apply Z.div_lt_upper_bound]; lia). cbn.
  rewrite take4_pad4 by (apply Z.mod_pos_bound; lia). cbn.
  do 2 f_equal. symmetry. apply Z.div_mod. lia.
Qed.

Lemma parse_tz_iso_tz (tz : option Z) :
  valid_tz tz = true -> parse_tz (iso_tz tz) = Some tz.
Proof.
  destruct tz as [off|]; [|reflexivity]. simpl. intros H.
  apply andb_true_iff in H as [H1%Z.ltb_lt H2%Z.ltb_lt].
  assert (Ha : 0 <= Z.abs off < 1440) by lia.
  assert (Hh : 0 <= Z.abs off / 60 < 24)
    by (split; [apply Z.div_pos|apply Z.div_lt_upper_bound]; lia).
  assert (Hm : 0 <= Z.abs off mod 60 < 60) by (apply Z.mod_pos_bound; lia).
  assert (Hdm : Z.abs off = 60 * (Z.abs off / 60) + Z.abs off mod 60)
    by (apply Z.div_mod; lia).
  destruct (off <? 0) eqn:Hs; unfold parse_tz; cbn;
    rewrite take2_pad2 by lia; cbn;
    rewrite take2_pad2 by lia; cbn;
    (replace (Z.abs off / 60 <? 24) with true by (symmetry; apply Z.ltb_lt; lia));
    (replace (Z.abs off mod 60 <? 60) with true by (symmetry; apply Z.ltb_lt; lia));
    cbn; do 2 f_equal.
  - apply Z.ltb_lt in Hs. lia.
  - apply Z.ltb_ge in Hs. lia.
Qed.

Lemma parse_fraction_iso (us : Z) (tz : option Z) :
  0 <= us < 1000000 ->
  parse_fraction (iso_fraction us (iso_tz tz)) = Some (us, iso_tz tz).
Proof.
  intros H. unfold iso_fraction. destruct (us =? 0) eqn:E.
  - apply Z.eqb_eq in E. subst us.
    destruct tz as [off|]; [|reflexivity]. simpl. now destruct (off <? 0).
  - cbn. now apply take6_pad6.
Qed.

Lemma valid_date_bounds (d : date) :
  valid_date d = true ->
  1 <= d_year d <= 9999 /\ 1 <= d_month d <= 12 /\ 1 <= d_day d <= 31
  /\ d_day d <= days_in_month (d_year d) (d_month d).
Proof.
  unfold valid_date, MINYEAR, MAXYEAR. rewrite !andb_true_iff, !Z.leb_le.
  intros [[[[[? ?] ?] ?] ?] Hd].
  assert (days_in_month (d_year d) (d_month d) <= 31).
  { unfold days_in_month.
    repeat match goal with |- context [if ?b then _ else _] => destruct b end; lia. }
  lia.
Qed.

Lemma valid_time_bounds (t : time) :
  valid_time t = true ->
  0 <= t_hour t < 24 /\ 0 <= t_minute t < 60 /\ 0 <= t_second t < 60
  /\ 0 <= t_micro t < 1000000.
Proof.
  unfold valid_time. rewrite !andb_true_iff, !Z.leb_le, !Z.ltb_lt. lia.
Qed.

Lemma parse_iso_isoformat (dt : datetime) :
  valid_datetime dt = true -> parse_iso (isoformat dt) = Some dt.
Proof.
  unfold valid_datetime. rewrite !andb_true_iff. intros [[Hd Ht] Hz].
  apply valid_date_bounds in Hd. apply valid_time_bounds in Ht.
  destruct dt as [[y mo d] [h mi se us] tz]. simpl in *.
  unfold parse_iso, isoformat. simpl.
  rewrite take4_pad4 by lia. cbn.
  rewrite take2_pad2 by lia. cbn.
  rewrite take2_pad2 by lia. cbn.
  rewrite take2_pad2 by lia. cbn.
  rewrite take2_pad2 by lia. cbn.
  rewrite take2_pad2 by lia. cbn.
  rewrite parse_fraction_iso by lia. cbn.
  rewrite parse_tz_iso_tz by exact Hz. reflexivity.
Qed.

Lemma fromisoformat_isoformat (dt : datetime) :
  valid_datetime dt = true -> fromisoformat (isoformat dt) = Ok dt.
Proof.
  intros H. unfold fromisoformat. rewrite (parse_iso_isoformat dt H).
  unfold valid_datetime in H. apply andb_true_iff in H as [H _]. now rewrite H.
Qed.

(** ** Saving and loading the store *)

Lemma task_of_dict_task_dict (t : ScheduledTask) :
  valid_task t = true -> task_of_dict (task_dict t) = Ok t.
Proof.
  unfold valid_task. intros [Hs Hc]%andb_true_iff.
  unfold task_of_dict, task_dict, iso_field. cbn [jget String.eqb Ascii.eqb Bool.eqb].
  rewrite (fromisoformat_isoformat _ Hs), (fromisoformat_isoformat _ Hc).
  destruct t; reflexivity.
Qed.

Lemma load_items_lookup (l : list (string * ScheduledTask))
    (m : gmap string ScheduledTask) (k : string) :
  NoDup (l.*1) ->
  Forall (fun kt => valid_task kt.2 = true) l ->
  load_items ((fun kt : string * ScheduledTask => (kt.1, task_dict kt.2)) <$> l) m !! k =
  match (list_to_map l : gmap string ScheduledTask) !! k with
  | Some t => Some t
  | None => m !! k
  end.
Proof.
  revert m. induction l as [|[k' t] l IH]; intros m Hnd Hv.
  - reflexivity.
  - rewrite fmap_cons in Hnd. apply NoDup_cons in Hnd as [Hk' Hnd].
    apply Forall_cons in Hv as [Ht Hv]. simpl in Hk', Ht.
    rewrite fmap_cons. cbn [load_items fst snd].
    rewrite (task_of_dict_task_dict t Ht). rewrite IH by assumption.
    rewrite list_to_map_cons.
    destruct (decide (k = k')) as [->|Hne].
    + rewrite (not_elem_of_list_to_map_1 (M := gmap string) l k') by exact Hk'.
      now rewrite !lookup_insert_eq.
    + rewrite !lookup_insert_ne by congruence. reflexivity.
Qed.

(** C9.  Saving a store whose tasks carry valid datetimes and loading the
    file into a fresh manager gives back the same dictionary of tasks: the
    same ids, and under each id a record with the same user_id,
    webhook_url, notes, status, result, scheduled_time and created_at. *)
Theorem save_then_load_roundtrip (tm : TaskManager) :
  (forall k t, tasks tm !! k = Some t -> valid_task t = true) ->
  tasks (TaskManager_init (TASKS_FILE (save_tasks tm))) = tasks tm.
Proof.
  intros Hv. unfold TaskManager_init, load_tasks, save_tasks, tasks_data. simpl.
  apply map_eq. intros k.
  rewrite load_items_lookup.
  - rewrite list_to_map_to_list, lookup_empty. now destruct (tasks tm !! k).
  - apply NoDup_fst_map_to_list.
  - apply Forall_forall. intros [k' t] Hin. simpl.
    apply (Hv k'). now apply elem_of_map_to_list.
Qed.

(** ** The calendar *)

Lemma days_before_year_succ (y : Z) :
  days_before_year (y + 1) = days_before_year y + (if is_leap y then 366 else 365).
Proof.
  unfold days_before_year, is_leap.
  replace (y + 1 - 1) with y by lia.
  destruct (Z.eqb_spec (y mod 4) 0), (Z.eqb_spec (y mod 100) 0),
    (Z.eqb_spec (y mod 400) 0); simpl; Z.div_mod_to_equations; lia.
Qed.

Lemma days_before_month_succ (y m : Z) :
  1 <= m < 12 ->
  days_before_month y (m + 1) = days_before_month y m + days_in_month y m.
Proof.
  intros H.
  assert (E : m = 1 \/ m = 2 \/ m = 3 \/ m = 4 \/ m = 5 \/ m = 6 \/ m = 7 \/ m = 8
              \/ m = 9 \/ m = 10 \/ m = 11) by lia.
  unfold days_before_month, days_in_month.
  repeat (destruct E as [->|E]; [simpl; destruct (is_leap y); reflexivity|]).
  subst m. simpl. destruct (is_leap y); reflexivity.
Qed.

(** [next_day] is the date whose ordinal is one more. *)
Lemma toordinal_next_day (d d' : date) :
  valid_date d = true -> next_day d = Ok d' -> toordinal d' = toordinal d + 1.
Proof.
  intros Hv%valid_date_bounds. unfold next_day, toordinal.
  destruct d as [y m dd]. simpl in *.
  destruct (Z.ltb_spec dd (days_in_month y m)).
  - intros [= <-]. simpl. lia.
  - destruct (Z.ltb_spec m 12).
    + intros [= <-]. simpl. rewrite days_before_month_succ by lia. lia.
    + destruct (Z.ltb_spec y MAXYEAR); [|discriminate].
      intros [= <-]. simpl. rewrite days_before_year_succ.
      assert (m = 12) by lia. subst m.
      unfold days_before_month, days_in_month in *. simpl in *.
      destruct (is_leap y); lia.
Qed.

Lemma next_day_valid (d d' : date) :
  valid_date d = true -> next_day d = Ok d' -> valid_date d' = true.
Proof.
  intros Hv%valid_date_bounds. unfold next_day.
  destruct d as [y m dd]. simpl in *.
  destruct (Z.ltb_spec dd (days_in_month y m)).
  - intros [= <-]. unfold valid_date, MINYEAR, MAXYEAR. simpl.
    rewrite !andb_true_iff, !Z.leb_le. lia.
  - destruct (Z.ltb_spec m 12).
    + intros [= <-]. unfold valid_date, MINYEAR, MAXYEAR. simpl.
      rewrite !andb_true_iff, !Z.leb_le. repeat split; try lia.
      unfold days_in_month.
      repeat match goal with |- context [if ?b then _ else _] => destruct b end; lia.
    + destruct (Z.ltb_spec y MAXYEAR) as [Hy|]; [|discriminate].
      intros [= <-]. unfold valid_date, MINYEAR, MAXYEAR in *. simpl.
      rewrite !andb_true_iff, !Z.leb_le. repeat split; try lia.
      unfold days_in_month. simpl. lia.
Qed.

(** [next_day] overflows on 9999-12-31 only. *)
Lemma next_day_ok (d : date) :
  d_year d < MAXYEAR \/ (d_month d = 1 /\ d_day d = 1) ->
  exists d', next_day d = Ok d'.
Proof.
  intros H. unfold next_day.
  destruct (Z.ltb_spec (d_day d) (days_in_month (d_year d) (d_month d))) as [|Hd];
    [eexists; reflexivity|].
  destruct (Z.ltb_spec (d_month d) 12); [eexists; reflexivity|].
  destruct (Z.ltb_spec (d_year d) MAXYEAR); [eexists; reflexivity|].
  destruct H as [H|[Hm H]]; [lia|].
  rewrite Hm, H in Hd. unfold days_in_month in Hd. simpl in Hd. lia.
Qed.

Lemma next_day_year (d d' : date) :
  d_year d < MAXYEAR -> next_day d = Ok d' ->
  d_year d' < MAXYEAR \/ (d_month d' = 1 /\ d_day d' = 1).
Proof.
  intros Hy. unfold next_day.
  destruct (_ <? days_in_month _ _); [intros [= <-]; simpl; lia|].
  destruct (_ <? 12); [intros [= <-]; simpl; lia|].
  destruct (_ <? MAXYEAR); [intros [= <-]; simpl; lia|discriminate].
Qed.

(** ** The time parser *)

Lemma only_ValueError_Ok {A : Type} (a : A) : only_ValueError (Ok a).
Proof. intros e. discriminate. Qed.

Lemma only_ValueError_Raise {A : Type} (msg : string) :
  only_ValueError (Raise (ValueError msg) : result A).
Proof. intros e [= <-]. now exists msg. Qed.

Lemma only_ValueError_bind {A B : Type} (x : result A) (f : A -> result B) :
  only_ValueError x -> (forall a, x = Ok a -> only_ValueError (f a)) ->
  only_ValueError (x ≫= f).
Proof.
  intros Hx Hf e. destruct x as [a|e']; cbn.
  - now apply Hf.
  - intros [= <-]. now apply Hx.
Qed.

Create HintDb parser.
#[local] Hint Resolve only_ValueError_Ok only_ValueError_Raise : parser.

Lemma int_digits_acc_only_ValueError (s : string) (acc : Z) :
  only_ValueError (int_digits_acc s acc).
Proof.
  revert acc. induction s as [|c s IH]; intros acc; simpl; auto with parser.
  destruct (is_digit c); auto with parser.
Qed.

Lemma py_int_only_ValueError (s : string) : only_ValueError (py_int s).
Proof.
  destruct s; [apply only_ValueError_Raise|apply int_digits_acc_only_ValueError].
Qed.

Lemma time_replace_spec (h m : Z) :
  only_ValueError (time_replace h m)
  /\ forall t, time_replace h m = Ok t ->
       t = mktime h m 0 0 /\ 0 <= h < 24 /\ 0 <= m < 60.
Proof.
  unfold time_replace.
  destruct (Z.leb_spec 0 h), (Z.ltb_spec h 24); simpl;
    try (split; [apply only_ValueError_Raise|discriminate]).
  destruct (Z.leb_spec 0 m), (Z.ltb_spec m 60); simpl;
    try (split; [apply only_ValueError_Raise|discriminate]).
  split; [apply only_ValueError_Ok|]. intros t [= <-]. repeat split; assumption.
Qed.

Lemma time_replace_clock_time (h m : Z) (t : time) :
  time_replace h m = Ok t -> clock_time t.
Proof.
  intros H. destruct (time_replace_spec h m) as [_ Hs].
  destruct (Hs t H) as (-> & ? & ?). repeat split; simpl; lia.
Qed.

Lemma _parse_12hour_spec (cs : caps) :
  only_ValueError (_parse_12hour cs)
  /\ forall t, _parse_12hour cs = Ok t -> clock_time t.
Proof.
  unfold _parse_12hour. split.
  - apply only_ValueError_bind; [apply py_int_only_ValueError|]. intros h _.
    apply only_ValueError_bind; [apply py_int_only_ValueError|]. intros m _.
    apply time_replace_spec.
  - intros t. destruct (py_int (grp 1 cs)) as [h|]; cbn; [|discriminate].
    destruct (py_int (grp 2 cs)) as [m|]; cbn; [|discriminate].
    apply time_replace_clock_time.
Qed.

Lemma _parse_24hour_spec (cs : caps) :
  only_ValueError (_parse_24hour cs)
  /\ forall t, _parse_24hour cs = Ok t -> clock_time t.
Proof.
  unfold _parse_24hour. split.
  - apply only_ValueError_bind; [apply py_int_only_ValueError|]. intros h _.
    apply only_ValueError_bind; [apply py_int_only_ValueError|]. intros m _.
    apply time_replace_spec.
  - intros t. destruct (py_int (grp 1 cs)) as [h|]; cbn; [|discriminate].
    destruct (py_int (grp 2 cs)) as [m|]; cbn; [|discriminate].
    apply time_replace_clock_time.
Qed.

Lemma parse_time_token_spec (tok : string) :
  only_ValueError (parse_time_token tok)
  /\ (forall t, parse_time_token tok = Ok (Some t) -> clock_time t)
  /\ (parse_time_token tok = Ok None <-> no_time_pattern tok).
Proof.
  unfold parse_time_token, no_time_pattern.
  destruct (re_match false time12_re tok) as [cs|].
  - destruct (_parse_12hour_spec cs) as [H1 H2]. split; [|split; [|split]].
    + apply only_ValueError_bind; [exact H1|]. intros; apply only_ValueError_Ok.
    + intros t. destruct (_parse_12hour cs) as [t'|]; cbn; [|discriminate].
      intros [= <-]. now apply H2.
    + destruct (_parse_12hour cs); cbn; discriminate.
    + intros [? _]. discriminate.
  - destruct (re_match false time24_re tok) as [cs|].
    + destruct (_parse_24hour_spec cs) as [H1 H2]. split; [|split; [|split]].
      * apply only_ValueError_bind; [exact H1|]. intros; apply only_ValueError_Ok.
      * intros t. destruct (_parse_24hour cs) as [t'|]; cbn; [|discriminate].
        intros [= <-]. now apply H2.
      * destruct (_parse_24hour cs); cbn; discriminate.
      * intros [_ ?]. discriminate.
    + split; [apply only_ValueError_Ok|]. split; [discriminate|]. split; auto.
Qed.

Lemma strptime_ymd_spec (s : string) :
  only_ValueError (strptime_ymd s)
  /\ forall d, strptime_ymd s = Ok d -> valid_date d = true.
Proof.
  unfold strptime_ymd.
  destruct (ymd_fields s) as [cs|];
    [|split; [apply only_ValueError_Raise|discriminate]].
  split.
  - apply only_ValueError_bind; [apply py_int_only_ValueError|]. intros y _.
    apply only_ValueError_bind; [apply py_int_only_ValueError|]. intros m _.
    apply only_ValueError_bind; [apply py_int_only_ValueError|]. intros d _.
    destruct (valid_date _); auto with parser.
  - intros d. destruct (py_int (grp 1 cs)) as [y|]; cbn; [|discriminate].
    destruct (py_int (grp 2 cs)) as [m|]; cbn; [|discriminate].
    destruct (py_int (grp 3 cs)) as [dd|]; cbn; [|discriminate].
    destruct (valid_date _) eqn:E; [|discriminate]. now intros [= <-].
Qed.

Lemma clock_reading_spec (now : datetime) :
  clock_reading now = true ->
  valid_date (dt_date now) = true /\ valid_time (dt_time now) = true
  /\ dt_tz now = Some IST_offset /\ d_year (dt_date now) < MAXYEAR.
Proof.
  unfold clock_reading, valid_datetime.
  rewrite !andb_true_iff, bool_decide_eq_true, Z.ltb_lt. tauto.
Qed.

Lemma clock_reading_after_first (now : datetime) :
  clock_reading now = true -> 1 < toordinal (dt_date now).
Proof. unfold clock_reading. rewrite !andb_true_iff, !Z.ltb_lt. tauto. Qed.

(** What [split_date] returns: a valid target date; without an explicit
    date it is today's or tomorrow's. *)
Lemma split_date_spec (text : string) (now : datetime) :
  clock_reading now = true ->
  only_ValueError (split_date text now)
  /\ forall d tok dm, split_date text now = Ok (d, tok, dm) ->
       valid_date d = true
       /\ (dm = None ->
           d = dt_date now \/ next_day (dt_date now) = Ok d).
Proof.
  intros (Hd & _ & _ & Hy)%clock_reading_spec.
  destruct (next_day_ok (dt_date now) (or_introl Hy)) as [d1 Hd1].
  unfold split_date, add_one_day. rewrite Hd1. cbn [mbind result_bind].
  set (t0 := py_lower (py_strip text)).
  assert (Hstage : forall d0 t1,
    (d0 = dt_date now \/ Ok d1 = Ok d0) ->
    only_ValueError
      (match re_match false date_re t1 with
       | Some cs => target_date ← strptime_ymd (grp 1 cs);
                    Ok (target_date, grp 2 cs, re_match false date_re t1)
       | None => Ok (d0, t1, re_match false date_re t1)
       end)
    /\ forall d tok dm,
         match re_match false date_re t1 with
         | Some cs => target_date ← strptime_ymd (grp 1 cs);
                      Ok (target_date, grp 2 cs, re_match false date_re t1)
         | None => Ok (d0, t1, re_match false date_re t1)
         end = Ok (d, tok, dm) ->
         valid_date d = true
         /\ (dm = None -> d = dt_date now \/ Ok d1 = Ok d)).
  { intros d0 t1 Hd0. destruct (re_match false date_re t1) as [cs|].
    - destruct (strptime_ymd_spec (grp 1 cs)) as [H1 H2]. split.
      + apply only_ValueError_bind; [exact H1|]. intros; apply only_ValueError_Ok.
      + intros d tok dm. destruct (strptime_ymd (grp 1 cs)) as [d'|]; cbn; [|discriminate].
        intros [= <- <- <-]. split; [now apply H2|discriminate].
    - split; [apply only_ValueError_Ok|].
      intros d tok dm [= <- <- <-]. split; [|intros _; exact Hd0].
      destruct Hd0 as [->|[= <-]]; [exact Hd|]. exact (next_day_valid _ _ Hd Hd1). }
  destruct (py_startswith "tomorrow" t0); cbn [mbind result_bind dt_date].
  - apply Hstage. now right.
  - apply Hstage. now left.
Qed.

(** *** The two ends of the calendar *)

Lemma days_before_year_pos (y : Z) : 2 <= y -> 365 <= days_before_year y.
Proof.
  intros Hy. unfold days_before_year.
  assert ((y - 1) / 100 <= (y - 1) / 4) by (apply Z.div_le_compat_l; lia).
  assert (0 <= (y - 1) / 400) by (apply Z.div_pos; lia).
  lia.
Qed.

Lemma days_before_month_pos (y m : Z) :
  1 <= m <= 12 -> 0 <= days_before_month y m /\ (2 <= m -> 31 <= days_before_month y m).
Proof.
  intros H.
  assert (E : m = 1 \/ m = 2 \/ m = 3 \/ m = 4 \/ m = 5 \/ m = 6 \/ m = 7 \/ m = 8
              \/ m = 9 \/ m = 10 \/ m = 11 \/ m = 12) by lia.
  unfold days_before_month.
  repeat (destruct E as [->|E]); try subst m; simpl; destruct (is_leap y); simpl; lia.
Qed.

(** The first day of the calendar is the only valid date without a day
    before it, the last day the only one without a day after it. *)
Lemma toordinal_first (d : date) :
  valid_date d = true ->
  (toordinal d <=? 1) = date_eqb d (mkdate MINYEAR 1 1).
Proof.
  intros (Hy & Hm & Hd & _)%valid_date_bounds.
  destruct d as [y m dd]. unfold toordinal, date_eqb, MINYEAR. simpl in *.
  destruct (days_before_month_pos y m Hm) as [Hm0 Hm2].
  destruct (Z.eqb_spec y 1) as [->|Hy1].
  - change (days_before_year 1) with 0.
    destruct (Z.eqb_spec m 1) as [->|Hm1].
    + change (days_before_month 1 1) with 0.
      destruct (Z.eqb_spec dd 1); simpl; [apply Z.leb_le|apply Z.leb_gt]; lia.
    + simpl. apply Z.leb_gt. assert (H2m : 2 <= m) by lia. specialize (Hm2 H2m). lia.
  - simpl. apply Z.leb_gt.
    assert (H365 : 365 <= days_before_year y) by (apply days_before_year_pos; lia). lia.
Qed.

Lemma next_day_last (d : date) :
  valid_date d = true ->
  next_day d =
    if date_eqb d (mkdate MAXYEAR 12 31)
    then Raise (OverflowError "date value out of range")
    else match next_day d with Ok d' => Ok d' | Raise _ => Ok d end.
Proof.
  intros (Hy & Hm & Hd & Hdm)%valid_date_bounds.
  destruct d as [y m dd]. unfold next_day, date_eqb, MAXYEAR. simpl in *.
  destruct (Z.ltb_spec dd (days_in_month y m)) as [Hlt|Hge].
  - destruct (Z.eqb_spec y 9999), (Z.eqb_spec m 12), (Z.eqb_spec dd 31);
      simpl; try reflexivity.
    subst. unfold days_in_month in Hlt. simpl in Hlt. lia.
  - destruct (Z.ltb_spec m 12) as [Hm12|Hm12].
    + destruct (Z.eqb_spec y 9999), (Z.eqb_spec m 12), (Z.eqb_spec dd 31);
        simpl; try reflexivity. lia.
    + assert (m = 12) by lia. subst m.
      assert (dd = 31) by (unfold days_in_month in *; simpl in *; lia). subst dd.
      destruct (Z.ltb_spec y 9999), (Z.eqb_spec y 9999); simpl; try reflexivity; lia.
Qed.

(** [IST.localize] on a combined date and time. *)
Lemma localize_combine (d : date) (tt : time) :
  valid_date d = true ->
  localize (combine d tt) =
    if end_of_calendar d then Raise (OverflowError "date value out of range")
    else Ok (IST_localize (combine d tt)).
Proof.
  intros Hv. unfold localize, combine, end_of_calendar. cbn [dt_tz dt_date].
  rewrite (toordinal_first d Hv).
  destruct (date_eqb d (mkdate MINYEAR 1 1)); [reflexivity|]. cbn [orb].
  rewrite (next_day_last d Hv).
  destruct (date_eqb d (mkdate MAXYEAR 12 31)); [reflexivity|].
  now destruct (next_day d).
Qed.

(** Neither the clock's date nor the day after it is an end of the
    calendar. *)
Lemma clock_date_inside (now : datetime) :
  clock_reading now = true ->
  end_of_calendar (dt_date now) = false
  /\ forall d', next_day (dt_date now) = Ok d' -> end_of_calendar d' = false.
Proof.
  intros Hnow. pose proof (clock_reading_after_first now Hnow) as H1.
  pose proof (clock_reading_spec now Hnow) as (Hd & _ & _ & Hy).
  unfold MAXYEAR in Hy. split.
  - unfold end_of_calendar. rewrite <- (toordinal_first _ Hd).
    apply orb_false_iff. split; [apply Z.leb_gt; lia|].
    unfold date_eqb, MAXYEAR. cbn [d_year].
    destruct (Z.eqb_spec (d_year (dt_date now)) 9999); [lia|reflexivity].
  - intros d' Hn. pose proof (toordinal_next_day _ _ Hd Hn) as Ho.
    pose proof (next_day_valid _ _ Hd Hn) as Hd'.
    unfold end_of_calendar. rewrite <- (toordinal_first _ Hd').
    apply orb_false_iff. split; [apply Z.leb_gt; lia|].
    destruct (next_day_year _ _ Hy Hn) as [Hy'|[Hm' _]];
      unfold date_eqb, MAXYEAR in *; cbn [d_year d_month].
    + destruct (Z.eqb_spec (d_year d') 9999); [lia|reflexivity].
    + rewrite Hm'. now rewrite andb_false_r.
Qed.

Lemma combine_and_adjust_ok (d : date) (tt : time) (dm : option caps) (tok : string)
    (now : datetime) :
  clock_reading now = true ->
  dm = None -> d = dt_date now \/ next_day (dt_date now) = Ok d ->
  exists dt, combine_and_adjust d tt dm tok now = Ok dt.
Proof.
  intros Hnow -> Hd. pose proof (clock_reading_spec now Hnow) as (Hv & _ & _ & Hy).
  destruct (clock_date_inside now Hnow) as [Hin1 Hin2].
  unfold combine_and_adjust.
  assert (Hloc : localize (combine d tt) = Ok (IST_localize (combine d tt))).
  { destruct Hd as [->|Hn].
    - now rewrite (localize_combine _ _ Hv), Hin1.
    - now rewrite (localize_combine _ _ (next_day_valid _ _ Hv Hn)), (Hin2 d Hn). }
  rewrite Hloc. cbn [mbind result_bind].
  destruct (dt_le _ now); [|eexists; reflexivity].
  destruct (negb _); [|eexists; reflexivity]. cbn [andb].
  unfold add_one_day, IST_localize, combine. cbn [dt_date dt_time dt_tz].
  destruct (next_day_ok d) as [d' ->]; [|eexists; reflexivity].
  destruct Hd as [->|Hn]; [now left|].
  exact (next_day_year _ _ Hy Hn).
Qed.

(** The next day at a clock time is after any instant of today. *)
Lemma tomorrow_is_later (now : datetime) (tomorrow : date) (tt : time) :
  clock_reading now = true -> clock_time tt ->
  next_day (dt_date now) = Ok tomorrow ->
  dt_le (IST_localize (combine tomorrow tt)) now = false.
Proof.
  intros (Hd & Ht & Hz & _)%clock_reading_spec (Hh & Hm & Hs & Hu) Hn.
  apply (toordinal_next_day _ _ Hd) in Hn. apply valid_time_bounds in Ht.
  unfold dt_le, instant, IST_localize, combine. cbn [dt_date dt_time dt_tz].
  rewrite Hz, Hn, Hs, Hu. unfold IST_offset. apply Z.leb_gt. lia.
Qed.

(** *** The parser in terms of the numbers it reads *)

Lemma time_replace_range (h m : Z) :
  (0 <= h < 24 /\ 0 <= m < 60 -> time_replace h m = Ok (mktime h m 0 0))
  /\ (~ (0 <= h < 24 /\ 0 <= m < 60) -> exists msg, time_replace h m = Raise (ValueError msg)).
Proof.
  unfold time_replace.
  destruct (Z.leb_spec 0 h), (Z.ltb_spec h 24); simpl;
    try (split; [lia|eauto]).
  destruct (Z.leb_spec 0 m), (Z.ltb_spec m 60); simpl;
    try (split; [lia|eauto]).
  split; [reflexivity|]. intros Hn. exfalso. apply Hn. lia.
Qed.

Lemma parse_time_token_numbers (tok : string) :
  parse_time_token tok =
    match time_numbers tok with
    | Some (h, m) => t ← time_replace h m; Ok (Some t)
    | None => Ok None
    end.
Proof.
  unfold parse_time_token, time_numbers.
  destruct (re_match false time12_re tok) as [cs|] eqn:E12.
  - destruct (time12_groups tok cs E12) as (h & m & H1 & H2).
    unfold _parse_12hour. rewrite H1, H2. reflexivity.
  - destruct (re_match false time24_re tok) as [cs|] eqn:E24; [|reflexivity].
    destruct (time24_groups tok cs E24) as (h & m & H1 & H2).
    unfold _parse_24hour. rewrite H1, H2. reflexivity.
Qed.

Lemma time_numbers_None (tok : string) :
  time_numbers tok = None <-> no_time_pattern tok.
Proof.
  unfold time_numbers, no_time_pattern.
  destruct (re_match false time12_re tok) as [cs|] eqn:E12.
  - destruct (time12_groups tok cs E12) as (h & m & -> & ->).
    split; [discriminate|intros [? _]; discriminate].
  - destruct (re_match false time24_re tok) as [cs|] eqn:E24; [|tauto].
    destruct (time24_groups tok cs E24) as (h & m & -> & ->).
    split; [discriminate|intros [_ ?]; discriminate].
Qed.

(** The first stage, for a clock whose next day is [tomorrow]. *)
Lemma split_date_cases (text : string) (now : datetime) (tomorrow : date) :
  next_day (dt_date now) = Ok tomorrow ->
  split_date text now =
    match re_match false date_re (dated_text text) with
    | Some cs => d ← strptime_ymd (grp 1 cs); Ok (d, grp 2 cs, Some cs)
    | None =>
        Ok (if py_startswith "tomorrow" (py_lower (py_strip text))
            then tomorrow else dt_date now,
            dated_text text, None)
    end.
Proof.
  intros Hn. unfold split_date, dated_text, add_one_day. rewrite Hn.
  cbn [mbind result_bind dt_date].
  destruct (py_startswith "tomorrow" (py_lower (py_strip text)));
    cbn [mbind result_bind];
    match goal with |- context [re_match false date_re ?t] =>
      destruct (re_match false date_re t) end; reflexivity.
Qed.

(** The date stage and the numbers of the explicit date. *)
Lemma date_numbers_cases (text : string) :
  match re_match false date_re (dated_text text) with
  | Some cs =>
      exists y m d,
        date_numbers text = Some (y, m, d)
        /\ time_text text = grp 2 cs
        /\ strptime_ymd (grp 1 cs) =
           if valid_date (mkdate y m d) then Ok (mkdate y m d)
           else Raise (ValueError "time data does not match format '%Y-%m-%d'")
  | None => date_numbers text = None /\ time_text text = dated_text text
  end.
Proof.
  unfold date_numbers, time_text.
  destruct (re_match false date_re (dated_text text)) as [cs|] eqn:E; [|now split].
  destruct (date_group _ cs E) as (y & m & d & H1 & H2). exists y, m, d. auto.
Qed.

Ltac no_value_error Hnone :=
  let Hno := fresh "Hno" in
  intros [(? & ? & ? & [=] & _)|[Hno|[(? & ? & [= <- <-] & ?)|
          (? & ? & ? & ? & ? & [=] & _)]]];
    [apply Hnone in Hno; congruence|lia].

Ltac no_overflow := intros (? & ? & ? & ? & ? & [=] & _).

(** The three outcomes of the parser, each with its cause. *)
Lemma parse_time_input_outcome (text : string) (now : datetime) :
  clock_reading now = true ->
  (exists dt, parse_time_input text now = Ok dt /\ valid_datetime dt = true
              /\ dt_lt now dt = true
              /\ ~ value_error_condition text now /\ ~ calendar_overflow text)
  \/ (exists msg, parse_time_input text now = Raise (ValueError msg)
                  /\ value_error_condition text now /\ ~ calendar_overflow text)
  \/ (exists msg, parse_time_input text now = Raise (OverflowError msg)
                  /\ calendar_overflow text /\ ~ value_error_condition text now).
Proof.
  intros Hnow. pose proof (clock_reading_spec now Hnow) as (Hv & Hvt & Hz & Hy).
  destruct (next_day_ok (dt_date now) (or_introl Hy)) as [tomorrow Hn].
  destruct (clock_date_inside now Hnow) as [Hin1 Hin2]. specialize (Hin2 _ Hn).
  pose proof (next_day_valid _ _ Hv Hn) as Hvtom.
  unfold parse_time_input. rewrite (split_date_cases text now tomorrow Hn).
  pose proof (date_numbers_cases text) as Hdate.
  pose proof (parse_time_token_numbers (time_text text)) as Htok.
  pose proof (time_numbers_None (time_text text)) as Hnone.
  unfold value_error_condition, invalid_explicit_date, hour_or_minute_out_of_range,
    explicit_date_not_ahead, calendar_overflow.
  assert (Hlater : forall s, dt_le s now = false -> dt_lt now s = true).
  { intros s H. unfold dt_le in H. unfold dt_lt. apply Z.leb_gt in H.
    now apply Z.ltb_lt. }
  assert (Hvdt : forall d tt, valid_date d = true -> clock_time tt ->
            valid_datetime (IST_localize (combine d tt)) = true).
  { intros d tt Hd (Hh & Hm & Hs & Hu). unfold valid_datetime, IST_localize, combine.
    cbn [dt_date dt_time dt_tz]. rewrite Hd. unfold valid_time. rewrite Hs, Hu.
    apply andb_true_iff. split; [|reflexivity].
    rewrite !andb_true_iff, !Z.leb_le, !Z.ltb_lt. cbn [andb]. lia. }
  destruct (re_match false date_re (dated_text text)) as [cs|] eqn:Edm.
  - (* an explicit date *)
    destruct Hdate as (y & m & d & HDN & HTT & Hstr). rewrite Hstr, HDN.
    destruct (valid_date (mkdate y m d)) eqn:Hvd; cbn [mbind result_bind].
    2:{ right; left. eexists. split; [reflexivity|]. split.
        - left. eauto.
        - intros (y' & m' & d' & h & mi & [= <- <- <-] & Hv' & _). congruence. }
    rewrite <- HTT, Htok.
    destruct (time_numbers (time_text text)) as [[h mi]|] eqn:ETN;
      cbn [mbind result_bind].
    2:{ right; left. eexists. split; [reflexivity|]. split.
        - right; left. now apply Hnone.
        - intros (y' & m' & d' & h & mi & _ & _ & _ & [=] & _). }
    destruct (time_replace_range h mi) as [Hin Hout].
    destruct (Z_le_dec 0 h) as [Hh0|Hh0]; [|
      destruct Hout as [msg ->]; [lia|]; cbn [mbind result_bind];
      right; left; eexists; split; [reflexivity|]; split;
      [right; right; left; exists h, mi; split; [reflexivity|lia]
      |intros (y' & m' & d' & h' & mi' & _ & _ & _ & [= <- <-] & ?); lia]].
    destruct (Z_lt_dec h 24) as [Hh1|Hh1]; [|
      destruct Hout as [msg ->]; [lia|]; cbn [mbind result_bind];
      right; left; eexists; split; [reflexivity|]; split;
      [right; right; left; exists h, mi; split; [reflexivity|lia]
      |intros (y' & m' & d' & h' & mi' & _ & _ & _ & [= <- <-] & ?); lia]].
    destruct (Z_le_dec 0 mi) as [Hm0|Hm0]; [|
      destruct Hout as [msg ->]; [lia|]; cbn [mbind result_bind];
      right; left; eexists; split; [reflexivity|]; split;
      [right; right; left; exists h, mi; split; [reflexivity|lia]
      |intros (y' & m' & d' & h' & mi' & _ & _ & _ & [= <- <-] & ?); lia]].
    destruct (Z_lt_dec mi 60) as [Hm1|Hm1]; [|
      destruct Hout as [msg ->]; [lia|]; cbn [mbind result_bind];
      right; left; eexists; split; [reflexivity|]; split;
      [right; right; left; exists h, mi; split; [reflexivity|lia]
      |intros (y' & m' & d' & h' & mi' & _ & _ & _ & [= <- <-] & ?); lia]].
    rewrite Hin by lia. cbn [mbind result_bind].
    unfold combine_and_adjust. rewrite (localize_combine _ _ Hvd).
    destruct (end_of_calendar (mkdate y m d)) eqn:Hend; cbn [mbind result_bind].
    { right; right. eexists. split; [reflexivity|]. split.
      - exists y, m, d, h, mi. repeat split; auto; lia.
      - intros [(y' & m' & d' & [= <- <- <-] & ?)|[Hno|[(h' & mi' & [= <- <-] & ?)|
               (y' & m' & d' & h' & mi' & [= <- <- <-] & _ & ? & _)]]];
          [congruence| |lia|congruence].
        apply Hnone in Hno. congruence. }
    rewrite andb_false_r. cbn [andb mbind result_bind].
    change (IST_localize (combine (mkdate y m d) (mktime h mi 0 0)))
      with (mkdt (mkdate y m d) (mktime h mi 0 0) (Some IST_offset)).
    destruct (dt_le (mkdt (mkdate y m d) (mktime h mi 0 0) (Some IST_offset)) now)
      eqn:Hle.
    + right; left. eexists. split; [reflexivity|]. split.
      * right; right; right. exists y, m, d, h, mi. repeat split; auto; lia.
      * intros (y' & m' & d' & h' & mi' & [= <- <- <-] & _ & ? & _). congruence.
    + left. eexists. split; [reflexivity|]. split.
      { apply (Hvdt (mkdate y m d) (mktime h mi 0 0) Hvd). repeat split; simpl; lia. }
      split; [now apply Hlater|]. split.
      * intros [(y' & m' & d' & [= <- <- <-] & ?)|[Hno|[(h' & mi' & [= <- <-] & ?)|
               (y' & m' & d' & h' & mi' & [= <- <- <-] & _ & _ & [= <- <-] & _ & ?)]]];
          [congruence| |lia|congruence].
        apply Hnone in Hno. congruence.
      * intros (y' & m' & d' & h' & mi' & [= <- <- <-] & _ & ? & _). congruence.
  - (* no explicit date *)
    destruct Hdate as [HDN HTT]. rewrite HDN. cbn [mbind result_bind].
    rewrite <- HTT, Htok.
    destruct (time_numbers (time_text text)) as [[h mi]|] eqn:ETN;
      cbn [mbind result_bind].
    2:{ right; left. eexists. split; [reflexivity|]. split.
        - right; left. now apply Hnone.
        - intros (y' & m' & d' & h & mi & [=] & _). }
    destruct (time_replace_range h mi) as [Hin Hout].
    destruct (Z_le_dec 0 h) as [Hh0|Hh0]; [|
      destruct Hout as [msg ->]; [lia|]; cbn [mbind result_bind];
      right; left; eexists; split; [reflexivity|]; split;
      [right; right; left; exists h, mi; split; [reflexivity|lia]
      |intros (y' & m' & d' & h' & mi' & [=] & _)]].
    destruct (Z_lt_dec h 24) as [Hh1|Hh1]; [|
      destruct Hout as [msg ->]; [lia|]; cbn [mbind result_bind];
      right; left; eexists; split; [reflexivity|]; split;
      [right; right; left; exists h, mi; split; [reflexivity|lia]
      |intros (y' & m' & d' & h' & mi' & [=] & _)]].
    destruct (Z_le_dec 0 mi) as [Hm0|Hm0]; [|
      destruct Hout as [msg ->]; [lia|]; cbn [mbind result_bind];
      right; left; eexists; split; [reflexivity|]; split;
      [right; right; left; exists h, mi; split; [reflexivity|lia]
      |intros (y' & m' & d' & h' & mi' & [=] & _)]].
    destruct (Z_lt_dec mi 60) as [Hm1|Hm1]; [|
      destruct Hout as [msg ->]; [lia|]; cbn [mbind result_bind];
      right; left; eexists; split; [reflexivity|]; split;
      [right; right; left; exists h, mi; split; [reflexivity|lia]
      |intros (y' & m' & d' & h' & mi' & [=] & _)]].
    rewrite Hin by lia. cbn [mbind result_bind].
    assert (Hct : clock_time (mktime h mi 0 0)) by (repeat split; simpl; lia).
    unfold combine_and_adjust.
    destruct (py_startswith "tomorrow" (py_lower (py_strip text))) eqn:Etom.
    + rewrite (localize_combine _ _ Hvtom), Hin2. cbn [mbind result_bind].
      rewrite (tomorrow_is_later now tomorrow _ Hnow Hct Hn).
      cbn [andb mbind result_bind].
      rewrite (tomorrow_is_later now tomorrow _ Hnow Hct Hn).
      left. eexists. split; [reflexivity|]. split; [now apply Hvdt|].
      split; [apply Hlater; now apply tomorrow_is_later|]. split; [no_value_error Hnone|no_overflow].
    + rewrite (localize_combine _ _ Hv), Hin1. cbn [mbind result_bind].
      assert (Hdt : dated_text text = py_lower (py_strip text))
        by (unfold dated_text; now rewrite Etom).
      assert (Hguard : py_startswith "tomorrow" (time_text text) = false)
        by (rewrite HTT, Hdt; exact Etom).
      rewrite Hguard. cbn [andb negb]. rewrite !andb_true_r.
      destruct (dt_le (IST_localize (combine (dt_date now) (mktime h mi 0 0))) now)
        eqn:Hle.
      * unfold add_one_day, IST_localize, combine. cbn [dt_date dt_time dt_tz].
        rewrite Hn. cbn [mbind result_bind dt_date dt_time dt_tz].
        pose proof (tomorrow_is_later now tomorrow _ Hnow Hct Hn) as Hl.
        unfold IST_localize, combine in Hl. cbn [dt_date dt_time dt_tz] in Hl.
        rewrite Hl. left. eexists. split; [reflexivity|].
        split; [exact (Hvdt tomorrow _ Hvtom Hct)|].
        split; [now apply Hlater|]. split; [no_value_error Hnone|no_overflow].
      * cbn [mbind result_bind]. rewrite Hle. left. eexists. split; [reflexivity|].
        split; [exact (Hvdt _ _ Hv Hct)|].
        split; [now apply Hlater|]. split; [no_value_error Hnone|no_overflow].
Qed.

(** C3, the part of the claim that fails: the string "25:00" matches the
    24-hour pattern and never reaches the comparison with the clock (no
    instant is combined), yet the parser raises; so the two stated causes do
    not cover every failure. *)
Lemma hour_out_of_range_raises :
  clock_reading scenario_D_now = true
  /\ raises (parse_time_input "25:00" scenario_D_now) = true
  /\ ~ stated_raise_condition "25:00" scenario_D_now.
Proof.
  split; [reflexivity|]. split; [reflexivity|].
  intros (d & tok & dm & Hs & [[_ H24]|(tt & dt & Hp & _)]).
  - vm_compute in Hs. injection Hs as <- <- <-. vm_compute in H24. discriminate.
  - vm_compute in Hs. injection Hs as <- <- <-. vm_compute in Hp. discriminate.
Qed.

(** The last day of the calendar is a date that the parser cannot localize:
    the error is not a ValueError. *)
Lemma last_day_overflows :
  parse_time_input "9999-12-31 10:00" scenario_D_now =
    Raise (OverflowError "date value out of range")
  /\ parse_time_input "0001-01-01 10:00" scenario_D_now =
    Raise (OverflowError "date value out of range").
Proof. split; vm_compute; reflexivity. Qed.

(** C3, amended.  For every input string and every reading of the IST
    clock (after the first day and before the last year of the calendar)
    the parser returns an instant, raises a ValueError or raises an
    OverflowError.  A returned instant is strictly later than the clock
    reading.  It raises a ValueError exactly when the explicit date is not
    a date of the calendar, or the time token matches neither the 12-hour
    nor the 24-hour pattern, or a pattern matches but the hour (after the
    AM/PM adjustment) is not in 0..23 or the minute is not in 0..59, or the
    text carries a valid explicit date (not an end of the calendar) that,
    at the time given, is not after the clock reading.  It raises an
    OverflowError exactly when the explicit date is 0001-01-01 or
    9999-12-31 and the time is a valid time of day. *)
Theorem parse_time_input_future_or_error (text : string) (now : datetime) :
  clock_reading now = true ->
  ((exists dt, parse_time_input text now = Ok dt)
   \/ (exists msg, parse_time_input text now = Raise (ValueError msg))
   \/ (exists msg, parse_time_input text now = Raise (OverflowError msg)))
  /\ (forall dt, parse_time_input text now = Ok dt -> dt_lt now dt = true)
  /\ ((exists msg, parse_time_input text now = Raise (ValueError msg))
      <-> value_error_condition text now)
  /\ ((exists msg, parse_time_input text now = Raise (OverflowError msg))
      <-> calendar_overflow text).
Proof.
  intros Hnow.
  destruct (parse_time_input_outcome text now Hnow)
    as [(dt & -> & _ & Hlt & Hnv & Hno)|[(msg & -> & Hv & Hno)|(msg & -> & Ho & Hnv)]].
  - split; [left; eauto|]. split; [now intros dt' [= <-]|].
    split; (split; [intros [? [=]]|tauto]).
  - split; [right; left; eauto|]. split; [discriminate|].
    split; [split; [auto|eauto]|]. split; [intros [? [=]]|tauto].
  - split; [right; right; eauto|]. split; [discriminate|].
    split; [split; [intros [? [=]]|tauto]|]. split; [auto|eauto].
Qed.

(** C8.  For an input that is a bare time (no "tomorrow" prefix, no
    explicit date) recognised by one of the time patterns, if that time of
    day on the current date is not strictly after the clock reading, the
    parser returns the same time of day on the following day.  Parsing
    "9:30 AM" at 2024-01-15 14:00 IST gives 2024-01-16 09:30 IST. *)
Theorem bare_past_time_rolls_to_next_day (text : string) (now : datetime) (tt : time) :
  clock_reading now = true ->
  py_startswith "tomorrow" (py_lower (py_strip text)) = false ->
  re_match false date_re (py_lower (py_strip text)) = None ->
  parse_time_token (py_lower (py_strip text)) = Ok (Some tt) ->
  dt_le (IST_localize (combine (dt_date now) tt)) now = true ->
  (exists tomorrow,
      next_day (dt_date now) = Ok tomorrow
      /\ toordinal tomorrow = toordinal (dt_date now) + 1
      /\ parse_time_input text now = Ok (IST_localize (combine tomorrow tt)))
  /\ parse_time_input "9:30 AM" scenario_D_now =
     Ok (mkdt (mkdate 2024 1 16) (mktime 9 30 0 0) (Some IST_offset)).
Proof.
  intros Hnow Htom Hdate Htok Hpast. split; [|reflexivity].
  pose proof (clock_reading_spec now Hnow) as (Hd & _ & _ & Hy).
  destruct (next_day_ok (dt_date now) (or_introl Hy)) as [tomorrow Hn].
  exists tomorrow. split; [exact Hn|]. split; [exact (toordinal_next_day _ _ Hd Hn)|].
  destruct (parse_time_token_spec (py_lower (py_strip text))) as (_ & Hct & _).
  specialize (Hct tt Htok).
  unfold parse_time_input, split_date. cbv zeta. rewrite Htom.
  cbn [mbind result_bind]. rewrite Hdate.
  cbn [mbind result_bind]. rewrite Htok. cbn [mbind result_bind].
  unfold combine_and_adjust.
  rewrite (localize_combine _ _ Hd), (proj1 (clock_date_inside now Hnow)).
  cbn [mbind result_bind]. rewrite Hpast, Htom. cbn [andb negb].
  unfold add_one_day. cbn [IST_localize combine dt_date dt_time dt_tz].
  rewrite Hn. cbn [mbind result_bind].
  pose proof (tomorrow_is_later now tomorrow tt Hnow Hct Hn) as Hlater.
  unfold IST_localize, combine in Hlater. cbn [dt_date dt_time dt_tz] in Hlater.
  rewrite Hlater. reflexivity.
Qed.

(** ** The monitoring loop *)

Lemma initial_checks_not_found (sc : Scraper) (target_notes : string) (rem i : nat) :
  (forall j page_text, (i <= j < i + rem)%nat -> page_source sc j = Page page_text ->
     marker_found page_text target_notes = false) ->
  (initial_checks sc target_notes i rem).1.1 = false.
Proof.
  revert i. induction rem as [|rem IH]; intros i H; [reflexivity|].
  assert (Hrest : (initial_checks sc target_notes (S i) rem).1.1 = false).
  { apply IH. intros j t Hj. apply H. lia. }
  cbn [initial_checks].
  destruct (page_source sc i) as [page_text|] eqn:Hp;
    [|now destruct (initial_checks sc target_notes (S i) rem) as [[found n] evs]].
  specialize (H i page_text ltac:(lia) Hp). unfold marker_found in H. rewrite H.
  destruct (initial_checks sc target_notes (S i) rem) as [[found n] evs].
  exact Hrest.
Qed.

(** C7.  When none of the pages fetched by the confirmation attempts shows
    the notes (in any letter case; a fetch that fails shows nothing), the
    monitoring ends with the cooldown record: found is false, cooldown is
    true, there is no has_error entry, and the cooldown notification is
    sent. *)
Theorem exhausted_confirmation_is_cooldown (sc : Scraper) (task : ScheduledTask) :
  (forall i page_text, (i < max_initial_checks)%nat ->
     page_source sc i = Page page_text ->
     marker_found page_text (notes task) = false) ->
  let r := (monitor_results_with_cooldown_detection sc task).1 in
  r = cooldown_result
  /\ result_flag "found" r = Some (JBool false)
  /\ result_flag "cooldown" r = Some (JBool true)
  /\ result_flag "has_error" r = None
  /\ In (Notification (user_id task) "Submission in Cooldown Mode")
        (monitor_results_with_cooldown_detection sc task).2.
Proof.
  intros H.
  pose proof (initial_checks_not_found sc (notes task) max_initial_checks 0%nat) as Hnf.
  unfold monitor_results_with_cooldown_detection.
  destruct (initial_checks sc (notes task) 0 max_initial_checks) as [[found n] evs].
  simpl in Hnf. rewrite Hnf; [|intros j t Hj; apply H; lia].
  cbn [negb fst snd]. repeat split. apply in_or_app. right. now left.
Qed.

(** ** The life of a task *)

(** C2, a part of the claim that fails: with two creations by the same user
    in the same second the second record replaces the first in the store; the
    worker started for the first then writes its final status into the second,
    which goes from pending to completed without ever running. *)
Lemma id_collision_skips_running :
  task_id collision_first = task_id collision_second
  /\ status_history collision_run (HackRxBot_init None) (task_id collision_second) []
     = Some ["pending"; "completed"]
  /\ allowed_history ["pending"; "completed"] = false.
Proof. vm_compute. repeat split. Qed.

(** C2, the other part that fails, with fresh ids: the dispatcher takes its
    snapshot while the task is pending, the user cancels the task, and the
    dispatcher then claims the task of its snapshot without looking at the
    status again: the cancelled task becomes running and a worker is started
    for it. *)
Lemma stale_snapshot_claims_cancelled_task :
  fresh_ids stale_run (HackRxBot_init None) = true
  /\ status_history stale_run (HackRxBot_init None) (task_id collision_first) []
     = Some ["pending"; "cancelled"; "running"]
  /\ allowed_history ["pending"; "cancelled"; "running"] = false
  /\ (fun bot => task_id <$> workers bot) <$> run_ops stale_run (HackRxBot_init None)
     = Some [task_id collision_first].
Proof. vm_compute. repeat split. Qed.

Section lifecycle.

Lemma NoDup_fmap_filter {A B : Type} (f : A -> B) (p : A -> bool) (l : list A) :
  NoDup (f <$> l) -> NoDup (f <$> List.filter p l).
Proof.
  induction l as [|a l IH]; simpl; [auto|].
  rewrite NoDup_cons. intros [Ha Hl]. destruct (p a); [|auto].
  rewrite fmap_cons. apply NoDup_cons. split; [|auto].
  intros Hin. apply Ha. apply list_elem_of_fmap in Hin as (x & -> & Hx).
  apply list_elem_of_fmap. exists x. split; [reflexivity|].
  apply list_elem_of_In. apply list_elem_of_In in Hx.
  now apply filter_In in Hx.
Qed.

Lemma claimed_false_not_in (now : datetime) (l : list ScheduledTask) (k : string) :
  k ∉ task_id <$> l -> claimed now l k = false.
Proof.
  intros Hk. unfold claimed. apply not_true_is_false. intros H.
  apply existsb_exists in H as (t & Hin & Ht).
  apply andb_true_iff in Ht as [Heq%String.eqb_eq _]. apply Hk.
  apply list_elem_of_fmap. exists t. split; [auto|]. now apply list_elem_of_In.
Qed.

(** The claim of a task whose id is in the store. *)
Lemma start_task_stored (bot : HackRxBot) (evs : list event) (t t' : ScheduledTask) :
  tasks (task_manager bot) !! task_id t = Some t' ->
  tasks (task_manager (start_task (bot, evs) t).1) =
    <[task_id t := set_status t' "running"]> (tasks (task_manager bot))
  /\ workers (start_task (bot, evs) t).1 = (workers bot ++ [t])%list.
Proof.
  intros Ht. unfold start_task. cbn [fst task_manager workers].
  split; [|reflexivity]. unfold update_task_status. now rewrite Ht.
Qed.

Lemma dispatch_tasks (now : datetime) (bot : HackRxBot) (evs : list event)
    (t : ScheduledTask) :
  tasks (task_manager bot) !! task_id t = Some t ->
  tasks (task_manager (claim_if_due now (bot, evs) t).1) =
    (if due now t then <[task_id t := set_status t "running"]> (tasks (task_manager bot))
     else tasks (task_manager bot))
  /\ workers (claim_if_due now (bot, evs) t).1 =
     (workers bot ++ (if due now t then [t] else []))%list.
Proof.
  intros Ht. unfold claim_if_due. destruct (due now t).
  - exact (start_task_stored bot evs t t Ht).
  - simpl. split; [reflexivity|]. now rewrite app_nil_r.
Qed.

(** The loop of the dispatcher over a list of stored tasks with distinct
    ids: the due ones become running and get a worker. *)
Lemma dispatch_fold (now : datetime) (l : list ScheduledTask) :
  forall (bot : HackRxBot) (evs : list event),
    NoDup (task_id <$> l) ->
    (forall t, In t l -> tasks (task_manager bot) !! task_id t = Some t) ->
    let bot' := (foldl (claim_if_due now) (bot, evs) l).1 in
    (forall k, tasks (task_manager bot') !! k =
       if claimed now l k
       then (fun t => set_status t "running") <$> tasks (task_manager bot) !! k
       else tasks (task_manager bot) !! k)
    /\ workers bot' = (workers bot ++ List.filter (due now) l)%list.
Proof.
  induction l as [|t l IH]; intros bot evs Hnd Hl.
  - simpl. split; [reflexivity|]. now rewrite app_nil_r.
  - rewrite fmap_cons in Hnd. apply NoDup_cons in Hnd as [Ht Hnd].
    destruct (dispatch_tasks now bot evs t (Hl t (or_introl eq_refl))) as [Hm Hw].
    cbn [foldl].
    destruct (claim_if_due now (bot, evs) t) as [bot1 evs1] eqn:Hd. simpl in Hm, Hw.
    assert (Hl1 : forall t', In t' l -> tasks (task_manager bot1) !! task_id t' = Some t').
    { intros t' Hin. rewrite Hm.
      assert (task_id t <> task_id t').
      { intros E. apply Ht. rewrite E. apply list_elem_of_fmap.
        exists t'. split; [reflexivity|]. now apply list_elem_of_In. }
      destruct (due now t); [rewrite lookup_insert_ne by assumption|];
        apply Hl; now right. }
    destruct (IH bot1 evs1 Hnd Hl1) as [IHm IHw]. split.
    + intros k. rewrite IHm. unfold claimed at 2. cbn [existsb].
      fold (claimed now l k). rewrite Hm.
      destruct (String.eqb_spec (task_id t) k) as [<-|Hne].
      * rewrite (claimed_false_not_in now l (task_id t) Ht).
        rewrite (Hl t (or_introl eq_refl)).
        destruct (due now t); simpl; [apply lookup_insert_eq|apply Hl; now left].
      * simpl. destruct (due now t); [rewrite lookup_insert_ne by assumption|];
          reflexivity.
    + rewrite IHw, Hw. cbn [List.filter]. destruct (due now t).
      * now rewrite <- app_assoc.
      * now rewrite app_nil_r.
Qed.

(** The loop with its exception: it is the loop over the tasks it gets
    through. *)
Lemma dispatch_comparable (now : datetime) (acc : HackRxBot * list event)
    (t : ScheduledTask) (b : bool) :
  dt_le_py (scheduled_time t) now = Ok b ->
  dispatch now acc t = Ok (claim_if_due now acc t).
Proof.
  unfold dispatch, claim_if_due, due, dt_le_py.
  destruct (Bool.eqb _ _); [reflexivity|discriminate].
Qed.

Lemma dispatch_all_fold (now : datetime) (l : list ScheduledTask) :
  forall acc, (dispatch_all now l acc).1 = foldl (claim_if_due now) acc (comparable now l).
Proof.
  induction l as [|t l IH]; intros acc; [reflexivity|]. cbn [dispatch_all comparable].
  destruct (dt_le_py (scheduled_time t) now) as [b|e] eqn:E.
  - rewrite (dispatch_comparable now acc t b E). cbn [foldl]. apply IH.
  - unfold dispatch. rewrite E. reflexivity.
Qed.


Lemma comparable_In (now : datetime) (l : list ScheduledTask) (t : ScheduledTask) :
  In t (comparable now l) -> In t l.
Proof.
  induction l as [|a l IH]; simpl; [auto|].
  destruct (dt_le_py (scheduled_time a) now); [|intros []].
  intros [->|H]; auto.
Qed.

Lemma comparable_NoDup (now : datetime) (l : list ScheduledTask) :
  NoDup (task_id <$> l) -> NoDup (task_id <$> comparable now l).
Proof.
  induction l as [|a l IH]; simpl; [auto|].
  rewrite NoDup_cons. intros [Ha Hl].
  destruct (dt_le_py (scheduled_time a) now); [|apply NoDup_nil; exact I].
  rewrite fmap_cons. apply NoDup_cons. split; [|auto].
  intros Hin. apply Ha. apply list_elem_of_fmap in Hin as (x & -> & Hx).
  apply list_elem_of_fmap. exists x. split; [reflexivity|].
  apply list_elem_of_In. apply list_elem_of_In in Hx. now apply comparable_In in Hx.
Qed.


Lemma fmap_snd_keys (l : list (string * ScheduledTask)) :
  Forall (fun kt => task_id kt.2 = kt.1) l -> task_id <$> l.*2 = l.*1.
Proof.
  induction 1 as [|[k t] l Hk _ IH]; [reflexivity|].
  rewrite !fmap_cons. simpl in *. now rewrite Hk, IH.
Qed.

Context (bot : HackRxBot) (Hcons : consistent bot).

Lemma pending_tasks_stored (t : ScheduledTask) :
  In t (get_pending_tasks (task_manager bot)) ->
  tasks (task_manager bot) !! task_id t = Some t /\ status t = "pending".
Proof.
  destruct Hcons as (Hk & _ & _).
  unfold get_pending_tasks, task_values. intros [Hin Hs]%filter_In.
  apply String.eqb_eq in Hs. split; [|exact Hs].
  apply list_elem_of_In, list_elem_of_fmap in Hin as ([k t'] & -> & Hin).
  apply elem_of_map_to_list in Hin. simpl. now rewrite (Hk k t' Hin).
Qed.

Lemma pending_tasks_NoDup :
  NoDup (task_id <$> get_pending_tasks (task_manager bot)).
Proof.
  destruct Hcons as (Hk & _ & _).
  unfold get_pending_tasks, task_values. apply NoDup_fmap_filter.
  rewrite fmap_snd_keys; [apply NoDup_fst_map_to_list|].
  apply Forall_forall. intros [k t] Hin. simpl.
  apply (Hk k). now apply elem_of_map_to_list.
Qed.

Lemma claimed_pending (now : datetime) (k : string) :
  claimed now (comparable now (get_pending_tasks (task_manager bot))) k = true ->
  status_of bot k = Some "pending".
Proof.
  unfold claimed. intros (t & Hin & Ht)%existsb_exists.
  apply andb_true_iff in Ht as [<-%String.eqb_eq _].
  destruct (pending_tasks_stored t (comparable_In _ _ _ Hin)) as [Hl Hs].
  unfold status_of. now rewrite Hl, <- Hs.
Qed.

(** One cycle of the dispatcher, as a fold over the tasks it gets through. *)
Lemma check_and_run_tasks_fold (now : datetime) :
  let l := comparable now (get_pending_tasks (task_manager bot)) in
  check_and_run_tasks bot now = foldl (claim_if_due now) (bot, []) l
  /\ NoDup (task_id <$> l)
  /\ (forall t, In t l -> tasks (task_manager bot) !! task_id t = Some t).
Proof.
  split; [apply dispatch_all_fold|]. split.
  - apply comparable_NoDup, pending_tasks_NoDup.
  - intros t Hin. exact (proj1 (pending_tasks_stored t (comparable_In _ _ _ Hin))).
Qed.

(** One cycle of the dispatcher: a pending task that is due and that the
    loop reaches becomes running, nothing else changes. *)
Lemma check_and_run_tasks_status (now : datetime) (k : string) :
  status_of (check_and_run_tasks bot now).1 k =
    if claimed now (comparable now (get_pending_tasks (task_manager bot))) k
    then Some "running" else status_of bot k.
Proof.
  destruct (check_and_run_tasks_fold now) as (-> & Hnd & Hst).
  destruct (dispatch_fold now _ bot [] Hnd Hst) as [Hm _].
  unfold status_of at 1. rewrite Hm.
  destruct (claimed now _ k) eqn:Hc; [|reflexivity].
  apply claimed_pending in Hc. unfold status_of in Hc.
  destruct (tasks (task_manager bot) !! k); [reflexivity|discriminate].
Qed.

Lemma check_and_run_tasks_consistent (now : datetime) :
  consistent (check_and_run_tasks bot now).1.
Proof.
  pose proof Hcons as (Hk & Hw & Hn).
  pose proof (check_and_run_tasks_status now) as Hstat.
  destruct (check_and_run_tasks_fold now) as (Hfold & Hnd & Hst).
  set (l := comparable now (get_pending_tasks (task_manager bot))) in *.
  destruct (dispatch_fold now l bot [] Hnd Hst) as [Hm Hws].
  rewrite <- Hfold in Hm, Hws.
  split; [|split].
  - intros k t. rewrite Hm. destruct (claimed now l k).
    + destruct (tasks (task_manager bot) !! k) as [t0|] eqn:E; [|discriminate].
      intros [= <-]. simpl. now apply Hk.
    + apply Hk.
  - intros w. rewrite Hws, in_app_iff, filter_In.
    rewrite Hstat. intros [Hin|[Hin Hdue]].
    + destruct (claimed now l (task_id w)) eqn:Hc; [reflexivity|now apply Hw].
    + replace (claimed now l (task_id w)) with true; [reflexivity|].
      symmetry. apply existsb_exists. exists w. split; [exact Hin|].
      now rewrite String.eqb_refl.
  - rewrite Hws, fmap_app. apply NoDup_app. split; [exact Hn|]. split.
    + intros x Hx Hx'.
      apply list_elem_of_fmap in Hx as (w & -> & Hw1%list_elem_of_In).
      apply list_elem_of_fmap in Hx' as (t & Heq & Ht%list_elem_of_In).
      apply filter_In in Ht as [Ht _]. apply comparable_In in Ht.
      destruct (pending_tasks_stored t Ht) as [Hl Hs].
      specialize (Hw w Hw1). unfold status_of in Hw.
      rewrite Heq, Hl in Hw. simpl in Hw. rewrite Hs in Hw. discriminate.
    + apply NoDup_fmap_filter, Hnd.
Qed.

End lifecycle.

Lemma run_hackrx_task_status (tm : TaskManager) (sc : Scraper) (task : ScheduledTask) :
  exists new_status res,
    (new_status = "completed" \/ new_status = "failed")
    /\ (run_hackrx_task tm sc task).1 =
       update_task_status tm (task_id task) new_status res.
Proof.
  unfold run_hackrx_task.
  destruct (execute_hackrx_submission sc task) as [res evs].
  destruct (success_of res); eexists _, res; (split; [|reflexivity]); auto.
Qed.

Lemma status_of_insert (bot : HackRxBot) (m : gmap string ScheduledTask)
    (file : option json) (k tid : string) (t : ScheduledTask) (ws : list ScheduledTask) :
  status_of (mkBot (user_states bot) (scheduler_running bot)
                   (mkTM (<[k := t]> m) file) ws) tid =
  if decide (k = tid) then Some (status t) else status <$> m !! tid.
Proof.
  unfold status_of. simpl. rewrite lookup_insert. now destruct (decide (k = tid)).
Qed.

Lemma consistent_init : consistent (HackRxBot_init None).
Proof.
  split; [|split].
  - intros k t. unfold HackRxBot_init, TaskManager_init, load_tasks. simpl.
    now rewrite lookup_empty.
  - intros w [].
  - simpl. apply NoDup_nil. exact I.
Qed.

Lemma cycle_ok_none (late : bool) (bot : HackRxBot) : cycle_ok late (mkSched bot None).
Proof. intros now l. discriminate. Qed.

(** A status that stays as it is keeps a cycle in order. *)
Lemma cycle_ok_frame (late : bool) (st : Sched) (bot' : HackRxBot) :
  cycle_ok late st ->
  (forall tid, status_of (the_bot st) tid = Some "pending"
               \/ status_of (the_bot st) tid = Some "cancelled" ->
     status_of bot' tid = status_of (the_bot st) tid
     \/ (late = true /\ status_of bot' tid = Some "cancelled")) ->
  cycle_ok late (mkSched bot' (cycle st)).
Proof.
  intros Hc Hf now l Hcy. destruct (Hc now l Hcy) as [Hnd Hl]. split; [exact Hnd|].
  intros t Hin. cbn [the_bot]. destruct (Hl t Hin) as [Hp|[Hlate Hp]].
  - destruct (Hf (task_id t) (or_introl Hp)) as [->|[? ->]]; auto.
  - destruct (Hf (task_id t) (or_intror Hp)) as [->|[? ->]]; auto.
Qed.

(** Every operation keeps the state in order and changes each status by
    one of its edges; a creation under a fresh id starts at pending.
    Without [late], no cancellation may fall into a cycle. *)
Lemma step_op_sound (late : bool) (st st' : Sched) (o : op) :
  consistent (the_bot st) -> cycle_ok late st ->
  step_op st o = Some st' ->
  (forall task, o = OpCreate task ->
     tasks (task_manager (the_bot st)) !! task_id task = None) ->
  (late = false -> forall k, o = OpCancel k -> cycle st = None) ->
  consistent (the_bot st') /\ cycle_ok late st'
  /\ forall tid,
       step_outcome late o tid (status_of (the_bot st) tid) (status_of (the_bot st') tid).
Proof.
  intros Hcons Hcyc Hstep Hfresh Hcalm. pose proof Hcons as (Hk & Hw & Hn).
  destruct st as [bot cy]. cbn [the_bot cycle] in *.
  destruct o as [task|now|now| |i sc|k]; cbn [step_op the_bot cycle] in Hstep.
  - (* creation *)
    destruct (String.eqb_spec (status task) "pending") as [Hs|]; [|discriminate].
    destruct (py_truthy (results task)); [discriminate|].
    injection Hstep as <-. specialize (Hfresh task eq_refl). cbn [the_bot].
    assert (Hst : forall tid,
      status_of (with_task_manager bot (add_task (task_manager bot) task).1) tid =
      if decide (task_id task = tid) then Some "pending" else status_of bot tid).
    { intros tid. unfold status_of. simpl. rewrite lookup_insert.
      destruct (decide (task_id task = tid)); [now rewrite <- Hs|reflexivity]. }
    assert (Hnone : status_of bot (task_id task) = None)
      by (unfold status_of; now rewrite Hfresh).
    split; [split; [|split]|split].
    + intros k t. simpl. rewrite lookup_insert.
      destruct (decide (task_id task = k)) as [<-|]; [now intros [= <-]|apply Hk].
    + intros w Hin. rewrite Hst. destruct (decide (task_id task = task_id w)) as [E|].
      * specialize (Hw w Hin). rewrite <- E, Hnone in Hw. discriminate.
      * now apply Hw.
    + exact Hn.
    + apply (cycle_ok_frame late (mkSched bot cy)); [exact Hcyc|]. cbn [the_bot].
      intros tid Hp. left. rewrite Hst.
      destruct (decide (task_id task = tid)) as [<-|]; [|reflexivity].
      rewrite Hnone in Hp. destruct Hp; discriminate.
    + intros tid. rewrite Hst. unfold step_outcome, creates.
      destruct (decide (task_id task = tid)) as [<-|Hne].
      * left. now rewrite String.eqb_refl.
      * right. split; [now apply String.eqb_neq|now left].
  - (* a whole cycle of the dispatcher *)
    destruct cy; [discriminate|]. injection Hstep as <-. cbn [the_bot].
    split; [now apply check_and_run_tasks_consistent|]. split; [apply cycle_ok_none|].
    intros tid. rewrite (check_and_run_tasks_status bot Hcons).
    destruct (claimed now _ tid) eqn:Hc; [|right; split; [reflexivity|now left]].
    right. split; [reflexivity|]. right. exists "pending", "running".
    split; [exact (claimed_pending bot Hcons now tid Hc)|]. now split.
  - (* the snapshot *)
    destruct cy; [discriminate|]. injection Hstep as <-. cbn [the_bot].
    split; [exact Hcons|]. split; [|intros tid; right; split; [reflexivity|now left]].
    intros now' l [= <- <-]. split; [now apply pending_tasks_NoDup|].
    intros t Hin. left. cbn [the_bot].
    destruct (pending_tasks_stored bot Hcons t Hin) as [Hl Hs].
    unfold status_of. now rewrite Hl, <- Hs.
  - (* the claim of the next task of the snapshot *)
    destruct cy as [[now [|t rest]]|]; [| |discriminate].
    { injection Hstep as <-. split; [exact Hcons|].
      split; [apply cycle_ok_none|intros tid; right; split; [reflexivity|now left]]. }
    destruct (Hcyc now (t :: rest) eq_refl) as [Hnd Hl].
    rewrite fmap_cons in Hnd. apply NoDup_cons in Hnd as [Hnt Hnd].
    assert (Hrest : forall t', In t' rest -> task_id t' <> task_id t).
    { intros t' Hin E. apply Hnt. rewrite <- E. apply list_elem_of_fmap.
      exists t'. split; [reflexivity|now apply list_elem_of_In]. }
    destruct (dt_le_py (scheduled_time t) now) as [b|e] eqn:Ecmp.
    2:{ unfold dispatch in Hstep. rewrite Ecmp in Hstep. injection Hstep as <-.
        split; [exact Hcons|]. split; [apply cycle_ok_none|intros tid; right; split; [reflexivity|now left]]. }
    rewrite (dispatch_comparable now _ t b Ecmp) in Hstep. injection Hstep as <-.
    cbn [the_bot]. unfold claim_if_due. destruct (due now t).
    2:{ cbn [fst]. split; [exact Hcons|]. split; [|intros tid; right; split; [reflexivity|now left]].
        intros now' l [= <- <-]. split; [exact Hnd|].
        intros t' Hin. apply Hl. now right. }
    assert (Hstored : exists t', tasks (task_manager bot) !! task_id t = Some t'
              /\ (status t' = "pending" \/ (late = true /\ status t' = "cancelled"))).
    { destruct (Hl t (or_introl eq_refl)) as [Hp|[Hlate Hp]]; unfold status_of in Hp;
        cbn [the_bot] in Hp;
        destruct (tasks (task_manager bot) !! task_id t) as [t'|]; try discriminate;
        injection Hp as Hp; exists t'; auto. }
    destruct Hstored as (t' & Ht' & Hst').
    destruct (start_task_stored bot [] t t' Ht') as [Hm Hws].
    assert (Hstat : forall tid, status_of (start_task (bot, []) t).1 tid =
              if decide (task_id t = tid) then Some "running" else status_of bot tid).
    { intros tid. unfold status_of. rewrite Hm, lookup_insert.
      now destruct (decide (task_id t = tid)). }
    assert (Hnotw : forall w, In w (workers bot) -> task_id w <> task_id t).
    { intros w Hin E. specialize (Hw w Hin). unfold status_of in Hw.
      rewrite E, Ht' in Hw. simpl in Hw. injection Hw as Hw.
      destruct Hst' as [Hp|[_ Hp]]; congruence. }
    split; [split; [|split]|split].
    + intros k x. rewrite Hm, lookup_insert.
      destruct (decide (task_id t = k)) as [<-|]; [|apply Hk].
      intros [= <-]. simpl. now apply Hk.
    + intros w. rewrite Hws, in_app_iff, Hstat. intros [Hin|[<-|[]]].
      * destruct (decide (task_id t = task_id w)) as [E|]; [reflexivity|now apply Hw].
      * now destruct (decide (task_id t = task_id t)).
    + rewrite Hws, fmap_app. apply NoDup_app. split; [exact Hn|]. split.
      * intros x Hx Hx'. apply list_elem_of_fmap in Hx as (w & -> & Hw1%list_elem_of_In).
        apply list_elem_of_singleton in Hx'. exact (Hnotw w Hw1 Hx').
      * simpl. apply NoDup_singleton.
    + intros now' l [= <- <-]. split; [exact Hnd|].
      intros t0 Hin. cbn [the_bot]. rewrite Hstat.
      destruct (decide (task_id t = task_id t0)) as [E|];
        [exfalso; exact (Hrest t0 Hin (eq_sym E))|].
      apply Hl. now right.
    + intros tid. rewrite Hstat.
      destruct (decide (task_id t = tid)) as [<-|]; [|right; split; [reflexivity|now left]].
      right. split; [reflexivity|]. right. unfold status_of. rewrite Ht'. simpl.
      exists (status t'), "running". split; [reflexivity|]. split; [reflexivity|].
      simpl. destruct Hst' as [->|[-> ->]]; auto.
  - (* a worker finishes *)
    destruct (workers bot !! i) as [w|] eqn:Hi; [|discriminate].
    injection Hstep as <-. cbn [the_bot].
    destruct (run_hackrx_task_status (task_manager bot) sc w)
      as (fs & res & Hfs & ->).
    assert (Hin : In w (workers bot))
      by (apply list_elem_of_In; eapply list_elem_of_lookup_2; exact Hi).
    pose proof (Hw w Hin) as Hrun. unfold status_of in Hrun.
    destruct (tasks (task_manager bot) !! task_id w) as [t|] eqn:Ht; [|discriminate].
    injection Hrun as Hrun.
    unfold update_task_status. rewrite Ht.
    set (t' := if py_truthy res then set_results (set_status t fs) res
               else set_status t fs).
    assert (Hid : task_id t' = task_id t /\ status t' = fs)
      by (unfold t'; destruct (py_truthy res); split; reflexivity).
    destruct Hid as [Hid Hst'].
    assert (Hsplit : workers bot = (take i (workers bot) ++ w :: drop (S i) (workers bot))%list)
      by (symmetry; now apply take_drop_middle).
    assert (Hdel : delete i (workers bot) = (take i (workers bot) ++ drop (S i) (workers bot))%list)
      by apply delete_take_drop.
    assert (Hother : forall w', In w' (delete i (workers bot)) ->
      In w' (workers bot) /\ task_id w' <> task_id w).
    { intros w' Hin'. rewrite Hdel in Hin'. rewrite Hsplit in Hn |- *.
      rewrite fmap_app, fmap_cons in Hn.
      apply NoDup_app in Hn as (_ & Hdisj & Hn2). apply NoDup_cons in Hn2 as [Hnw _].
      apply in_app_iff in Hin' as [Hin'|Hin'].
      - split; [apply in_app_iff; now left|]. intros E.
        apply (Hdisj (task_id w')).
        + apply list_elem_of_fmap. exists w'. split; [reflexivity|now apply list_elem_of_In].
        + rewrite E. left.
      - split; [apply in_app_iff; right; now right|]. intros E. apply Hnw.
        rewrite <- E. apply list_elem_of_fmap. exists w'.
        split; [reflexivity|now apply list_elem_of_In]. }
    assert (Hstat : forall tid,
      status_of (mkBot (user_states bot) (scheduler_running bot)
                   (save_tasks (mkTM (<[task_id w := t']> (tasks (task_manager bot)))
                                     (TASKS_FILE (task_manager bot))))
                   (delete i (workers bot))) tid =
      if decide (task_id w = tid) then Some fs else status_of bot tid).
    { intros tid. unfold save_tasks. cbn [tasks]. rewrite status_of_insert.
      destruct (decide (task_id w = tid)); [now rewrite Hst'|reflexivity]. }
    assert (Hwrun : status_of bot (task_id w) = Some "running")
      by (unfold status_of; now rewrite Ht, <- Hrun).
    split; [split; [|split]|split].
    + intros k x. simpl. rewrite lookup_insert.
      destruct (decide (task_id w = k)) as [<-|]; [|apply Hk].
      intros [= <-]. rewrite Hid. now apply Hk.
    + intros w' Hin'. destruct (Hother w' Hin') as [Hin0 Hne].
      rewrite Hstat.
      destruct (decide (task_id w = task_id w')); [congruence|]. now apply Hw.
    + cbn [workers]. rewrite Hdel. rewrite Hsplit in Hn.
      rewrite fmap_app in Hn |- *. rewrite fmap_cons in Hn.
      apply NoDup_app in Hn as (Hn1 & Hdisj & Hn2). apply NoDup_cons in Hn2 as [_ Hn2].
      apply NoDup_app. split; [exact Hn1|]. split; [|exact Hn2].
      intros x Hx Hx'. apply (Hdisj x Hx). now right.
    + apply (cycle_ok_frame late (mkSched bot cy)); [exact Hcyc|]. cbn [the_bot].
      intros tid Hp. left. rewrite Hstat.
      destruct (decide (task_id w = tid)) as [<-|]; [|reflexivity].
      rewrite Hwrun in Hp. destruct Hp; discriminate.
    + intros tid. rewrite Hstat.
      destruct (decide (task_id w = tid)) as [<-|]; [|right; split; [reflexivity|now left]].
      right. split; [reflexivity|]. right. exists "running", fs.
      split; [exact Hwrun|]. split; [reflexivity|]. simpl. now split.
  - (* the cancel button *)
    injection Hstep as <-. cbn [the_bot]. unfold cancel_task.
    destruct (tasks (task_manager bot) !! k) as [t|] eqn:Ht.
    2:{ cbn [fst]. replace (with_task_manager bot (task_manager bot)) with bot
          by now destruct bot.
        split; [exact Hcons|]. split; [exact Hcyc|]. intros tid; right; split; [reflexivity|now left]. }
    destruct (String.eqb_spec (status t) "pending") as [Hs|Hs].
    2:{ cbn [fst]. replace (with_task_manager bot (task_manager bot)) with bot
          by now destruct bot.
        split; [exact Hcons|]. split; [exact Hcyc|]. intros tid; right; split; [reflexivity|now left]. }
    cbn [fst]. unfold with_task_manager, save_tasks. cbn [tasks TASKS_FILE].
    assert (Hkp : status_of bot k = Some "pending")
      by (unfold status_of; now rewrite Ht, <- Hs).
    split; [split; [|split]|split].
    + intros k' x. simpl. rewrite lookup_insert.
      destruct (decide (k = k')) as [<-|]; [|apply Hk].
      intros [= <-]. simpl. now apply Hk.
    + intros w Hin. rewrite status_of_insert.
      destruct (decide (k = task_id w)) as [->|]; [|now apply Hw].
      specialize (Hw w Hin). congruence.
    + exact Hn.
    + destruct late.
      * apply (cycle_ok_frame true (mkSched bot cy)); [exact Hcyc|]. cbn [the_bot].
        intros tid Hp. rewrite status_of_insert.
        destruct (decide (k = tid)) as [<-|]; [right; now split|now left].
      * rewrite (Hcalm eq_refl k eq_refl). apply cycle_ok_none.
    + intros tid. rewrite status_of_insert.
      destruct (decide (k = tid)) as [<-|]; [|right; split; [reflexivity|now left]].
      right. split; [reflexivity|]. right. exists "pending", "cancelled".
      split; [exact Hkp|]. split; [reflexivity|]. simpl. now split.
Qed.

Lemma step_outcome_allowed (late : bool) (o : op) (tid : string) (s s' : option string) :
  step_outcome late o tid s s' -> allowed_step o s s'.
Proof.
  intros [(Hc & -> & ->)|(_ & [->|(a & b & -> & -> & He)])]; [|now left|].
  - right. destruct o; try discriminate. now split.
  - right. destruct o; simpl in He |- *; try contradiction.
    + destruct He as [-> ->]. now split.
    + destruct He as [[->|[_ ->]] ->]; auto.
    + destruct He as [-> [->| ->]]; auto.
    + destruct He as [-> ->]. now split.
Qed.

Lemma step_edge_transition (late : bool) (o : op) (a b : string) :
  step_edge late o a b -> transition late a b = true.
Proof.
  destruct o; simpl; try contradiction.
  - intros [-> ->]. reflexivity.
  - intros [[->|[-> ->]] ->]; [reflexivity|]. reflexivity.
  - intros [-> [->| ->]]; reflexivity.
  - intros [-> ->]. reflexivity.
Qed.

(** *** Histories *)

Lemma path_snoc (late : bool) (h : list string) (a b : string) :
  path late h = true -> last h = Some a -> transition late a b = true ->
  path late (h ++ [b]) = true.
Proof.
  induction h as [|x h IH]; [discriminate|]. intros Hp Hl Ht.
  destruct h as [|y h].
  - injection Hl as ->. simpl. now rewrite Ht.
  - cbn [path] in Hp. apply andb_true_iff in Hp as [Hxy Hp].
    change ((x :: y :: h) ++ [b])%list with (x :: (y :: h) ++ [b])%list.
    cbn [path app]. rewrite Hxy. cbn [andb]. apply IH; [exact Hp| |exact Ht].
    exact Hl.
Qed.

Lemma history_ok_step (late born : bool) (o : op) (tid : string) (h : list string)
    (s s' : option string) :
  history_ok late born h s ->
  step_outcome late o tid s s' ->
  history_ok late born
    match s' with
    | None => h
    | Some x =>
        if creates o tid then [x]
        else if bool_decide (last h = Some x) then h else (h ++ [x])%list
    end s'.
Proof.
  intros (Hp & Hl & Hb) [(-> & -> & ->)|(-> & [->|(a & b & -> & -> & He)])].
  - split; [reflexivity|]. split; [reflexivity|]. now intros _.
  - destruct s as [x|]; [|now split].
    rewrite bool_decide_eq_true_2 by exact Hl. now split.
  - pose proof (step_edge_transition late o a b He) as Ht.
    destruct (bool_decide (last h = Some b)) eqn:E.
    + apply bool_decide_eq_true in E. split; [exact Hp|]. split; [exact E|exact Hb].
    + split; [exact (path_snoc late h a b Hp Hl Ht)|]. split; [apply last_snoc|].
      intros Hborn. specialize (Hb Hborn). destruct h as [|y h]; [discriminate|exact Hb].
Qed.

Lemma fresh_ids_from_cons (o : op) (ops : list op) (st st' : Sched) :
  fresh_ids_from (o :: ops) st = true -> step_op st o = Some st' ->
  (forall task, o = OpCreate task ->
     tasks (task_manager (the_bot st)) !! task_id task = None)
  /\ fresh_ids_from ops st' = true.
Proof.
  cbn [fresh_ids_from]. intros H Hs. rewrite Hs in H.
  apply andb_true_iff in H as [H1 H2]. split; [|exact H2].
  intros task ->. now apply bool_decide_eq_true in H1.
Qed.

Lemma calm_from_cons (o : op) (ops : list op) (st st' : Sched) :
  calm_from (o :: ops) st = true -> step_op st o = Some st' ->
  (forall k, o = OpCancel k -> cycle st = None) /\ calm_from ops st' = true.
Proof.
  cbn [calm_from]. intros H Hs. rewrite Hs in H.
  apply andb_true_iff in H as [H1 H2]. split; [|exact H2].
  intros k ->. now destruct (cycle st).
Qed.

(** One step of a run whose creations use fresh ids (and, without [late],
    whose cancellations fall outside the cycles). *)
Lemma run_step (late : bool) (o : op) (ops : list op) (st st' : Sched) :
  consistent (the_bot st) -> cycle_ok late st ->
  fresh_ids_from (o :: ops) st = true ->
  (late = false -> calm_from (o :: ops) st = true) ->
  step_op st o = Some st' ->
  (consistent (the_bot st') /\ cycle_ok late st'
   /\ fresh_ids_from ops st' = true
   /\ (late = false -> calm_from ops st' = true))
  /\ forall tid,
       step_outcome late o tid (status_of (the_bot st) tid) (status_of (the_bot st') tid).
Proof.
  intros Hcons Hcyc Hfresh Hcalm Hstep.
  destruct (fresh_ids_from_cons o ops st st' Hfresh Hstep) as [Hf1 Hf2].
  assert (Hc1 : late = false -> forall k, o = OpCancel k -> cycle st = None).
  { intros Hl. exact (proj1 (calm_from_cons o ops st st' (Hcalm Hl) Hstep)). }
  destruct (step_op_sound late st st' o Hcons Hcyc Hstep Hf1 Hc1) as (H1 & H2 & H3).
  split; [|exact H3]. split; [exact H1|]. split; [exact H2|]. split; [exact Hf2|].
  intros Hl. exact (proj2 (calm_from_cons o ops st st' (Hcalm Hl) Hstep)).
Qed.

Lemma run_from_sound (late : bool) (pre : list op) :
  forall (st st' : Sched) (rest : list op),
    consistent (the_bot st) -> cycle_ok late st ->
    fresh_ids_from (pre ++ rest) st = true ->
    (late = false -> calm_from (pre ++ rest) st = true) ->
    run_from pre st = Some st' ->
    consistent (the_bot st') /\ cycle_ok late st'
    /\ fresh_ids_from rest st' = true
    /\ (late = false -> calm_from rest st' = true).
Proof.
  induction pre as [|o pre IH]; intros st st' rest Hcons Hcyc Hfresh Hcalm Hrun.
  - injection Hrun as <-. auto.
  - cbn [run_from] in Hrun. rewrite <- app_comm_cons in Hfresh, Hcalm.
    destruct (step_op st o) as [st1|] eqn:Hstep; [|discriminate].
    destruct (run_step late o _ st st1 Hcons Hcyc Hfresh Hcalm Hstep)
      as [(H1 & H2 & H3 & H4) _].
    exact (IH st1 st' rest H1 H2 H3 H4 Hrun).
Qed.

(** Along such a run the history of every id is a path. *)
Lemma status_history_ok (late born : bool) (tid : string) (ops : list op) :
  forall (st : Sched) (h h' : list string),
    consistent (the_bot st) -> cycle_ok late st ->
    fresh_ids_from ops st = true ->
    (late = false -> calm_from ops st = true) ->
    history_ok late born h (status_of (the_bot st) tid) ->
    status_history_from ops st tid h = Some h' ->
    exists s, history_ok late born h' s.
Proof.
  induction ops as [|o ops IH]; intros st h h' Hcons Hcyc Hfresh Hcalm Hh Hrun.
  - injection Hrun as <-. eauto.
  - cbn [status_history_from] in Hrun.
    destruct (step_op st o) as [st1|] eqn:Hstep; [|discriminate].
    destruct (run_step late o ops st st1 Hcons Hcyc Hfresh Hcalm Hstep)
      as [(H1 & H2 & H3 & H4) Hout].
    eapply (IH st1 _ h' H1 H2 H3 H4); [|exact Hrun].
    exact (history_ok_step late born o tid h _ _ Hh (Hout tid)).
Qed.

Lemma transition_inv (late : bool) (a b : string) :
  transition late a b = true ->
  (a = "pending" /\ (b = "running" \/ b = "cancelled"))
  \/ (a = "running" /\ (b = "completed" \/ b = "failed"))
  \/ (late = true /\ a = "cancelled" /\ b = "running").
Proof.
  unfold transition. rewrite !orb_true_iff, !andb_true_iff, !orb_true_iff.
  rewrite !String.eqb_eq. tauto.
Qed.

(** The paths that begin at pending are the prefixes of the lifecycles. *)
Lemma path_from_pending (late : bool) (h : list string) :
  path late h = true ->
  match h with [] => True | a :: _ => a = "pending" end ->
  (if late then possible_history h else allowed_history h) = true.
Proof.
  intros Hp Hb.
  destruct h as [|a [|b [|c [|d [|e h]]]]]; cbn [path] in Hp;
    repeat match goal with
    | H : _ && _ = true |- _ => apply andb_true_iff in H as [? ?]
    end;
    repeat match goal with
    | H : transition _ _ _ = true |- _ =>
        apply transition_inv in H as
          [[? [?|?]]|[[? [?|?]]|[? [? ?]]]]
    end;
    subst; try discriminate; try (destruct late; reflexivity); try reflexivity.
Qed.

Lemma history_ok_initial (late : bool) (bot : HackRxBot) (tid : string) :
  history_ok late (match status_of bot tid with None => true | Some _ => false end)
    (initial_history bot tid) (status_of bot tid).
Proof.
  unfold initial_history. destruct (status_of bot tid); repeat split; discriminate.
Qed.

(** C2, amended.  In every run that starts from a store keyed by the tasks'
    own ids and whose creations use ids that are not in the store, where the
    operations are creation, the dispatcher's snapshot of the pending tasks,
    its claim of the next task of the snapshot (or a whole cycle at once),
    the final status written by a worker, and cancellation: every change of
    a status is one of pending to running, pending to cancelled, running to
    completed, running to failed, or cancelled to running; the last one
    happens only by a claim of the dispatcher (from a snapshot taken before
    the cancellation).  So the status values taken by a task created in the
    run are a prefix of pending, running, completed / failed, of pending,
    cancelled, or of pending, cancelled, running, completed / failed.  No
    operation moves a task out of completed or failed, and a cancellation
    changes nothing but a pending task, which it makes cancelled.  When no
    cancellation falls between a snapshot and the end of its cycle, the
    three lifecycles of the specification are the only ones. *)
Theorem status_lifecycle_with_fresh_ids (bot0 : HackRxBot) (ops : list op) (tid : string) :
  consistent bot0 ->
  fresh_ids ops bot0 = true ->
  (forall h, status_history ops bot0 tid (initial_history bot0 tid) = Some h ->
     path true h = true
     /\ (status_of bot0 tid = None -> possible_history h = true)
     /\ (calm ops bot0 = true ->
         path false h = true
         /\ (status_of bot0 tid = None -> allowed_history h = true)))
  /\ (forall pre o post st st',
        ops = (pre ++ o :: post)%list ->
        run_from pre (mkSched bot0 None) = Some st ->
        step_op st o = Some st' ->
        allowed_step o (status_of (the_bot st) tid) (status_of (the_bot st') tid)
        /\ (status_of (the_bot st) tid = Some "completed"
            \/ status_of (the_bot st) tid = Some "failed" ->
            status_of (the_bot st') tid = status_of (the_bot st) tid)
        /\ (forall k, o = OpCancel k ->
              status_of (the_bot st') tid <> status_of (the_bot st) tid ->
              status_of (the_bot st) tid = Some "pending"
              /\ status_of (the_bot st') tid = Some "cancelled")
        /\ (status_of (the_bot st) tid = Some "cancelled" ->
            status_of (the_bot st') tid <> status_of (the_bot st) tid ->
            o = OpClaim /\ status_of (the_bot st') tid = Some "running")).
Proof.
  intros Hcons Hfresh. unfold fresh_ids in Hfresh. split.
  - intros h Hrun. unfold status_history in Hrun.
    pose proof (history_ok_initial true bot0 tid) as Hi1.
    pose proof (history_ok_initial false bot0 tid) as Hi0.
    destruct (status_history_ok true _ tid ops (mkSched bot0 None) _ h Hcons
                (cycle_ok_none true bot0) Hfresh ltac:(discriminate) Hi1 Hrun)
      as (s & Hp & _ & Hb).
    split; [exact Hp|]. split.
    + intros Hnone. rewrite Hnone in Hb.
      exact (path_from_pending true h Hp (Hb eq_refl)).
    + intros Hcalm. unfold calm in Hcalm.
      destruct (status_history_ok false _ tid ops (mkSched bot0 None) _ h Hcons
                  (cycle_ok_none false bot0) Hfresh (fun _ => Hcalm) Hi0 Hrun)
        as (s0 & Hp0 & _ & Hb0).
      split; [exact Hp0|]. intros Hnone. rewrite Hnone in Hb0.
      exact (path_from_pending false h Hp0 (Hb0 eq_refl)).
  - intros pre o post st st' -> Hpre Hstep.
    destruct (run_from_sound true pre (mkSched bot0 None) st (o :: post) Hcons
                (cycle_ok_none true bot0) Hfresh ltac:(discriminate) Hpre)
      as (Hc & Hcy & Hf & _).
    destruct (run_step true o post st st' Hc Hcy Hf ltac:(discriminate) Hstep)
      as [_ Hout].
    pose proof (step_outcome_allowed true o tid _ _ (Hout tid)) as Hallowed.
    split; [exact Hallowed|].
    destruct Hallowed as [E|H].
    { split; [auto|]. split; [intros k _ Hne; contradiction|].
      intros _ Hne. contradiction. }
    split; [|split].
    + intros [Hs|Hs]; rewrite Hs in H; destruct o; simpl in H;
        try contradiction; destruct H as [H _]; try discriminate H;
        destruct H as [H|H]; discriminate H.
    + intros k -> _. exact H.
    + intros Hs _. rewrite Hs in H. destruct o; simpl in H; try contradiction;
        try (destruct H as [H _]; discriminate H).
      split; [reflexivity|]. exact (proj2 H).
Qed.

(** ** The theorems at concrete inputs *)

Lemma status_lifecycle_with_fresh_ids_witness :
  fresh_ids stale_run (HackRxBot_init None) = true
  /\ status_history stale_run (HackRxBot_init None) (task_id collision_first) []
     = Some ["pending"; "cancelled"; "running"]
  /\ possible_history ["pending"; "cancelled"; "running"] = true.
Proof.
  split; [vm_compute; reflexivity|]. split; [vm_compute; reflexivity|].
  refine (proj1 (proj2 (proj1 (status_lifecycle_with_fresh_ids (HackRxBot_init None)
                                 stale_run (task_id collision_first) consistent_init
                                 _) _ _)) _);
    vm_compute; reflexivity.
Defined.

Lemma parse_time_input_future_or_error_witness :
  clock_reading scenario_D_now = true
  /\ (forall dt, parse_time_input "20:15" scenario_D_now = Ok dt ->
        dt_lt scenario_D_now dt = true)
  /\ ((exists msg, parse_time_input "20:15" scenario_D_now = Raise (ValueError msg))
      <-> value_error_condition "20:15" scenario_D_now)
  /\ ((exists msg, parse_time_input "20:15" scenario_D_now = Raise (OverflowError msg))
      <-> calendar_overflow "20:15").
Proof.
  split; [reflexivity|].
  apply (parse_time_input_future_or_error "20:15" scenario_D_now).
  reflexivity.
Defined.

Lemma bare_past_time_rolls_to_next_day_witness :
  clock_reading scenario_D_now = true
  /\ dt_le (IST_localize (combine (dt_date scenario_D_now) (mktime 9 30 0 0)))
           scenario_D_now = true
  /\ exists tomorrow,
       next_day (dt_date scenario_D_now) = Ok tomorrow
       /\ toordinal tomorrow = toordinal (dt_date scenario_D_now) + 1
       /\ parse_time_input "9:30 AM" scenario_D_now =
          Ok (IST_localize (combine tomorrow (mktime 9 30 0 0))).
Proof.
  split; [reflexivity|]. split; [reflexivity|].
  apply (bare_past_time_rolls_to_next_day "9:30 AM" scenario_D_now (mktime 9 30 0 0));
    reflexivity.
Defined.

Lemma exhausted_confirmation_is_cooldown_witness :
  (monitor_results_with_cooldown_detection collision_scraper collision_first).1
  = cooldown_result.
Proof.
  apply (exhausted_confirmation_is_cooldown collision_scraper collision_first).
  intros i page_text _ H. simpl in H. injection H as <-. reflexivity.
Defined.

Lemma save_then_load_roundtrip_witness :
  tasks (TaskManager_init (TASKS_FILE (save_tasks sample_store))) = tasks sample_store.
Proof.
  apply (save_then_load_roundtrip sample_store).
  intros k t H. unfold sample_store in H. simpl in H.
  apply lookup_singleton_Some in H as [_ <-]. reflexivity.
Defined.

Lemma add_task_overwrites_same_id_witness :
  tasks sample_store !! task_id collision_second
  = Some (set_results (set_status collision_first "completed")
                      (JObj [("success", JBool true)]))
  /\ tasks (add_task sample_store collision_second).1 !! task_id collision_second
     = Some collision_second
  /\ size (tasks (add_task sample_store collision_second).1) = size (tasks sample_store).
Proof.
  assert (H : tasks sample_store !! task_id collision_second
              = Some (set_results (set_status collision_first "completed")
                                  (JObj [("success", JBool true)])))
    by (vm_compute; reflexivity).
  split; [exact H|].
  pose proof (add_task_overwrites_same_id sample_store collision_second _ H)
    as [(_ & H1 & H2 & _) _].
  split; [exact H1|exact H2].
Defined.

(** * Further properties of the code *)

(** ** Persistence *)

Lemma load_saved (m : gmap string ScheduledTask) (file : option json) :
  (forall k t, m !! k = Some t -> valid_task t = true) ->
  tasks (TaskManager_init (TASKS_FILE (save_tasks (mkTM m file)))) = m.
Proof.
  intros Hv. unfold TaskManager_init, load_tasks, save_tasks, tasks_data. simpl.
  apply map_eq. intros k. rewrite load_items_lookup.
  - rewrite list_to_map_to_list, lookup_empty. now destruct (m !! k).
  - apply NoDup_fst_map_to_list.
  - apply Forall_forall. intros [k' t] Hin. simpl.
    apply (Hv k'). now apply elem_of_map_to_list.
Qed.

Lemma valid_insert (m : gmap string ScheduledTask) (k : string) (t : ScheduledTask) :
  (forall k' t', m !! k' = Some t' -> valid_task t' = true) ->
  valid_task t = true ->
  forall k' t', <[k := t]> m !! k' = Some t' -> valid_task t' = true.
Proof.
  intros Hm Ht k' t'. rewrite lookup_insert.
  destruct (decide (k = k')); [now intros [= <-]|apply Hm].
Qed.

(** X1.  Every mutation is written through: after [add_task], after
    [update_task_status] of a known id and after a successful
    [cancel_task], a manager started from the file holds exactly the tasks
    that are in memory (all datetimes being valid). *)
Theorem mutations_survive_restart (tm : TaskManager) (task : ScheduledTask)
    (tid new_status : string) (res : json) :
  (forall k t, tasks tm !! k = Some t -> valid_task t = true) ->
  valid_task task = true ->
  tasks (TaskManager_init (TASKS_FILE (add_task tm task).1)) = tasks (add_task tm task).1
  /\ (is_Some (tasks tm !! tid) ->
      tasks (TaskManager_init (TASKS_FILE (update_task_status tm tid new_status res)))
      = tasks (update_task_status tm tid new_status res))
  /\ ((cancel_task tm tid).2 = true ->
      tasks (TaskManager_init (TASKS_FILE (cancel_task tm tid).1))
      = tasks (cancel_task tm tid).1).
Proof.
  intros Hv Ht. split; [|split].
  - unfold add_task. cbn [fst]. apply load_saved. now apply valid_insert.
  - intros [t Hl]. unfold update_task_status. rewrite Hl.
    apply load_saved. apply valid_insert; [exact Hv|].
    specialize (Hv tid t Hl). now destruct (py_truthy res).
  - unfold cancel_task. destruct (tasks tm !! tid) as [t|] eqn:Hl; [|discriminate].
    destruct (String.eqb (status t) "pending"); [|discriminate]. intros _.
    cbn [fst]. apply load_saved. apply valid_insert; [exact Hv|].
    exact (Hv tid t Hl).
Qed.

Lemma mutations_survive_restart_witness :
  tasks (TaskManager_init (TASKS_FILE (add_task sample_store collision_second).1))
  = tasks (add_task sample_store collision_second).1.
Proof.
  apply (mutations_survive_restart sample_store collision_second "" "" JNull).
  - intros k t H. unfold sample_store in H. simpl in H.
    apply lookup_singleton_Some in H as [_ <-]. reflexivity.
  - reflexivity.
Defined.

Lemma load_items_app (good : list (string * ScheduledTask)) (tail : list (string * json))
    (m : gmap string ScheduledTask) :
  Forall (fun kt => valid_task kt.2 = true) good ->
  load_items (((fun kt : string * ScheduledTask => (kt.1, task_dict kt.2)) <$> good) ++ tail) m
  = load_items tail
      (load_items ((fun kt : string * ScheduledTask => (kt.1, task_dict kt.2)) <$> good) m).
Proof.
  intros Hv. revert m. induction Hv as [|[k t] good Ht _ IH]; intros m; [reflexivity|].
  rewrite fmap_cons, <- app_comm_cons. cbn [load_items fst snd].
  simpl in Ht. rewrite (task_of_dict_task_dict t Ht). apply IH.
Qed.

Lemma get_field_Ok {A : Type} (k : string) (l : list (string * json))
    (f : json -> result A) (x : A) :
  get_field k l ≫= f = Ok x -> jget k l <> None.
Proof.
  unfold get_field. destruct (jget k l); [discriminate|]. discriminate.
Qed.

(** What a decoded entry has. *)
Lemma task_of_dict_Ok (l : list (string * json)) (t : ScheduledTask) :
  task_of_dict (JObj l) = Ok t ->
  str_field "scheduled_time" l = true
  /\ str_field "created_at" l = true
  /\ forallb (fun k => bool_decide (k ∈ field_names)) (l.*1) = true
  /\ Forall (fun k => jget k l <> None) required_fields.
Proof.
  unfold task_of_dict, iso_field, str_field.
  destruct (jget "scheduled_time" l) as [[| | |s1| |]|] eqn:E1; try discriminate.
  destruct (fromisoformat s1) as [st|]; [|discriminate].
  destruct (jget "created_at" l) as [[| | |s2| |]|] eqn:E2; try discriminate.
  destruct (fromisoformat s2) as [ca|]; [|discriminate].
  cbn [mbind result_bind].
  destruct (forallb _ _); [|discriminate]. cbn [negb].
  destruct (get_field "user_id" l ≫= as_int) as [uid|] eqn:F1; [|discriminate].
  destruct (get_field "task_id" l ≫= as_str) as [tid|] eqn:F2; [|discriminate].
  destruct (get_field "webhook_url" l ≫= as_str) as [url|] eqn:F3; [|discriminate].
  destruct (get_field "notes" l ≫= as_str) as [nts|] eqn:F4; [|discriminate].
  destruct (get_field "status" l ≫= as_str) as [sts|] eqn:F5; [|discriminate].
  intros _. repeat split.
  repeat constructor; try (eapply get_field_Ok; eassumption);
    rewrite ?E1, ?E2; discriminate.
Qed.

Lemma malformed_entry_raises (bad : json) :
  malformed_entry bad = true -> raises (task_of_dict bad) = true.
Proof.
  intros H. destruct bad as [| | | | |l]; try reflexivity.
  destruct (task_of_dict (JObj l)) as [t|e] eqn:E; [exfalso|reflexivity].
  apply task_of_dict_Ok in E as (H1 & H2 & H3 & H4).
  cbn [malformed_entry] in H. rewrite H1, H2, H3 in H.
  apply andb_true_iff in H as [_ H]. cbn [negb orb] in H.
  rewrite orb_false_r in H.
  apply existsb_exists in H as (k & Hk & Hnone).
  rewrite Forall_forall in H4. specialize (H4 k (proj2 (list_elem_of_In _ _) Hk)).
  destruct (jget k l); [discriminate|]. now apply H4.
Qed.

(** X2.  Loading tolerates bad files.  Without a file, or with a file whose
    top level is not an object, the store starts empty.  A malformed entry
    (one that is not an object, or lacks a field that has no default, or has
    a key that is not a field, or whose scheduled_time or created_at is not
    a string) ends the loading: the entries before it are kept, that entry
    and all the entries after it are dropped. *)
Theorem load_stops_at_first_bad_entry (good : list (string * ScheduledTask))
    (k : string) (bad : json) (rest : list (string * json)) :
  NoDup (good.*1) ->
  Forall (fun kt => valid_task kt.2 = true) good ->
  malformed_entry bad = true ->
  tasks (TaskManager_init None) = ∅
  /\ (forall j, (forall items, j <> JObj items) -> tasks (TaskManager_init (Some j)) = ∅)
  /\ tasks (TaskManager_init
             (Some (JObj (((fun kt : string * ScheduledTask => (kt.1, task_dict kt.2))
                             <$> good) ++ (k, bad) :: rest))))
     = list_to_map good.
Proof.
  intros Hnd Hv Hbad%malformed_entry_raises. split; [reflexivity|]. split.
  - intros j Hj. unfold TaskManager_init, load_tasks. simpl.
    destruct j; try reflexivity. now destruct (Hj l).
  - unfold TaskManager_init, load_tasks. simpl.
    rewrite (load_items_app good _ ∅ Hv). cbn [load_items].
    destruct (task_of_dict bad); [discriminate|].
    apply map_eq. intros k'. rewrite (load_items_lookup good ∅ k' Hnd Hv).
    rewrite lookup_empty. now destruct (list_to_map good !! k').
Qed.

Lemma load_stops_at_first_bad_entry_witness :
  tasks (TaskManager_init
           (Some (JObj [ (task_id collision_first, task_dict collision_first);
                         ("broken", JObj [("user_id", JInt 7); ("notes", JStr "half")]);
                         ("later", task_dict collision_second) ])))
  = {[ task_id collision_first := collision_first ]}.
Proof.
  pose proof (load_stops_at_first_bad_entry
                [(task_id collision_first, collision_first)]
                "broken" (JObj [("user_id", JInt 7); ("notes", JStr "half")])
                [("later", task_dict collision_second)])
    as H.
  destruct H as (_ & _ & H).
  - apply NoDup_singleton.
  - repeat constructor.
  - vm_compute. reflexivity.
  - exact H.
Defined.

(** ** Listing and cancelling *)

Lemma In_task_values (tm : TaskManager) (t : ScheduledTask) :
  In t (task_values tm) <-> exists k, tasks tm !! k = Some t.
Proof.
  unfold task_values. rewrite <- list_elem_of_In, list_elem_of_fmap. split.
  - intros ([k t'] & -> & Hin). exists k. now apply elem_of_map_to_list.
  - intros [k Hk]. exists (k, t). split; [reflexivity|]. now apply elem_of_map_to_list.
Qed.

Lemma In_get_pending_tasks (tm : TaskManager) (t : ScheduledTask) :
  In t (get_pending_tasks tm) <->
  exists k, tasks tm !! k = Some t /\ status t = "pending".
Proof.
  unfold get_pending_tasks. rewrite filter_In, In_task_values, String.eqb_eq.
  split; [intros [[k Hk] Hs]; eauto|intros (k & Hk & Hs); eauto].
Qed.

Lemma In_get_user_tasks (tm : TaskManager) (uid : Z) (t : ScheduledTask) :
  In t (get_user_tasks tm uid) <->
  exists k, tasks tm !! k = Some t /\ user_id t = uid.
Proof.
  unfold get_user_tasks. rewrite filter_In, In_task_values, Z.eqb_eq.
  split; [intros [[k Hk] Hs]; eauto|intros (k & Hk & Hs); eauto].
Qed.

(** X3.  After a successful cancellation the pending tasks are the former
    pending tasks stored under the other ids, and the cancelled task is
    still listed among the tasks of its owner: tasks are never deleted. *)
Theorem cancelled_task_is_kept_but_not_pending (tm : TaskManager) (tid : string)
    (t : ScheduledTask) :
  tasks tm !! tid = Some t -> status t = "pending" ->
  (forall t', In t' (get_pending_tasks (cancel_task tm tid).1) <->
     exists k, k <> tid /\ tasks tm !! k = Some t' /\ status t' = "pending")
  /\ In (set_status t "cancelled") (get_user_tasks (cancel_task tm tid).1 (user_id t)).
Proof.
  intros Ht Hs. rewrite (cancel_task_pending tm tid t Ht Hs). cbn [fst]. split.
  - intros t'. rewrite In_get_pending_tasks. simpl. split.
    + intros (k & Hk & Hp). rewrite lookup_insert in Hk.
      destruct (decide (tid = k)) as [<-|Hne].
      * injection Hk as <-. discriminate Hp.
      * exists k. auto.
    + intros (k & Hne & Hk & Hp). exists k. split; [|exact Hp].
      now rewrite lookup_insert_ne by congruence.
  - apply In_get_user_tasks. exists tid. split; [|reflexivity].
    simpl. apply lookup_insert_eq.
Qed.

Lemma cancelled_task_is_kept_but_not_pending_witness :
  In (set_status collision_first "cancelled")
     (get_user_tasks
        (cancel_task (add_task (TaskManager_init None) collision_first).1
                     (task_id collision_first)).1 7).
Proof.
  apply (cancelled_task_is_kept_but_not_pending
           (add_task (TaskManager_init None) collision_first).1
           (task_id collision_first) collision_first); reflexivity.
Defined.

(** X4.  Cancelling twice: whatever the first call did, a second
    [cancel_task] of the same id answers false and changes nothing. *)
Theorem cancel_task_twice (tm : TaskManager) (tid : string) :
  cancel_task (cancel_task tm tid).1 tid = ((cancel_task tm tid).1, false).
Proof.
  destruct (tasks tm !! tid) as [t|] eqn:Ht.
  - destruct (String.eqb_spec (status t) "pending") as [Hs|Hs].
    + rewrite (cancel_task_pending tm tid t Ht Hs). cbn [fst].
      apply cancel_task_not_pending with (set_status t "cancelled").
      * simpl. apply lookup_insert_eq.
      * discriminate.
    + rewrite (cancel_task_not_pending tm tid t Ht Hs). cbn [fst].
      now apply cancel_task_not_pending with t.
  - rewrite (cancel_task_unknown tm tid Ht). cbn [fst]. now apply cancel_task_unknown.
Qed.

(** ** The dispatcher *)


Lemma comparable_Ok (now : datetime) (l : list ScheduledTask) (t : ScheduledTask) :
  In t (comparable now l) -> exists b, dt_le_py (scheduled_time t) now = Ok b.
Proof.
  induction l as [|a l IH]; simpl; [intros []|].
  destruct (dt_le_py (scheduled_time a) now) as [b|e] eqn:E; [|intros []].
  intros [<-|H]; eauto.
Qed.

(** The snapshot is the part the loop gets through, followed by nothing or
    by a task whose time cannot be compared with the clock. *)
Lemma comparable_split (now : datetime) (l : list ScheduledTask) :
  exists rest,
    l = (comparable now l ++ rest)%list
    /\ (rest = [] \/ exists t0 rest' e,
          rest = t0 :: rest' /\ dt_le_py (scheduled_time t0) now = Raise e).
Proof.
  induction l as [|a l (rest & Hl & Hr)]; [exists []; auto|]. cbn [comparable].
  destruct (dt_le_py (scheduled_time a) now) as [b|e] eqn:E.
  - exists rest. split; [simpl; now rewrite <- Hl|exact Hr].
  - exists (a :: l). split; [reflexivity|]. right. eauto.
Qed.



(** Tasks that are not due are passed over. *)
Lemma dispatch_all_none_due (now : datetime) (l rest : list ScheduledTask) :
  forall acc,
    (forall t, In t l ->
       (exists b, dt_le_py (scheduled_time t) now = Ok b) /\ due now t = false) ->
    dispatch_all now (l ++ rest) acc = dispatch_all now rest acc.
Proof.
  induction l as [|t l IH]; intros acc H; [reflexivity|].
  rewrite <- app_comm_cons. cbn [dispatch_all].
  destruct (H t (or_introl eq_refl)) as [[b Hb] Hd].
  rewrite (dispatch_comparable now acc t b Hb). unfold claim_if_due. rewrite Hd.
  apply IH. intros t' Hin. apply H. now right.
Qed.


(** The store after a cycle, entry by entry. *)
Lemma check_and_run_tasks_lookup (bot : HackRxBot) (now : datetime) (k : string) :
  consistent bot ->
  tasks (task_manager (check_and_run_tasks bot now).1) !! k =
  (fun t => if claimed now (comparable now (get_pending_tasks (task_manager bot)))
                       (task_id t)
            then set_status t "running" else t)
    <$> tasks (task_manager bot) !! k.
Proof.
  intros Hcons.
  destruct (check_and_run_tasks_fold bot Hcons now) as (-> & Hnd & Hst).
  destruct (dispatch_fold now _ bot [] Hnd Hst) as [Hm _].
  rewrite Hm. destruct Hcons as (Hk & _ & _).
  destruct (tasks (task_manager bot) !! k) as [t|] eqn:Hl.
  - simpl. rewrite (Hk k t Hl). now destruct (claimed now _ k).
  - now destruct (claimed now _ k).
Qed.


Lemma consistent_one_task_bot : consistent one_task_bot.
Proof.
  split; [|split].
  - intros k t H. simpl in H. apply lookup_insert_Some in H as [[<- <-]|[_ H]];
      [reflexivity|]. now rewrite lookup_empty in H.
  - intros w [].
  - apply NoDup_nil. exact I.
Qed.


(** The pending tasks after a cycle: those of before that were not
    claimed, in the same order. *)
Lemma pending_after_cycle (bot : HackRxBot) (now : datetime) :
  consistent bot ->
  get_pending_tasks (task_manager (check_and_run_tasks bot now).1) =
  List.filter
    (fun t => negb (claimed now (comparable now (get_pending_tasks (task_manager bot)))
                      (task_id t)))
    (get_pending_tasks (task_manager bot)).
Proof.
  intros Hcons.
  set (c := claimed now (comparable now (get_pending_tasks (task_manager bot)))).
  set (g := fun t : ScheduledTask => if c (task_id t) then set_status t "running" else t).
  assert (Hm : tasks (task_manager (check_and_run_tasks bot now).1)
               = g <$> tasks (task_manager bot)).
  { apply map_eq. intros k. rewrite lookup_fmap.
    exact (check_and_run_tasks_lookup bot now k Hcons). }
  unfold get_pending_tasks, task_values. rewrite Hm, map_to_list_fmap.
  induction (map_to_list (tasks (task_manager bot))) as [|[k t] l IH]; [reflexivity|].
  rewrite !fmap_cons. cbn [snd prod_map fst id List.filter]. rewrite IH.
  assert (Hg : g t = if c (task_id t) then set_status t "running" else t) by reflexivity.
  destruct (c (task_id t)) eqn:Hc; rewrite Hg.
  - cbn [status set_status]. change (String.eqb "running" "pending") with false.
    cbv iota. destruct (String.eqb (status t) "pending"); [|reflexivity].
    cbn [List.filter]. rewrite Hc. reflexivity.
  - destruct (String.eqb (status t) "pending"); [|reflexivity].
    cbn [List.filter]. rewrite Hc. reflexivity.
Qed.

(** X6.  A second cycle at the same clock reading claims nothing: it leaves
    the bot as the first cycle left it and sends no notification. *)
Theorem dispatcher_cycle_repeated (bot : HackRxBot) (now : datetime) :
  consistent bot ->
  check_and_run_tasks (check_and_run_tasks bot now).1 now
  = ((check_and_run_tasks bot now).1, []).
Proof.
  intros Hcons. unfold check_and_run_tasks at 1.
  rewrite (pending_after_cycle bot now Hcons).
  pose proof (pending_tasks_NoDup bot Hcons) as Hnd.
  destruct (comparable_split now (get_pending_tasks (task_manager bot)))
    as (rest & Hl & Hr).
  set (L := comparable now (get_pending_tasks (task_manager bot))) in *.
  assert (Hf : forall q, List.filter q (get_pending_tasks (task_manager bot))
                         = (List.filter q L ++ List.filter q rest)%list)
    by (intros q; rewrite Hl at 1; apply List.filter_app).
  rewrite Hf. rewrite Hl in Hnd. clear Hf Hl.
  rewrite dispatch_all_none_due.
  - destruct Hr as [->|(t0 & rest' & e & -> & He)]; [reflexivity|].
    cbn [List.filter]. rewrite fmap_app, fmap_cons in Hnd.
    apply NoDup_app in Hnd as (_ & Hdis & _).
    rewrite (claimed_false_not_in now L (task_id t0)).
    + cbn [negb dispatch_all]. unfold dispatch. rewrite He. reflexivity.
    + intros Hin. apply (Hdis _ Hin). left.
  - intros t [Hin Hc]%filter_In. split; [exact (comparable_Ok now _ t Hin)|].
    apply negb_true_iff in Hc. destruct (due now t) eqn:Hd; [|reflexivity].
    rewrite <- Hc. symmetry. apply existsb_exists. exists t.
    split; [exact Hin|]. now rewrite String.eqb_refl.
Qed.

Lemma dispatcher_cycle_repeated_witness :
  check_and_run_tasks (check_and_run_tasks one_task_bot collision_time).1 collision_time
  = ((check_and_run_tasks one_task_bot collision_time).1, []).
Proof.
  apply (dispatcher_cycle_repeated one_task_bot collision_time consistent_one_task_bot).
Defined.

(** X7.  In every run from the empty store whose creations use fresh ids,
    the store stays keyed by the tasks' own ids, every worker that has not
    finished belongs to a task that is running, and no two such workers
    belong to the same task: a task is never executed twice at a time. *)
Theorem no_task_runs_twice (ops : list op) (bot : HackRxBot) :
  fresh_ids ops (HackRxBot_init None) = true ->
  run_ops ops (HackRxBot_init None) = Some bot ->
  NoDup (task_id <$> workers bot)
  /\ (forall w, In w (workers bot) -> status_of bot (task_id w) = Some "running")
  /\ (forall k t, tasks (task_manager bot) !! k = Some t -> task_id t = k).
Proof.
  intros Hfresh Hrun. unfold run_ops in Hrun. unfold fresh_ids in Hfresh.
  destruct (run_from ops (mkSched (HackRxBot_init None) None)) as [st|] eqn:E;
    [|discriminate].
  injection Hrun as <-.
  destruct (run_from_sound true ops (mkSched (HackRxBot_init None) None) st []
              consistent_init (cycle_ok_none true _)
              ltac:(now rewrite app_nil_r) ltac:(discriminate) E)
    as ((Hk & Hw & Hn) & _).
  auto.
Qed.

Lemma no_task_runs_twice_witness :
  exists bot,
    run_ops [OpCreate collision_first; OpScan collision_time; OpScan collision_time]
            (HackRxBot_init None) = Some bot
    /\ NoDup (task_id <$> workers bot).
Proof.
  eexists. split; [vm_compute; reflexivity|].
  refine (proj1 (no_task_runs_twice
                   [OpCreate collision_first; OpScan collision_time; OpScan collision_time]
                   _ _ _)); vm_compute; reflexivity.
Defined.

(** ** Execution and monitoring *)

Lemma result_checks_outcome (sc : Scraper) (task : ScheduledTask) (first rem : nat) :
  forall i,
    match (result_checks sc task first i rem).1 with
    | None => True
    | Some j => exists d, j = error_result d
    end.
Proof.
  induction rem as [|rem IH]; intros i; [exact I|].
  cbn [result_checks]. specialize (IH (S i)).
  destruct (result_checks sc task first (S i) rem) as [r evs].
  destruct (page_source sc (first + i)) as [page_text|]; [|exact IH].
  destruct (has_results _); [exact IH|].
  destruct (has_error _); [simpl; eauto|]. exact IH.
Qed.

Lemma monitoring_outcomes (sc : Scraper) (task : ScheduledTask) :
  let r := (monitor_results_with_cooldown_detection sc task).1 in
  r = cooldown_result \/ r = timeout_result \/ exists d, r = error_result d.
Proof.
  unfold monitor_results_with_cooldown_detection.
  destruct (initial_checks sc (notes task) 0 max_initial_checks) as [[found n] evs1].
  destruct found; cbn [negb]; [|now left].
  pose proof (result_checks_outcome sc task n max_result_checks 0%nat) as Hr.
  destruct (result_checks sc task n 0 max_result_checks) as [[j|] evs2]; simpl in *.
  - right; right. exact Hr.
  - right; now left.
Qed.

(** X8.  The monitoring returns one of three records: cooldown, timeout, or
    a detected error.  It never returns a record whose has_results flag is
    true: when the classifier reports results, the loop body fails on a
    method that the bot does not have, the failure is caught as a failed
    check, and polling goes on. *)
Theorem monitoring_never_reports_results (sc : Scraper) (task : ScheduledTask) :
  let r := (monitor_results_with_cooldown_detection sc task).1 in
  (r = cooldown_result \/ r = timeout_result \/ exists d, r = error_result d)
  /\ result_flag "has_results" r <> Some (JBool true).
Proof.
  pose proof (monitoring_outcomes sc task) as H.
  split; [exact H|]. simpl in H.
  destruct H as [->|[->|[d ->]]]; discriminate.
Qed.

Lemma total_sleep_app (a b : list event) :
  total_sleep (a ++ b) = total_sleep a + total_sleep b.
Proof.
  induction a as [|[n|v|u t] a IH]; simpl; lia.
Qed.

Lemma visits_app (a b : list event) : visits (a ++ b) = visits a + visits b.
Proof.
  induction a as [|[n|v|u t] a IH]; simpl; lia.
Qed.

(** The pauses and the visits of the result checks from check [i] on. *)
Lemma result_checks_sleep (sc : Scraper) (task : ScheduledTask) (first rem : nat) :
  forall i,
    0 <= total_sleep (result_checks sc task first i rem).2
      <= 10 * Z.of_nat (max_result_checks - 1 - i)
    /\ 0 <= visits (result_checks sc task first i rem).2 <= Z.of_nat rem.
Proof.
  induction rem as [|rem IH]; intros i;
    [cbn [result_checks snd total_sleep visits]; lia|].
  cbn [result_checks]. specialize (IH (S i)).
  destruct (result_checks sc task first (S i) rem) as [r evs]. cbn [snd] in IH.
  destruct (page_source sc (first + i)) as [page_text|];
    [|cbn [snd total_sleep visits]; lia].
  destruct (has_results _); [cbn [snd total_sleep visits]; lia|].
  destruct (has_error _); [cbn [snd total_sleep visits]; lia|].
  cbn [snd total_sleep visits]. rewrite !total_sleep_app, !visits_app.
  destruct (is_processing _ && _ && _); destruct (Nat.ltb_spec i (max_result_checks - 1));
    cbn [total_sleep visits]; lia.
Qed.

Lemma initial_checks_sleep (sc : Scraper) (target_notes : string) (rem : nat) :
  forall i,
    0 <= total_sleep (initial_checks sc target_notes i rem).2
      <= 10 * Z.of_nat (max_initial_checks - 1 - i)
    /\ 0 <= visits (initial_checks sc target_notes i rem).2 <= Z.of_nat rem.
Proof.
  induction rem as [|rem IH]; intros i;
    [cbn [initial_checks snd total_sleep visits]; lia|].
  cbn [initial_checks]. specialize (IH (S i)).
  destruct (initial_checks sc target_notes (S i) rem) as [[found n] evs]. cbn [snd] in IH.
  destruct (page_source sc i) as [page_text|]; [|cbn [snd total_sleep visits]; lia].
  destruct (py_in _ _); [cbn [snd total_sleep visits]; lia|].
  cbn [snd total_sleep visits]. rewrite total_sleep_app, visits_app.
  destruct (Nat.ltb_spec i (max_initial_checks - 1)); cbn [total_sleep visits]; lia.
Qed.

Lemma result_checks_last (sc : Scraper) (task : ScheduledTask) (first rem : nat) :
  forall i j,
    (result_checks sc task first i rem).1 = Some j ->
    exists title, last (result_checks sc task first i rem).2
                  = Some (Notification (user_id task) title).
Proof.
  induction rem as [|rem IH]; intros i j; [discriminate|].
  cbn [result_checks]. specialize (IH (S i) j).
  destruct (result_checks sc task first (S i) rem) as [r evs]. cbn [fst snd] in IH.
  assert (Hcons : forall pre, r = Some j ->
            exists title, last (pre ++ evs) = Some (Notification (user_id task) title)).
  { intros pre Hr. destruct (IH Hr) as [title Ht]. exists title.
    now rewrite last_app, Ht. }
  destruct (page_source sc (first + i)); [|exact (Hcons [_])].
  destruct (has_results _); [exact (Hcons [_])|].
  destruct (has_error _); [intros _; simpl; eauto|].
  cbn [fst snd]. intros Hr.
  destruct (Hcons (Visit (first + i)
                   :: (if is_processing (extract_submission_details page_text (notes task))
                          && (0 <? i)%nat && (i mod 10 =? 0)%nat
                       then [Notification (user_id task) "Still Processing"] else [])
                   ++ (if (i <? max_result_checks - 1)%nat then [Sleep 10] else [])) Hr)
    as [title Ht].
  exists title. rewrite <- app_comm_cons, <- app_assoc in Ht. exact Ht.
Qed.

(** X9.  The pauses of one monitoring run are bounded.  The bot itself
    sleeps at most once between the two confirmation checks and at most
    5999 times between the result checks, ten seconds each, so at most
    60000 seconds; it visits the submissions page at most 6002 times, and
    every visit waits inside the scraper as well, where it sleeps 4 seconds
    at most: the [time.sleep] calls of the program add up to at most 84008
    seconds (the waits of the visits for the browser, up to 40 seconds
    each, come on top and are not counted here).  The run always ends by
    sending a notification, never by waiting. *)
Theorem monitoring_wait_is_bounded (sc : Scraper) (task : ScheduledTask) :
  let evs := (monitor_results_with_cooldown_detection sc task).2 in
  0 <= total_sleep evs <= 60000
  /\ 0 <= visits evs <= 6002
  /\ total_sleep evs + page_load_sleep * visits evs <= 84008
  /\ exists title, last evs = Some (Notification (user_id task) title).
Proof.
  cbv zeta. unfold monitor_results_with_cooldown_detection, page_load_sleep.
  pose proof (initial_checks_sleep sc (notes task) max_initial_checks 0%nat) as H1.
  destruct (initial_checks sc (notes task) 0 max_initial_checks) as [[found n] evs1].
  cbn [snd] in H1.
  assert (Hm1 : Z.of_nat (max_initial_checks - 1 - 0) = 1) by reflexivity.
  assert (Hm2 : Z.of_nat (max_result_checks - 1 - 0) = 5999) by (vm_compute; reflexivity).
  assert (Hm3 : Z.of_nat max_initial_checks = 2) by reflexivity.
  assert (Hm4 : Z.of_nat max_result_checks = 6000) by (vm_compute; reflexivity).
  destruct found; cbn [negb].
  - pose proof (result_checks_sleep sc task n max_result_checks 0%nat) as H2.
    pose proof (result_checks_last sc task n max_result_checks 0%nat) as Hlast.
    destruct (result_checks sc task n 0 max_result_checks) as [[j|] evs2];
      cbn [fst snd] in *.
    + cbn [snd]. rewrite total_sleep_app, visits_app.
      repeat (split; [lia|]).
      destruct (Hlast j eq_refl) as [title Ht]. exists title.
      now rewrite last_app, Ht.
    + cbn [snd]. rewrite !total_sleep_app, !visits_app. cbn [total_sleep visits].
      repeat (split; [lia|]).
      eexists. rewrite app_assoc, last_snoc. reflexivity.
  - cbn [snd]. rewrite total_sleep_app, visits_app. cbn [total_sleep visits].
    repeat (split; [lia|]).
    eexists. rewrite last_snoc. reflexivity.
Qed.

(** X10.  What a run writes into the store.  For a stored task the final
    status is 'completed' exactly when the driver was created, the login
    and the submission succeeded and the browser closed cleanly, whatever
    the monitoring found (cooldown, timeout and a detected error all count
    as completed); otherwise it is 'failed'.  The result recorded is never
    empty and its success flag says the same; no other task changes. *)
Theorem run_hackrx_task_outcome (tm : TaskManager) (sc : Scraper)
    (task t : ScheduledTask) :
  tasks tm !! task_id task = Some t ->
  exists res,
    tasks (run_hackrx_task tm sc task).1 =
      <[task_id task :=
          set_results
            (set_status t (if submission_accepted sc then "completed" else "failed"))
            res]> (tasks tm)
    /\ success_of res = submission_accepted sc
    /\ py_truthy res = true.
Proof.
  intros Ht. unfold run_hackrx_task, execute_hackrx_submission, submission_accepted.
  assert (Hfail : forall msg,
    exists res,
      tasks (if success_of (failure msg)
             then (update_task_status tm (task_id task) "completed" (failure msg),
                   @nil event)
             else (update_task_status tm (task_id task) "failed" (failure msg), [])).1
      = <[task_id task := set_results (set_status t "failed") res]> (tasks tm)
      /\ success_of res = false /\ py_truthy res = true).
  { intros msg. exists (failure msg).
    replace (success_of (failure msg)) with false by reflexivity. cbn [fst].
    rewrite (update_task_status_known tm _ _ _ t Ht).
    split; [reflexivity|]. split; reflexivity. }
  destruct (create_driver sc); cbn [negb andb]; [|apply Hfail].
  destruct (login sc); cbn [negb andb].
  2:{ destruct (quit_error sc); apply Hfail. }
  destruct (submit_webhook sc) as [ok msg]. destruct ok; cbn [negb andb fst].
  2:{ destruct (quit_error sc); apply Hfail. }
  destruct (monitor_results_with_cooldown_detection sc task) as [r evs].
  destruct (quit_error sc) as [e|]; [destruct (Hfail e) as (res & H); exists res; exact H|].
  eexists.
  match goal with |- context [success_of ?x] =>
    replace (success_of x) with true by reflexivity end.
  cbn [fst]. rewrite (update_task_status_known tm _ _ _ t Ht).
  split; [reflexivity|]. split; reflexivity.
Qed.

Lemma run_hackrx_task_outcome_witness :
  exists res,
    tasks (run_hackrx_task (task_manager one_task_bot) collision_scraper
                           collision_first).1 =
      <[task_id collision_first :=
          set_results (set_status collision_first "completed") res]>
        (tasks (task_manager one_task_bot))
    /\ success_of res = true /\ py_truthy res = true.
Proof.
  apply (run_hackrx_task_outcome (task_manager one_task_bot) collision_scraper
           collision_first collision_first).
  vm_compute. reflexivity.
Defined.

(** ** The classifier *)

Lemma detect_status_names (ps : list (string * regex)) (context : string) :
  In (detect_status ps context) ("unknown" :: ps.*1).
Proof.
  induction ps as [|[name p] ps IH]; simpl; [now left|].
  destruct (re_search true p context); [right; now left|].
  destruct IH as [IH|IH]; [now left|right; now right].
Qed.

Lemma extract_metrics_keys (context k : string) :
  is_Some (extract_metrics context !! k) -> In k metric_names.
Proof.
  unfold extract_metrics, additional_patterns.
  rewrite !additional_metrics_cons, additional_metrics_nil. intros H.
  unfold metric_names. simpl.
  repeat match goal with
         | H : is_Some (set_metric ?n _ _ !! k) |- _ =>
             destruct (decide (n = k)) as [E|?]; [tauto|];
             rewrite lookup_set_metric_ne in H by assumption
         end.
  rewrite lookup_empty in H. now destruct H.
Qed.

(** X11.  Every verdict of the classifier is coherent.  The status is one of
    unknown, completed, processing, failed, submitted; only the eight known
    metric names occur in the metrics; a verdict is "processing" only when
    it has neither results nor an error and the status is processing or
    submitted; the status failed always counts as an error; and when the
    notes are not on the page nothing is reported at all. *)
Theorem classification_is_coherent (page_text target_notes : string) :
  let r := extract_submission_details page_text target_notes in
  In (c_status r) status_names
  /\ (forall k, is_Some (metrics r !! k) -> In k metric_names)
  /\ (is_processing r = true ->
      has_results r = false /\ has_error r = false
      /\ (c_status r = "processing" \/ c_status r = "submitted"))
  /\ (c_status r = "failed" -> has_error r = true)
  /\ (marker_found page_text target_notes = false ->
      c_status r = "unknown" /\ has_results r = false /\ is_processing r = false
      /\ has_error r = false /\ metrics r = ∅).
Proof.
  unfold extract_submission_details, marker_found, py_in.
  destruct (py_find (py_lower target_notes) (py_lower page_text) =? -1) eqn:E;
    cbn [negb c_status has_results is_processing has_error metrics].
  - split; [now left|]. split; [intros k; rewrite lookup_empty; now intros []|].
    split; [discriminate|]. split; [discriminate|]. intros _. repeat split.
  - set (context := context_window page_text _).
    split; [|split; [|split; [|split]]].
    + pose proof (detect_status_names status_patterns context) as H.
      unfold status_names. simpl in H |- *. tauto.
    + apply extract_metrics_keys.
    + rewrite !andb_true_iff, !negb_true_iff, orb_true_iff, !String.eqb_eq. tauto.
    + intros ->. apply orb_true_r.
    + discriminate.
Qed.

Lemma py_find_empty (s : string) : py_find "" s = 0.
Proof. unfold py_find. now destruct s. Qed.

(** X12.  Empty notes are found on every page, so for a task whose notes
    are empty the monitoring cannot end in cooldown once one of the two
    confirmation fetches succeeds, whatever the page shows. *)
Theorem empty_notes_match_every_page (sc : Scraper) (task : ScheduledTask)
    (page_text : string) :
  notes task = "" ->
  page_source sc 0 = Page page_text \/ page_source sc 1 = Page page_text ->
  marker_found page_text (notes task) = true
  /\ (monitor_results_with_cooldown_detection sc task).1 <> cooldown_result.
Proof.
  intros Hn Hp. rewrite Hn.
  assert (Hm : forall p, py_in (py_lower "") (py_lower p) = true)
    by (intros p; unfold py_in; simpl py_lower; now rewrite py_find_empty).
  split; [apply Hm|].
  unfold monitor_results_with_cooldown_detection. rewrite Hn.
  assert (Hf : (initial_checks sc "" 0 max_initial_checks).1.1 = true).
  { unfold max_initial_checks. cbn [initial_checks].
    destruct (page_source sc 0) as [p0|] eqn:E0.
    - now rewrite Hm.
    - destruct Hp as [Hp|Hp]; [discriminate|]. rewrite Hp, Hm. reflexivity. }
  destruct (initial_checks sc "" 0 max_initial_checks) as [[found n] evs1].
  simpl in Hf. subst found. cbn [negb].
  pose proof (result_checks_outcome sc task n max_result_checks 0%nat) as Ho.
  destruct (result_checks sc task n 0 max_result_checks) as [[j|] evs2];
    cbn [fst] in *.
  - destruct Ho as [d Hd]. rewrite Hd. discriminate.
  - discriminate.
Qed.

Lemma empty_notes_match_every_page_witness :
  marker_found "No submissions yet" (notes blank_notes_task) = true
  /\ (monitor_results_with_cooldown_detection collision_scraper blank_notes_task).1
     <> cooldown_result.
Proof.
  exact (empty_notes_match_every_page collision_scraper blank_notes_task
           "No submissions yet" eq_refl (or_introl eq_refl)).
Defined.

(** ** The time parser, case by case *)

Lemma parse_time_input_Ok_inv (text : string) (now dt : datetime) :
  parse_time_input text now = Ok dt ->
  exists d tok dm tt,
    split_date text now = Ok (d, tok, dm)
    /\ parse_time_token tok = Ok (Some tt)
    /\ combine_and_adjust d tt dm tok now = Ok dt
    /\ dt_le dt now = false.
Proof.
  unfold parse_time_input.
  destruct (split_date text now) as [[[d tok] dm]|]; cbn [mbind result_bind];
    [|discriminate].
  destruct (parse_time_token tok) as [[tt|]|] eqn:Ht; cbn [mbind result_bind];
    try discriminate.
  destruct (combine_and_adjust d tt dm tok now) as [s|] eqn:Hc;
    cbn [mbind result_bind]; [|discriminate].
  destruct (dt_le s now) eqn:E; [discriminate|]. intros [= <-].
  exists d, tok, dm, tt. repeat split; assumption.
Qed.

Lemma parse_time_input_stages (text : string) (now : datetime) (d : date)
    (tok : string) (dm : option caps) (tt : time) (s : datetime) :
  split_date text now = Ok (d, tok, dm) ->
  parse_time_token tok = Ok (Some tt) ->
  combine_and_adjust d tt dm tok now = Ok s ->
  parse_time_input text now =
    if dt_le s now then Raise (ValueError "Scheduled time must be in the future")
    else Ok s.
Proof.
  intros H1 H2 H3. unfold parse_time_input.
  rewrite H1. cbn [mbind result_bind]. rewrite H2. cbn [mbind result_bind].
  rewrite H3. reflexivity.
Qed.

(** X13.  Whatever the parser returns is a valid datetime in IST, on a
    whole minute (no seconds, no microseconds), and strictly later than the
    clock reading. *)
Theorem parsed_time_is_well_formed (text : string) (now dt : datetime) :
  clock_reading now = true ->
  parse_time_input text now = Ok dt ->
  valid_datetime dt = true
  /\ dt_tz dt = Some IST_offset
  /\ t_second (dt_time dt) = 0 /\ t_micro (dt_time dt) = 0
  /\ dt_lt now dt = true.
Proof.
  intros Hnow (d & tok & dm & tt & Hs & Ht & Hc & Hle)%parse_time_input_Ok_inv.
  destruct (split_date_spec text now Hnow) as [_ Hsp].
  destruct (Hsp d tok dm Hs) as [Hd _].
  destruct (parse_time_token_spec tok) as (_ & Hct & _).
  destruct (Hct tt Ht) as (Hh & Hm & Hsec & Hus).
  assert (Hvt : valid_time tt = true).
  { unfold valid_time. rewrite Hsec, Hus.
    rewrite !andb_true_iff, !Z.leb_le, !Z.ltb_lt. lia. }
  assert (Hshape : exists d', valid_date d' = true /\ dt = mkdt d' tt (Some IST_offset)).
  { unfold combine_and_adjust in Hc. rewrite (localize_combine _ _ Hd) in Hc.
    destruct (end_of_calendar d); [discriminate|]. cbn [mbind result_bind] in Hc.
    destruct (_ && _ && _) in Hc.
    - unfold add_one_day, IST_localize, combine in Hc. cbn [dt_date dt_time dt_tz] in Hc.
      destruct (next_day d) as [d'|] eqn:Hn; cbn [mbind result_bind] in Hc;
        [|discriminate].
      injection Hc as <-. exists d'. split; [exact (next_day_valid d d' Hd Hn)|reflexivity].
    - injection Hc as <-. exists d. split; [exact Hd|reflexivity]. }
  destruct Hshape as (d' & Hd' & ->). cbn [dt_date dt_time dt_tz].
  split; [unfold valid_datetime; cbn [dt_date dt_time dt_tz]; now rewrite Hd', Hvt|].
  split; [reflexivity|]. split; [exact Hsec|]. split; [exact Hus|].
  unfold dt_le in Hle. unfold dt_lt. apply Z.leb_gt in Hle. now apply Z.ltb_lt.
Qed.

Lemma parsed_time_is_well_formed_witness :
  valid_datetime (mkdt (mkdate 2024 1 16) (mktime 9 30 0 0) (Some IST_offset)) = true
  /\ dt_lt scenario_D_now (mkdt (mkdate 2024 1 16) (mktime 9 30 0 0) (Some IST_offset))
     = true.
Proof.
  pose proof (parsed_time_is_well_formed "9:30 AM" scenario_D_now
                (mkdt (mkdate 2024 1 16) (mktime 9 30 0 0) (Some IST_offset))
                eq_refl eq_refl) as (H1 & _ & _ & _ & H2).
  split; [exact H1|exact H2].
Defined.

(** X14.  With the prefix "tomorrow" and no explicit date, a recognised
    time is scheduled on the day after the clock's date, at that time of
    day; such an input is never rejected as being in the past. *)
Theorem tomorrow_prefix_schedules_next_day (text : string) (now : datetime) (tt : time) :
  clock_reading now = true ->
  py_startswith "tomorrow" (py_lower (py_strip text)) = true ->
  re_match false date_re
    (py_strip (py_replace "tomorrow" "" (py_lower (py_strip text)))) = None ->
  parse_time_token
    (py_strip (py_replace "tomorrow" "" (py_lower (py_strip text)))) = Ok (Some tt) ->
  exists tomorrow,
    next_day (dt_date now) = Ok tomorrow
    /\ parse_time_input text now = Ok (IST_localize (combine tomorrow tt)).
Proof.
  intros Hnow Htom Hdate Htok.
  pose proof (clock_reading_spec now Hnow) as (Hd & _ & _ & Hy).
  destruct (next_day_ok (dt_date now) (or_introl Hy)) as [tomorrow Hn].
  exists tomorrow. split; [exact Hn|].
  destruct (parse_time_token_spec
              (py_strip (py_replace "tomorrow" "" (py_lower (py_strip text)))))
    as (_ & Hct & _).
  specialize (Hct tt Htok).
  pose proof (tomorrow_is_later now tomorrow tt Hnow Hct Hn) as Hlater.
  rewrite (parse_time_input_stages text now tomorrow
             (py_strip (py_replace "tomorrow" "" (py_lower (py_strip text)))) None tt
             (IST_localize (combine tomorrow tt))).
  - now rewrite Hlater.
  - unfold split_date, add_one_day. cbv zeta. rewrite Htom, Hn.
    cbn [mbind result_bind dt_date]. now rewrite Hdate.
  - exact Htok.
  - unfold combine_and_adjust.
    rewrite (localize_combine _ _ (next_day_valid _ _ Hd Hn)),
      (proj2 (clock_date_inside now Hnow) _ Hn).
    cbn [mbind result_bind]. now rewrite Hlater.
Qed.

Lemma tomorrow_prefix_schedules_next_day_witness :
  exists tomorrow,
    next_day (dt_date scenario_D_now) = Ok tomorrow
    /\ parse_time_input "Tomorrow 8:15 PM" scenario_D_now
       = Ok (IST_localize (combine tomorrow (mktime 20 15 0 0))).
Proof.
  apply (tomorrow_prefix_schedules_next_day "Tomorrow 8:15 PM" scenario_D_now
           (mktime 20 15 0 0)); reflexivity.
Defined.

(** X15.  An explicit date is taken as it is: with a recognised time, the
    parser returns that date at that time when it lies in the future and
    raises a ValueError when it does not; it never moves an explicit date
    to the next day, and a "tomorrow" prefix in front of the date has no
    effect.  The two ends of the calendar are the exception: for
    0001-01-01 and 9999-12-31 the parser raises an OverflowError, whatever
    the clock says. *)
Theorem explicit_date_is_never_rolled (text : string) (now : datetime) (d : date)
    (tok : string) (cs : caps) (tt : time) :
  clock_reading now = true ->
  split_date text now = Ok (d, tok, Some cs) ->
  parse_time_token tok = Ok (Some tt) ->
  parse_time_input text now =
    (if end_of_calendar d then Raise (OverflowError "date value out of range")
     else if dt_le (IST_localize (combine d tt)) now
     then Raise (ValueError "Scheduled time must be in the future")
     else Ok (IST_localize (combine d tt)))
  /\ strptime_ymd (grp 1 cs) = Ok d.
Proof.
  intros Hnow Hs Ht.
  destruct (split_date_spec text now Hnow) as [_ Hsp].
  destruct (Hsp d tok (Some cs) Hs) as [Hd _]. split.
  - unfold parse_time_input. rewrite Hs. cbn [mbind result_bind].
    rewrite Ht. cbn [mbind result_bind]. unfold combine_and_adjust.
    rewrite (localize_combine _ _ Hd).
    destruct (end_of_calendar d); [reflexivity|]. cbn [mbind result_bind].
    rewrite andb_false_r. cbn [andb mbind result_bind]. reflexivity.
  - unfold split_date in Hs.
    destruct (if py_startswith "tomorrow" (py_lower (py_strip text)) then _ else _)
      as [[d0 t1]|]; cbn [mbind result_bind] in Hs; [|discriminate].
    destruct (re_match false date_re t1) as [cs'|] eqn:E; [|discriminate].
    destruct (strptime_ymd (grp 1 cs')) as [d'|] eqn:Hst; cbn [mbind result_bind] in Hs;
      [|discriminate].
    injection Hs as Hd' _ Hcs. subst d' cs'. exact Hst.
Qed.

Lemma explicit_date_is_never_rolled_witness :
  parse_time_input "tomorrow 2024-01-10 10:00 AM" scenario_D_now
  = Raise (ValueError "Scheduled time must be in the future").
Proof.
  refine (eq_trans
            (proj1 (explicit_date_is_never_rolled "tomorrow 2024-01-10 10:00 AM"
                      scenario_D_now (mkdate 2024 1 10) "10:00 am"
                      [(2%nat, "10:00 am"); (1%nat, "2024-01-10")] (mktime 10 0 0 0)
                      _ _ _)) _); vm_compute; reflexivity.
Defined.

(** X16.  A bare time of day that is still ahead on the clock's date is
    scheduled on that date: the parser answers what [IST.localize] answers
    for that date and time, which for a reading of the IST clock is the
    instant itself. *)
Theorem bare_future_time_stays_today (text : string) (now : datetime) (tt : time) :
  py_startswith "tomorrow" (py_lower (py_strip text)) = false ->
  re_match false date_re (py_lower (py_strip text)) = None ->
  parse_time_token (py_lower (py_strip text)) = Ok (Some tt) ->
  dt_le (IST_localize (combine (dt_date now) tt)) now = false ->
  parse_time_input text now = localize (combine (dt_date now) tt)
  /\ (clock_reading now = true ->
      parse_time_input text now = Ok (IST_localize (combine (dt_date now) tt))).
Proof.
  intros Htom Hdate Htok Hfut.
  assert (Hp : parse_time_input text now = localize (combine (dt_date now) tt)).
  { unfold parse_time_input, split_date. cbv zeta. rewrite Htom.
    cbn [mbind result_bind]. rewrite Hdate. cbn [mbind result_bind].
    rewrite Htok. cbn [mbind result_bind]. unfold combine_and_adjust.
    destruct (localize (combine (dt_date now) tt)) as [s|e] eqn:E; [|reflexivity].
    assert (Hs : s = IST_localize (combine (dt_date now) tt)).
    { unfold localize in E. cbn [combine dt_tz dt_date] in E.
      destruct (toordinal (dt_date now) <=? 1); [discriminate|].
      destruct (next_day (dt_date now)); [|discriminate].
      cbn [mbind result_bind] in E. now injection E as <-. }
    subst s. cbn [mbind result_bind]. rewrite Hfut. cbn [andb mbind result_bind].
    now rewrite Hfut. }
  split; [exact Hp|]. intros Hnow. rewrite Hp.
  pose proof (clock_reading_spec now Hnow) as (Hd & _).
  now rewrite (localize_combine _ _ Hd), (proj1 (clock_date_inside now Hnow)).
Qed.

Lemma bare_future_time_stays_today_witness :
  parse_time_input " 20:15 " scenario_D_now
  = Ok (IST_localize (combine (dt_date scenario_D_now) (mktime 20 15 0 0))).
Proof.
  apply (bare_future_time_stays_today " 20:15 " scenario_D_now (mktime 20 15 0 0));
    reflexivity.
Defined.

(** X17.  The 12-hour clock.  With "am", hour 12 is midnight and any other
    hour below 24 is kept (so "13:05 am" is read as 13:05); with "pm", hour
    12 is noon, an hour below 12 is moved twelve hours on (so "0:30 pm" is
    12:30), and an hour above 12 is rejected with a ValueError. *)
Theorem twelve_hour_clock (cs : caps) (h m : Z) :
  py_int (grp 1 cs) = Ok h -> py_int (grp 2 cs) = Ok m ->
  0 <= h -> 0 <= m < 60 ->
  (grp 3 cs = "am" ->
     _parse_12hour cs =
       if h <? 24 then Ok (mktime (if h =? 12 then 0 else h) m 0 0)
       else Raise (ValueError "hour must be in 0..23"))
  /\ (grp 3 cs = "pm" ->
     _parse_12hour cs =
       if h <=? 12 then Ok (mktime (if h =? 12 then 12 else h + 12) m 0 0)
       else Raise (ValueError "hour must be in 0..23")).
Proof.
  intros Hh Hm H0 Hm60. unfold _parse_12hour. rewrite Hh, Hm.
  cbn [mbind result_bind]. unfold time_replace.
  assert (Hmin : (0 <=? m) && (m <? 60) = true)
    by (apply andb_true_iff; split; [apply Z.leb_le|apply Z.ltb_lt]; lia).
  split; intros ->; cbn [String.eqb Ascii.eqb Bool.eqb andb negb].
  - destruct (Z.eqb_spec h 12) as [->|Hne].
    + change (0 <=? 0) with true. change (0 <? 24) with true.
      change (12 <? 24) with true. cbn [negb andb]. now rewrite Hmin.
    + cbn [negb andb].
      replace (0 <=? h) with true by (symmetry; apply Z.leb_le; lia).
      cbn [andb]. destruct (h <? 24); cbn [negb]; [|reflexivity].
      now rewrite Hmin.
  - destruct (Z.eqb_spec h 12) as [->|Hne].
    + change (0 <=? 12) with true. change (12 <? 24) with true.
      change (12 <=? 12) with true. cbn [negb andb]. now rewrite Hmin.
    + cbn [negb andb].
      replace (0 <=? h + 12) with true by (symmetry; apply Z.leb_le; lia).
      cbn [andb].
      destruct (Z.leb_spec h 12), (Z.ltb_spec (h + 12) 24); try lia; cbn [negb];
        [|reflexivity].
      now rewrite Hmin.
Qed.

Lemma twelve_hour_clock_witness :
  _parse_12hour [(3%nat, "pm"); (2%nat, "30"); (1%nat, "0")] = Ok (mktime 12 30 0 0).
Proof.
  refine (eq_trans
            (proj2 (twelve_hour_clock [(3%nat, "pm"); (2%nat, "30"); (1%nat, "0")] 0 30
                      eq_refl eq_refl _ _) eq_refl) _); [lia|lia|reflexivity].
Defined.

(** ** Letter case and surrounding white space of the time text *)

Lemma lower_char_idem (c : ascii) : lower_char (lower_char c) = lower_char c.
Proof. destruct c as [[] [] [] [] [] [] [] []]; reflexivity. Qed.

Lemma is_space_lower_char (c : ascii) : is_space (lower_char c) = is_space c.
Proof. destruct c as [[] [] [] [] [] [] [] []]; reflexivity. Qed.

Lemma py_lower_idem (s : string) : py_lower (py_lower s) = py_lower s.
Proof. induction s as [|c s IH]; simpl; [reflexivity|]. now rewrite lower_char_idem, IH. Qed.

Lemma py_lstrip_lower (s : string) : py_lstrip (py_lower s) = py_lower (py_lstrip s).
Proof.
  induction s as [|c s IH]; simpl; [reflexivity|].
  rewrite is_space_lower_char. now destruct (is_space c).
Qed.

Lemma py_rstrip_lower (s : string) : py_rstrip (py_lower s) = py_lower (py_rstrip s).
Proof.
  induction s as [|c s IH]; simpl; [reflexivity|].
  rewrite IH, is_space_lower_char.
  destruct (py_rstrip s); simpl; [now destruct (is_space c)|reflexivity].
Qed.

Lemma nonspace_head_lstrip (s : string) : nonspace_head (py_lstrip s) = true.
Proof.
  induction s as [|c s IH]; simpl; [reflexivity|].
  destruct (is_space c) eqn:E; [exact IH|]. simpl. now rewrite E.
Qed.

Lemma py_lstrip_nonspace_head (s : string) : nonspace_head s = true -> py_lstrip s = s.
Proof. destruct s as [|c s]; simpl; [reflexivity|]. now intros ->%negb_true_iff. Qed.

Lemma nonspace_head_rstrip (s : string) :
  nonspace_head s = true -> nonspace_head (py_rstrip s) = true.
Proof.
  destruct s as [|c s]; simpl; [reflexivity|]. intros H.
  destruct (py_rstrip s); simpl; [|exact H].
  apply negb_true_iff in H. rewrite H. simpl. now rewrite H.
Qed.

Lemma py_rstrip_idem (s : string) : py_rstrip (py_rstrip s) = py_rstrip s.
Proof.
  induction s as [|c s IH]; simpl; [reflexivity|].
  destruct (py_rstrip s) as [|a t] eqn:E.
  - destruct (is_space c) eqn:Ec; simpl; [reflexivity|]. now rewrite Ec.
  - change (py_rstrip (String c (String a t))) with
      (match py_rstrip (String a t) with
       | EmptyString => if is_space c then EmptyString else String c EmptyString
       | u => String c u
       end).
    now rewrite IH.
Qed.

Lemma py_strip_idem (s : string) : py_strip (py_strip s) = py_strip s.
Proof.
  unfold py_strip.
  rewrite (py_lstrip_nonspace_head (py_rstrip (py_lstrip s)))
    by apply nonspace_head_rstrip, nonspace_head_lstrip.
  apply py_rstrip_idem.
Qed.

Lemma normalise_idem (s : string) :
  py_lower (py_strip (py_lower (py_strip s))) = py_lower (py_strip s).
Proof.
  unfold py_strip at 1. rewrite py_lstrip_lower, py_rstrip_lower, py_lower_idem.
  fold (py_strip (py_strip s)). now rewrite py_strip_idem.
Qed.

(** X18.  The parser looks at its input only after stripping surrounding
    white space and lowering the letters: two texts that agree after this
    normalisation are parsed alike, at any clock reading. *)
Theorem parse_time_input_ignores_case_and_margins (text text' : string) (now : datetime) :
  py_lower (py_strip text) = py_lower (py_strip text') ->
  parse_time_input text now = parse_time_input text' now
  /\ parse_time_input (py_lower (py_strip text)) now = parse_time_input text now.
Proof.
  intros H. unfold parse_time_input, split_date. cbv zeta.
  rewrite normalise_idem. now rewrite H.
Qed.

Lemma parse_time_input_ignores_case_and_margins_witness :
  parse_time_input "  9:30 PM " scenario_D_now = parse_time_input "9:30 pm" scenario_D_now.
Proof.
  apply (parse_time_input_ignores_case_and_margins "  9:30 PM " "9:30 pm" scenario_D_now).
  reflexivity.
Defined.

(** ** Task ids and the cancellation keyboard *)

Lemma no_char_app (p : ascii -> bool) (a b : string) :
  no_char p (a +:+ b) = no_char p a && no_char p b.
Proof.
  induction a as [|c a IH]; simpl; [reflexivity|]. now rewrite IH, andb_assoc.
Qed.

Lemma no_char_pretty_N_go (p : ascii -> bool) (x : N) (s : string) :
  (forall n, p (pretty_N_char n) = false) ->
  no_char p s = true -> no_char p (pretty_N_go x s) = true.
Proof.
  intros Hp. revert s. induction (N.lt_wf_0 x) as [x _ IH]. intros s Hs.
  destruct (decide (x = 0%N)) as [->|Hx].
  - now rewrite pretty_N_go_0.
  - rewrite pretty_N_go_step by lia. apply IH.
    + apply N.div_lt; lia.
    + simpl. now rewrite Hp, Hs.
Qed.

(** The decimal numeral of an integer consists of digits and at most a
    minus sign. *)
Lemma no_char_pretty_Z (p : ascii -> bool) (z : Z) :
  (forall n, p (pretty_N_char n) = false) -> p "-"%char = false ->
  no_char p (pretty z) = true.
Proof.
  intros Hp Hm.
  assert (HN : forall x : positive, no_char p (pretty x) = true).
  { intros x. unfold pretty, pretty_positive, pretty, pretty_N.
    destruct (decide (N.pos x = 0%N)); [discriminate|].
    now apply no_char_pretty_N_go. }
  destruct z as [|x|x]; unfold pretty, pretty_Z.
  - simpl. change "0"%char with (pretty_N_char 0). now rewrite Hp.
  - apply HN.
  - simpl. rewrite Hm. apply HN.
Qed.

Lemma digit_not_underscore (n : N) : Ascii.eqb "_" (pretty_N_char n) = false.
Proof. unfold pretty_N_char. repeat case_match; reflexivity. Qed.

Lemma digit_not_c (n : N) : Ascii.eqb "c" (pretty_N_char n) = false.
Proof. unfold pretty_N_char. repeat case_match; reflexivity. Qed.

Lemma app_underscore_inj (a a' b b' : string) :
  no_char (Ascii.eqb "_") a = true -> no_char (Ascii.eqb "_") a' = true ->
  a +:+ "_" +:+ b = a' +:+ "_" +:+ b' -> a = a' /\ b = b'.
Proof.
  revert a'. induction a as [|c a IH]; intros [|c' a']; simpl; intros Ha Ha' H.
  - injection H as H. now subst.
  - injection H as Hc _. subst c'. discriminate.
  - injection H as Hc _. subst c. discriminate.
  - injection H as Hc H. subst c'.
    apply andb_true_iff in Ha as [_ Ha]. apply andb_true_iff in Ha' as [_ Ha'].
    destruct (IH a' Ha Ha' H) as [-> ->]. now split.
Qed.

(** X19.  Two generated task ids are equal exactly when they were made for
    the same user within the same whole second of the clock. *)
Theorem make_task_id_eq_iff (uid1 uid2 unix1 unix2 : Z) :
  make_task_id uid1 unix1 = make_task_id uid2 unix2 <->
  uid1 = uid2 /\ Z.quot unix1 1000000 = Z.quot unix2 1000000.
Proof.
  split; [|now intros [-> H]; unfold make_task_id; rewrite H].
  unfold make_task_id. intros H.
  change ("task_" +:+ ?s) with (String "t" (String "a" (String "s" (String "k"
    (String "_" s))))) in H.
  injection H as H.
  apply app_underscore_inj in H as [H1 H2];
    try (apply no_char_pretty_Z; [apply digit_not_underscore|reflexivity]).
  now apply (inj pretty) in H1, H2.
Qed.

Lemma make_task_id_no_c (uid unix_time : Z) :
  no_char (Ascii.eqb "c") (make_task_id uid unix_time) = true.
Proof.
  unfold make_task_id. rewrite !no_char_app.
  rewrite !no_char_pretty_Z by (apply digit_not_c || reflexivity). reflexivity.
Qed.

Lemma py_replace_fuel_absent (fuel : nat) (s : string) :
  no_char (Ascii.eqb "c") s = true -> py_replace_fuel fuel "cancel_task_" "" s = s.
Proof.
  revert s. induction fuel as [|f IH]; intros [|c s]; simpl; try reflexivity.
  intros [Hc Hs]%andb_true_iff. apply negb_true_iff in Hc. rewrite Hc.
  now rewrite IH.
Qed.

(** The callback data of a button names the task again, when the id holds
    no letter "c". *)
Lemma callback_data_names_task (tid : string) :
  no_char (Ascii.eqb "c") tid = true ->
  py_startswith "cancel_task_" ("cancel_task_" +:+ tid) = true
  /\ py_replace "cancel_task_" "" ("cancel_task_" +:+ tid) = tid.
Proof.
  intros H. split; [reflexivity|].
  unfold py_replace. cbn [String.length append].
  cbn [py_replace_fuel py_startswith Ascii.eqb Bool.eqb String.length drop_chars append].
  now apply py_replace_fuel_absent.
Qed.

Lemma callback_data_not_menu (tid : string) :
  bool_decide ("cancel_task_" +:+ tid ∈ ["schedule"; "mytasks"; "cancel"]) = false.
Proof.
  apply bool_decide_eq_false. rewrite !elem_of_cons, elem_of_nil.
  intros [H|[H|[H|[]]]]; discriminate.
Qed.

(** X20.  The cancellation keyboard shows one button for each pending task
    of the user and no other; and pressing a button cancels the task it was
    made for: the callback data leads back to the id of that task, whose
    status becomes cancelled.  (Tasks are stored under generated ids.) *)
Theorem keyboard_button_cancels_its_task (bot : HackRxBot) (uid : Z)
    (buttons : list (string * string)) :
  (forall k t, tasks (task_manager bot) !! k = Some t ->
     task_id t = k /\ exists u s, k = make_task_id u s) ->
  start_cancellation bot uid = [ReplyKeyboard buttons] ->
  buttons <> []
  /\ (forall t, tasks (task_manager bot) !! task_id t = Some t ->
        user_id t = uid -> status t = "pending" -> In (cancel_button t) buttons)
  /\ (forall b, In b buttons ->
        exists t,
          b = cancel_button t
          /\ tasks (task_manager bot) !! task_id t = Some t
          /\ user_id t = uid /\ status t = "pending"
          /\ exists bot',
               cancel_callback bot b.2 = Some (bot', [ReplyCancelled])
               /\ tasks (task_manager bot') =
                    <[task_id t := set_status t "cancelled"]> (tasks (task_manager bot))).
Proof.
  intros Hids. unfold start_cancellation.
  set (pend := List.filter _ _).
  assert (Hpend : forall t, In t pend <->
            tasks (task_manager bot) !! task_id t = Some t
            /\ user_id t = uid /\ status t = "pending").
  { intros t. unfold pend. rewrite filter_In, In_get_user_tasks, String.eqb_eq. split.
    - intros [(k & Hk & Hu) Hs]. destruct (Hids k t Hk) as [<- _]. auto.
    - intros (Hk & Hu & Hs). eauto. }
  clearbody pend. intros Hst.
  assert (Hb : buttons = cancel_button <$> pend /\ buttons <> []).
  { destruct pend; [discriminate|]. injection Hst as <-. split; [reflexivity|discriminate]. }
  destruct Hb as [Hb Hne]. split; [exact Hne|]. subst buttons. clear Hst Hne. split.
  - intros t Hk Hu Hs. rewrite <- list_elem_of_In, list_elem_of_fmap.
    exists t. split; [reflexivity|]. rewrite list_elem_of_In. apply Hpend. auto.
  - intros b Hb. rewrite <- list_elem_of_In, list_elem_of_fmap in Hb.
    destruct Hb as (t & -> & Ht). rewrite list_elem_of_In in Ht.
    apply Hpend in Ht as (Hk & Hu & Hs). exists t.
    split; [reflexivity|]. split; [exact Hk|]. split; [exact Hu|]. split; [exact Hs|].
    destruct (Hids _ _ Hk) as [_ (u & s & Hid)].
    destruct (callback_data_names_task (task_id t)) as [Hsw Hrep];
      [rewrite Hid; apply make_task_id_no_c|].
    unfold cancel_callback, cancel_button. cbn [snd].
    rewrite callback_data_not_menu, Hsw, Hrep.
    unfold HackRxBot_cancel_task. rewrite (cancel_task_pending _ _ _ Hk Hs).
    eexists; split; reflexivity.
Qed.

Lemma keyboard_button_cancels_its_task_witness :
  exists buttons, start_cancellation one_task_bot 7 = [ReplyKeyboard buttons]
                  /\ buttons <> [].
Proof.
  eexists. split; [vm_compute; reflexivity|].
  refine (proj1 (keyboard_button_cancels_its_task one_task_bot 7 _ _ _)).
  - intros k t. unfold one_task_bot. cbn. rewrite lookup_insert.
    destruct (decide _) as [<-|]; [|now rewrite lookup_empty].
    intros [= <-]. split; [reflexivity|]. exists 7, 1705307400250000.
    vm_compute; reflexivity.
  - vm_compute; reflexivity.
Defined.

(** ** The scheduling dialogue *)

Lemma get_user_state_known (bot : HackRxBot) (uid : Z) (st : UserState) :
  user_states bot !! uid = Some st -> get_user_state bot uid = (bot, st).
Proof. intros H. unfold get_user_state. now rewrite H. Qed.

Lemma accepted_url_is_http (text url : string) :
  accepted_url text = Some url -> is_http url = true.
Proof.
  unfold accepted_url, is_http.
  destruct (String.eqb _ _); [now intros [= <-]|].
  destruct (_ || _) eqn:E; [|discriminate]. now intros [= <-].
Qed.

Lemma good_state_empty : good_state (mkUserState None None None).
Proof. repeat split; discriminate. Qed.

Lemma dialogue_inv_set (bot : HackRxBot) (uid : Z) (st : UserState) :
  dialogue_inv bot -> good_state st -> dialogue_inv (set_user_state bot uid st).
Proof.
  intros [Hs Ht] Hg. split; [|exact Ht].
  intros uid' st'. cbn [set_user_state user_states]. rewrite lookup_insert.
  destruct (decide (uid = uid')); [now intros [= <-]|apply Hs].
Qed.

Lemma good_task_set_status (k : string) (t : ScheduledTask) (s : string) :
  good_task k t -> good_task k (set_status t s).
Proof. now destruct t. Qed.

(** The three outcomes of a message: the conversation of the sender moves,
    nothing changes, or (from the notes step) the task is created. *)
Lemma handle_message_cases (bot bot' : HackRxBot) (uid : Z) (msg : string)
    (unix_time : Z) (now : datetime) (rs : list reply) :
  handle_message bot uid msg unix_time now = Ok (bot', rs) ->
  bot' = bot
  \/ (exists st', bot' = set_user_state bot uid st'
                  /\ (user_states bot !! uid = None -> st' = mkUserState None None None))
  \/ (exists st url sched,
        user_states bot !! uid = Some st /\ step st = Some "waiting_notes"
        /\ st_webhook_url st = Some url /\ st_scheduled_time st = Some sched
        /\ bot' = mkBot (delete uid (user_states bot)) true
                    (add_task (task_manager bot)
                       (new_task uid (make_task_id uid unix_time) url (py_strip msg)
                          sched now)).1
                    (workers bot)).
Proof.
  unfold handle_message.
  destruct (user_states bot !! uid) as [st|] eqn:E.
  - rewrite (get_user_state_known _ _ _ E).
    destruct (empty_state st); [intros [= <- _]; now left|].
    destruct (step st) as [s|] eqn:Es; [|intros [= <- _]; now left].
    destruct (String.eqb_spec s "waiting_time") as [->|H1].
    { unfold handle_time_input. rewrite (get_user_state_known _ _ _ E).
      destruct (parse_time_input _ now) as [dt|[]]; try discriminate.
      - intros [= <- _]. right; left. eexists. split; [reflexivity|]. discriminate.
      - intros [= <- _]. now left. }
    destruct (String.eqb_spec s "waiting_webhook") as [->|H2].
    { unfold handle_webhook_input. rewrite (get_user_state_known _ _ _ E).
      destruct (accepted_url _).
      - intros [= <- _]. right; left. eexists. split; [reflexivity|]. discriminate.
      - intros [= <- _]. now left. }
    destruct (String.eqb_spec s "waiting_notes") as [->|H3];
      [|intros [= <- _]; now left].
    unfold handle_notes_input. rewrite (get_user_state_known _ _ _ E).
    destruct (st_webhook_url st) as [url|] eqn:Eu; [|discriminate].
    destruct (st_scheduled_time st) as [sched|] eqn:Et; [|discriminate].
    cbn [mbind result_bind]. intros [= <- _]. right; right.
    exists st, url, sched. repeat (split; [assumption || reflexivity|]). reflexivity.
  - unfold get_user_state. rewrite E. cbn [empty_state step st_scheduled_time
      st_webhook_url]. intros [= <- _]. right; left. eexists. split; [reflexivity|].
    reflexivity.
Qed.

(** X21.  The scheduling dialogue keeps the store well formed, and fails
    in one case only.  If every conversation that waits for the URL holds a
    time, every conversation that waits for the notes holds a time and a
    URL, every held URL begins with http:// or https://, and every stored
    task lies under its own id with such a URL and valid datetimes, then
    the same is true after the "schedule" button and after a cancel button;
    and a text message (with the clock in IST) is either handled, leaving
    all this true, or it is a time text with the explicit date 0001-01-01
    or 9999-12-31 sent at the time step, whose OverflowError the handler
    does not catch. *)
Theorem dialogue_keeps_store_well_formed (bot : HackRxBot) (uid : Z) :
  dialogue_inv bot ->
  dialogue_inv (start_scheduling bot uid).1
  /\ (forall data bot' rs, cancel_callback bot data = Some (bot', rs) -> dialogue_inv bot')
  /\ (forall msg unix_time now,
        clock_reading now = true ->
        (exists bot' rs,
           handle_message bot uid msg unix_time now = Ok (bot', rs)
           /\ dialogue_inv bot')
        \/ (exists st e,
              user_states bot !! uid = Some st
              /\ step st = Some "waiting_time"
              /\ calendar_overflow (py_strip msg)
              /\ handle_message bot uid msg unix_time now = Raise (OverflowError e))).
Proof.
  intros Hinv. split; [|split].
  - unfold start_scheduling, get_user_state, clear_user_state.
    cbn [user_states]. rewrite lookup_delete_eq. cbn [fst].
    destruct Hinv as [Hs Ht]. split; [|exact Ht].
    intros uid' st'. cbn [set_user_state user_states]. rewrite !lookup_insert.
    destruct (decide (uid = uid')) as [<-|Hne].
    + intros [= <-]. repeat split; discriminate.
    + rewrite lookup_delete_ne by exact Hne. apply Hs.
  - intros data bot' rs. unfold cancel_callback.
    destruct (bool_decide _); [discriminate|].
    destruct (py_startswith _ _); [|discriminate].
    unfold HackRxBot_cancel_task, cancel_task.
    generalize (py_replace "cancel_task_" "" data). intros tid.
    destruct Hinv as [Hs Ht].
    destruct (tasks (task_manager bot) !! tid) as [t|] eqn:E.
    + destruct (String.eqb _ _).
      * intros [= <- _]. split; [exact Hs|].
        intros k t'. cbn. rewrite lookup_insert.
        destruct (decide (tid = k)) as [<-|]; [|apply Ht].
        intros [= <-]. apply good_task_set_status. now apply Ht.
      * intros [= <- _]. now destruct bot.
    + intros [= <- _]. now destruct bot.
  - intros msg unix_time now Hnow.
    pose proof (clock_reading_spec now Hnow) as (Hd & Htm & Hz & _).
    assert (Hvnow : valid_datetime now = true).
    { unfold clock_reading in Hnow. now rewrite !andb_true_iff in Hnow. }
    pose proof Hinv as [Hs Ht]. unfold handle_message.
    destruct (user_states bot !! uid) as [st|] eqn:E.
    2:{ left. unfold get_user_state. rewrite E.
        cbn [empty_state step st_scheduled_time st_webhook_url].
        eexists _, _. split; [reflexivity|].
        apply (dialogue_inv_set bot uid _ (conj Hs Ht) good_state_empty). }
    rewrite (get_user_state_known _ _ _ E).
    destruct (Hs uid st E) as (Hurl & Htime & Hw & Hn).
    destruct (empty_state st); [left; now eexists _, _|].
    destruct (step st) as [s|] eqn:Es; [|left; now eexists _, _].
    destruct (String.eqb_spec s "waiting_time") as [->|H1].
    { unfold handle_time_input. rewrite (get_user_state_known _ _ _ E).
      destruct (parse_time_input_outcome (py_strip msg) now Hnow)
        as [(dt & -> & Hv & _)|[(m & -> & _)|(m & -> & Hof & _)]].
      - left. eexists _, _. split; [reflexivity|].
        apply dialogue_inv_set; [now split|].
        cbn. split; [exact Hurl|]. split; [now intros ? [= <-]|].
        split; [eauto|discriminate].
      - left. now eexists _, _.
      - right. exists st, m. auto. }
    left.
    destruct (String.eqb_spec s "waiting_webhook") as [->|H2].
    { unfold handle_webhook_input. rewrite (get_user_state_known _ _ _ E).
      destruct (accepted_url (py_strip msg)) as [url|] eqn:Eu; [|now eexists _, _].
      eexists _, _. split; [reflexivity|].
      apply dialogue_inv_set; [now split|].
      cbn. split; [intros ? [= <-]; exact (accepted_url_is_http _ _ Eu)|].
      split; [exact Htime|]. split; [discriminate|]. intros _. split; [auto|eauto]. }
    destruct (String.eqb_spec s "waiting_notes") as [->|H3]; [|now eexists _, _].
    unfold handle_notes_input. rewrite (get_user_state_known _ _ _ E).
    destruct (Hn eq_refl) as [[sched Hsched] [url Hu]]. rewrite Hu, Hsched.
    cbn [mbind result_bind]. eexists _, _. split; [reflexivity|].
    split.
    + intros uid' st'. cbn. intros [_ H]%lookup_delete_Some. now apply (Hs uid').
    + intros k t. cbn. rewrite lookup_insert.
      destruct (decide (make_task_id uid unix_time = k)) as [<-|]; [|apply Ht].
      intros [= <-]. split; [reflexivity|]. split; [exact (Hurl _ Hu)|].
      unfold valid_task. cbn. now rewrite (Htime _ Hsched), Hvnow.
Qed.

Lemma dialogue_keeps_store_well_formed_witness :
  dialogue_inv (start_scheduling (HackRxBot_init None) 7).1.
Proof.
  refine (proj1 (dialogue_keeps_store_well_formed (HackRxBot_init None) 7 _)).
  split.
  - intros uid st. cbn. now rewrite lookup_empty.
  - intros k t. cbn. now rewrite lookup_empty.
Defined.

(** X22.  The whole dialogue.  After the "schedule" button, a message
    that parses to [dt], then a message that is accepted as the URL [url],
    then any message with the notes: the three replies confirm each step,
    the store gains exactly one pending task of the user (id made from the
    user and the second of the last message, the URL, the stripped notes,
    the time [dt]), the conversation of the user is forgotten and the
    scheduler is running. *)
Theorem scheduling_dialogue_creates_task (bot : HackRxBot) (uid : Z)
    (m1 m2 m3 : string) (u1 u2 u3 : Z) (now1 now2 now3 : datetime)
    (dt : datetime) (url : string) :
  parse_time_input (py_strip m1) now1 = Ok dt ->
  accepted_url (py_strip m2) = Some url ->
  exists b1 b2 b3,
    handle_message (start_scheduling bot uid).1 uid m1 u1 now1 = Ok (b1, [ReplyTimeSet dt])
    /\ handle_message b1 uid m2 u2 now2 = Ok (b2, [ReplyWebhookSet])
    /\ handle_message b2 uid m3 u3 now3 = Ok (b3, [ReplyScheduled])
    /\ tasks (task_manager b3) =
         <[make_task_id uid u3 :=
             new_task uid (make_task_id uid u3) url (py_strip m3) dt now3]>
           (tasks (task_manager bot))
    /\ user_states b3 !! uid = None
    /\ (forall uid', uid' <> uid -> user_states b3 !! uid' = user_states bot !! uid')
    /\ scheduler_running b3 = true.
Proof.
  intros Hp Hu.
  set (st1 := mkUserState (Some "waiting_time") None None).
  set (st2 := mkUserState (Some "waiting_webhook") (Some dt) None).
  set (st3 := mkUserState (Some "waiting_notes") (Some dt) (Some url)).
  assert (H0 : (start_scheduling bot uid).1 =
               set_user_state (clear_user_state bot uid) uid st1).
  { unfold start_scheduling, get_user_state, clear_user_state.
    cbn [user_states]. rewrite lookup_delete_eq. cbn [fst].
    unfold set_user_state. cbn. now rewrite insert_insert_eq. }
  set (b0 := set_user_state (clear_user_state bot uid) uid st1) in *.
  set (b1 := set_user_state b0 uid st2).
  set (b2 := set_user_state b1 uid st3).
  assert (L0 : user_states b0 !! uid = Some st1) by apply lookup_insert_eq.
  assert (L1 : user_states b1 !! uid = Some st2) by apply lookup_insert_eq.
  assert (L2 : user_states b2 !! uid = Some st3) by apply lookup_insert_eq.
  exists b1, b2. eexists. rewrite H0.
  split.
  { unfold handle_message. rewrite (get_user_state_known _ _ _ L0).
    cbn [empty_state step st1 st_scheduled_time st_webhook_url String.eqb Ascii.eqb
         Bool.eqb].
    unfold handle_time_input. rewrite (get_user_state_known _ _ _ L0), Hp.
    reflexivity. }
  split.
  { unfold handle_message. rewrite (get_user_state_known _ _ _ L1).
    cbn [empty_state step st2 st_scheduled_time st_webhook_url String.eqb Ascii.eqb
         Bool.eqb].
    unfold handle_webhook_input. rewrite (get_user_state_known _ _ _ L1), Hu.
    reflexivity. }
  split.
  { unfold handle_message. rewrite (get_user_state_known _ _ _ L2).
    cbn [empty_state step st3 st_scheduled_time st_webhook_url String.eqb Ascii.eqb
         Bool.eqb].
    unfold handle_notes_input. rewrite (get_user_state_known _ _ _ L2).
    cbn [st3 st_scheduled_time st_webhook_url mbind result_bind]. reflexivity. }
  cbn. split; [reflexivity|]. split; [apply lookup_delete_eq|]. split; [|reflexivity].
  intros uid' Hne. rewrite lookup_delete_ne by congruence.
  rewrite !lookup_insert_ne by congruence. now rewrite lookup_delete_ne by congruence.
Qed.

Lemma scheduling_dialogue_creates_task_witness :
  exists b3,
    handle_message
      (set_user_state (HackRxBot_init None) 7
         (mkUserState (Some "waiting_notes")
            (Some (mkdt (mkdate 2024 1 15) (mktime 20 15 0 0) (Some IST_offset)))
            (Some DEFAULT_WEBHOOK_URL)))
      7 " nightly run " 1705307400250000 scenario_D_now = Ok (b3, [ReplyScheduled])
    /\ user_states b3 !! 7 = None.
Proof.
  destruct (scheduling_dialogue_creates_task (HackRxBot_init None) 7
              "20:15" "Default" " nightly run " 0 0 1705307400250000
              scenario_D_now scenario_D_now scenario_D_now
              (mkdt (mkdate 2024 1 15) (mktime 20 15 0 0) (Some IST_offset))
              DEFAULT_WEBHOOK_URL eq_refl eq_refl)
    as (b1 & b2 & b3 & H1 & H2 & H3 & _ & H5 & _).
  exists b3. split; [|exact H5].
  injection H1 as <-. injection H2 as <-. exact H3.
Defined.

(** X23.  A text message touches nothing but the conversation of its
    sender, and the task store only from the notes step: the states of the
    other users and the running workers are as before; unless the sender
    was at the notes step, the stored tasks, the file and the scheduler flag
    are as before too; and no stored task is ever removed or replaced under
    another id than the one just made. *)
Theorem message_changes_only_its_conversation (bot bot' : HackRxBot) (uid : Z)
    (msg : string) (unix_time : Z) (now : datetime) (rs : list reply) :
  handle_message bot uid msg unix_time now = Ok (bot', rs) ->
  (forall uid', uid' <> uid -> user_states bot' !! uid' = user_states bot !! uid')
  /\ workers bot' = workers bot
  /\ ((forall st, user_states bot !! uid = Some st -> step st <> Some "waiting_notes") ->
      task_manager bot' = task_manager bot
      /\ scheduler_running bot' = scheduler_running bot)
  /\ (forall k, k <> make_task_id uid unix_time ->
        tasks (task_manager bot') !! k = tasks (task_manager bot) !! k).
Proof.
  intros [->|[(st' & -> & _)|(st & url & sched & E & Es & _ & _ & ->)]]%handle_message_cases.
  - repeat split; reflexivity.
  - split; [|repeat split; reflexivity].
    intros uid' Hne. cbn. now rewrite lookup_insert_ne by congruence.
  - split; [|split; [reflexivity|split]].
    + intros uid' Hne. cbn. now rewrite lookup_delete_ne by congruence.
    + intros H. now destruct (H st E).
    + intros k Hk. cbn. now rewrite lookup_insert_ne by congruence.
Qed.

Lemma message_changes_only_its_conversation_witness :
  workers (set_user_state (HackRxBot_init None) 7 (mkUserState None None None)) =
  workers (HackRxBot_init None).
Proof.
  refine (proj1 (proj2 (message_changes_only_its_conversation (HackRxBot_init None)
                          (set_user_state (HackRxBot_init None) 7
                             (mkUserState None None None))
                          7 "hello" 0 scenario_D_now [ReplyPleaseStart] _))).
  reflexivity.
Defined.
